(** * golintci/pkg/golang: the free-form loading model

    A shallow embedding of the Go package [golang] of yukimula918/golintci:
    the module descriptor reader ([newModule]), the module lookup
    ([goModFileOf], [initProgram]), package path inference
    ([readGoPackageIn], [inferGoPkgInfo]), the heap objects [Program],
    [Package] and [SrcFile] with their idempotent factories, the free-form
    loaders of [load.go], [LoadBaseFile] of [api.go] and the second manifest
    lookup ([findGoModFileOf], [findPackagePath]).

    Conventions.
    - Go strings are byte strings ([string]); [TrimSpace] reads them as
      UTF-8, as Go does.
    - Go pointers are locations of a [Store]; a nil pointer is [None].
    - The file system is an input: a tree of nodes plus a working directory.
      Paths are Unix paths (separator [/]); symbolic links are not modelled.
    - go/parser and go/types are external: they enter as oracles
      ([goParse], and [goCheck] for the checker as [load.go] configures it,
      [goCheckBase] as [LoadBaseFile] does); everything around them follows
      the source.
    - A run-time panic (nil dereference) is the outcome [None] of a
      computation in the monad [M].
    - The two unbounded loops, in [goModFileOf] and [findGoModFileOf], run
      on fuel; the fuel they are given always suffices. *)

From Stdlib Require Import ZArith Lia.
From stdpp Require Import base option strings list gmap.

Set Warnings "-register-all".
Set Default Proof Using "Type".

Local Open Scope string_scope.
Local Open Scope Z_scope.

(** ** Strings: the functions of Go's [strings] package that the code uses *)

Module Strings.

Definition chr (n : nat) : string := String (Ascii.ascii_of_nat n) EmptyString.

(** [strings.HasPrefix(s, prefix)] *)
Definition HasPrefix (s prefix : string) : bool := String.prefix prefix s.

Fixpoint drop (n : nat) (s : string) : string :=
  match n, s with
  | O, _ => s
  | S k, String _ r => drop k r
  | S _, EmptyString => EmptyString
  end.

(** [s[n:]] for [n <= len(s)] *)
Definition sliceFrom (s : string) (n : nat) : string := drop n s.

(** [strings.HasSuffix(s, suffix)] *)
Definition HasSuffix (s suffix : string) : bool :=
  (String.length suffix <=? String.length s)%nat
  && String.eqb (drop (String.length s - String.length suffix) s) suffix.

Definition isSpace (c : Ascii.ascii) : bool :=
  let n := Ascii.nat_of_ascii c in
  ((9 <=? n)%nat && (n <=? 13)%nat) || (n =? 32)%nat.

Fixpoint trimLeft (f : Ascii.ascii -> bool) (s : string) : string :=
  match s with
  | String c r => if f c then trimLeft f r else s
  | EmptyString => EmptyString
  end.

Fixpoint trimRight (f : Ascii.ascii -> bool) (s : string) : string :=
  match s with
  | String c r =>
      match trimRight f r with
      | EmptyString => if f c then EmptyString else String c EmptyString
      | r' => String c r'
      end
  | EmptyString => EmptyString
  end.

(** The white space of [unicode.IsSpace], as UTF-8 puts it in a string.
    [isSpace] above has the characters of one byte: tab, line feed, vertical
    tab, form feed, carriage return and space. Of two bytes: U+0085 (next
    line) and U+00A0 (no-break space). *)
Definition isSpace2 (a b : Ascii.ascii) : bool :=
  let b := Ascii.nat_of_ascii b in
  (Ascii.nat_of_ascii a =? 194)%nat && ((b =? 133)%nat || (b =? 160)%nat).

(** Of three bytes: U+1680, U+2000 to U+200A, U+2028, U+2029, U+202F,
    U+205F and U+3000. *)
Definition isSpace3 (a b c : Ascii.ascii) : bool :=
  let a := Ascii.nat_of_ascii a in
  let b := Ascii.nat_of_ascii b in
  let c := Ascii.nat_of_ascii c in
  ((a =? 225)%nat && (b =? 154)%nat && (c =? 128)%nat)
  || ((a =? 226)%nat && (b =? 128)%nat
      && (((128 <=? c)%nat && (c <=? 138)%nat)
          || (c =? 168)%nat || (c =? 169)%nat || (c =? 175)%nat))
  || ((a =? 226)%nat && (b =? 129)%nat && (c =? 159)%nat)
  || ((a =? 227)%nat && (b =? 128)%nat && (c =? 128)%nat).

(** [s] is the encoding of one white-space character. *)
Definition isSpaceRune (s : string) : bool :=
  match s with
  | String a EmptyString => isSpace a
  | String a (String b EmptyString) => isSpace2 a b
  | String a (String b (String c EmptyString)) => isSpace3 a b c
  | _ => false
  end.

(** [strings.TrimLeftFunc(s, unicode.IsSpace)]: the characters are decoded
    from the left; a byte that begins no well-formed character decodes to
    U+FFFD, which is no white space, and ends the trimming. *)
Fixpoint trimLeftSpace (s : string) : string :=
  match s with
  | String a r =>
      if isSpace a then trimLeftSpace r
      else
        match r with
        | String b r2 =>
            if isSpace2 a b then trimLeftSpace r2
            else
              match r2 with
              | String c r3 => if isSpace3 a b c then trimLeftSpace r3 else s
              | EmptyString => s
              end
        | EmptyString => s
        end
  | EmptyString => EmptyString
  end.

(** [strings.TrimRightFunc(s, unicode.IsSpace)]: the characters are decoded
    from the right. What is left of [String c r] is nothing when [c] begins
    a white-space character that ends where the white space at the end of
    [r] begins. *)
Fixpoint trimRightSpace (s : string) : string :=
  match s with
  | String c r =>
      let r' := trimRightSpace r in
      if isSpaceRune (String c r') then EmptyString else String c r'
  | EmptyString => EmptyString
  end.

(** [strings.TrimSpace(s)]: [s] without all leading and trailing white
    space, as defined by Unicode. *)
Definition TrimSpace (s : string) : string := trimRightSpace (trimLeftSpace s).

(** A string of ASCII characters only. *)
Fixpoint allAscii (s : string) : bool :=
  match s with
  | String c r => (Ascii.nat_of_ascii c <? 128)%nat && allAscii r
  | EmptyString => true
  end.

Fixpoint contains (cutset : string) (c : Ascii.ascii) : bool :=
  match cutset with
  | String d r => Ascii.eqb c d || contains r c
  | EmptyString => false
  end.

(** [strings.Trim(s, cutset)] *)
Definition Trim (s cutset : string) : string :=
  trimRight (contains cutset) (trimLeft (contains cutset) s).

Fixpoint pieces (sep : string) (skip : nat) (s : string) : list string :=
  match s with
  | EmptyString => [EmptyString]
  | String c r =>
      match skip with
      | S k => pieces sep k r
      | O =>
          if String.prefix sep s
          then EmptyString :: pieces sep (String.length sep - 1) r
          else match pieces sep 0 r with
               | p :: ps => String c p :: ps
               | [] => [String c EmptyString]
               end
      end
  end.

Fixpoint explode (s : string) : list string :=
  match s with
  | EmptyString => []
  | String c r => String c EmptyString :: explode r
  end.

(** [strings.Split(s, sep)] *)
Definition Split (s sep : string) : list string :=
  match sep with
  | EmptyString => explode s
  | _ => pieces sep 0 s
  end.

(** [strings.Join(elems, sep)] *)
Fixpoint Join (elems : list string) (sep : string) : string :=
  match elems with
  | [] => EmptyString
  | [e] => e
  | e :: r => e +:+ sep +:+ Join r sep
  end.

End Strings.

(** ** Paths: the functions of Go's [path/filepath] that the code uses (Unix) *)

Module Filepath.
Import Strings.

Definition Separator : string := "/".

(** [filepath.IsAbs] *)
Definition IsAbs (path : string) : bool := HasPrefix path Separator.

Definition nonEmpty (s : string) : bool := negb (String.eqb s EmptyString).

(** The elements of a path: the non-empty pieces between separators. *)
Definition elements (path : string) : list string :=
  filter (fun e => nonEmpty e = true) (Split path Separator).

(** One step of [Clean]: [stack] holds the elements kept so far, last first. *)
Definition cleanStep (rooted : bool) (stack : list string) (e : string) : list string :=
  if String.eqb e "." then stack
  else if String.eqb e ".." then
    match stack with
    | top :: below => if String.eqb top ".." then e :: stack else below
    | [] => if rooted then [] else [e]
    end
  else e :: stack.

(** [filepath.Clean]: the shortest equivalent path by lexical processing. *)
Definition Clean (path : string) : string :=
  let rooted := IsAbs path in
  let kept := rev (fold_left (cleanStep rooted) (elements path) []) in
  if rooted then Separator +:+ Join kept Separator
  else match kept with
       | [] => "."
       | _ => Join kept Separator
       end.

(** [filepath.Join] of two elements: empty elements are ignored. *)
Definition Join2 (a b : string) : string :=
  if nonEmpty a then Clean (a +:+ Separator +:+ b)
  else if nonEmpty b then Clean b
  else EmptyString.

Definition slash : Ascii.ascii := Ascii.ascii_of_nat 47.

Fixpoint lastSlash (s : string) : option nat :=
  match s with
  | EmptyString => None
  | String c r =>
      match lastSlash r with
      | Some i => Some (S i)
      | None => if Ascii.eqb c slash then Some O else None
      end
  end.

Fixpoint take (n : nat) (s : string) : string :=
  match n, s with
  | S k, String c r => String c (take k r)
  | _, _ => EmptyString
  end.

(** [filepath.Dir]: all but the last element, cleaned. *)
Definition Dir (path : string) : string :=
  match lastSlash path with
  | Some i => Clean (take (S i) path)
  | None => Clean EmptyString
  end.

(** [filepath.Base]: the last element; trailing separators are dropped. *)
Definition Base (path : string) : string :=
  if nonEmpty path then
    match rev (elements path) with
    | e :: _ => e
    | [] => Separator
    end
  else ".".

Fixpoint dropCommon (base targ : list string) : list string * list string :=
  match base, targ with
  | b :: bs, t :: ts => if String.eqb b t then dropCommon bs ts else (base, targ)
  | _, _ => (base, targ)
  end.

(** [filepath.Rel(basepath, targpath)]: [None] is the error
    "Rel: can't make targpath relative to basepath". *)
Definition Rel (basepath targpath : string) : option string :=
  let base := Clean basepath in
  let targ := Clean targpath in
  if String.eqb targ base then Some "."
  else if negb (Bool.eqb (IsAbs base) (IsAbs targ)) then None
  else
    let bs := if String.eqb base "." then [] else elements base in
    let '(brest, trest) := dropCommon bs (elements targ) in
    match brest with
    | b :: _ =>
        if String.eqb b ".." then None
        else Some (Join (map (fun _ => "..") brest ++ trest) Separator)
    | [] => Some (Join trest Separator)
    end.

End Filepath.

(** ** The file system and Go's [error] values *)

Module Os.
Import Strings Filepath.

(** A file is readable ([Some data]) or present but unreadable ([None]). *)
Inductive Node :=
| Regular (data : option string)
| Directory (entries : gmap string Node).

Record FileSystem := {
  root : gmap string Node;   (* the entries of [/] *)
  cwd : string;              (* os.Getwd *)
}.

Inductive errno := ENOENT | ENOTDIR | EISDIR | EACCES.

Inductive error :=
| PathError (op path : string) (code : errno)   (* fs.PathError of os.Stat, os.ReadFile, os.ReadDir *)
| Errorf (format arg : string)                  (* fmt.Errorf(format, arg) *)
| ParseError (msg : string)                     (* an error list of go/parser *)
| TypeError (msg : string).                     (* the first error of go/types *)

Inductive result (A : Type) :=
| Ok (a : A)
| Err (e : error).
Global Arguments Ok {A} a.
Global Arguments Err {A} e.

(** [os.IsNotExist(err)] for a non-nil [err] *)
Definition IsNotExist (e : error) : bool :=
  match e with
  | PathError _ _ ENOENT => true
  | _ => false
  end.

Record FileInfo := { IsDir : bool }.

(** [filepath.Abs]: the working directory is always available here. *)
Definition Abs (fs : FileSystem) (path : string) : string :=
  if IsAbs path then Clean path else Join2 (cwd fs) path.

Fixpoint walk (n : Node) (elems : list string) : errno + Node :=
  match elems with
  | [] => inr n
  | e :: rest =>
      match n with
      | Regular _ => inl ENOTDIR
      | Directory entries =>
          match entries !! e with
          | Some child => walk child rest
          | None => inl ENOENT
          end
      end
  end.

Definition resolve (fs : FileSystem) (name : string) : errno + Node :=
  if nonEmpty name then walk (Directory (root fs)) (elements (Abs fs name))
  else inl ENOENT.

(** [os.Stat(name)] *)
Definition Stat (fs : FileSystem) (name : string) : result FileInfo :=
  match resolve fs name with
  | inr (Directory _) => Ok {| IsDir := true |}
  | inr (Regular _) => Ok {| IsDir := false |}
  | inl code => Err (PathError "stat" name code)
  end.

(** [os.ReadFile(name)] *)
Definition ReadFile (fs : FileSystem) (name : string) : result string :=
  match resolve fs name with
  | inr (Regular (Some data)) => Ok data
  | inr (Regular None) => Err (PathError "open" name EACCES)
  | inr (Directory _) => Err (PathError "read" name EISDIR)
  | inl code => Err (PathError "open" name code)
  end.

Fixpoint insertSorted (x : string) (l : list string) : list string :=
  match l with
  | [] => [x]
  | y :: r => if String.leb x y then x :: l else y :: insertSorted x r
  end.

Definition sortNames (l : list string) : list string := foldr insertSorted [] l.

(** [os.ReadDir(name)]: the entries, sorted by file name. *)
Definition ReadDir (fs : FileSystem) (name : string) : result (list (string * Node)) :=
  match resolve fs name with
  | inr (Directory entries) =>
      Ok (omap (fun n => pair n <$> entries !! n) (sortNames (map fst (map_to_list entries))))
  | inr (Regular _) => Err (PathError "open" name ENOTDIR)
  | inl code => Err (PathError "open" name code)
  end.

(** The pattern [if _, err := os.Stat(p); os.IsNotExist(err)]: the error
    when the path does not exist. *)
Definition statNotExist (fs : FileSystem) (name : string) : option error :=
  match Stat fs name with
  | Err e => if IsNotExist e then Some e else None
  | Ok _ => None
  end.

End Os.

(** ** Constants ([const.go]) *)

Module Const.
Import Strings.

Definition NoneString : string := EmptyString.
Definition GoFileSuffix : string := ".go".
Definition GoModFileName : string := "go.mod".
Definition PathSeparator : string := "/".
Definition GoModulePrefix : string := "module ".

(** The seven constants below are used by [newModule] and
    [readGoPackageIn] and declared in no file at hand. *)

(** Modelled from the spec: the separator of the lines of a manifest or
    source file, missing from [const.go]; what [newline()] returns on Unix. *)
Definition NewLine : string := chr 10.

(** Modelled from the spec: the module-declaration keyword that begins the
    module line of a manifest, missing from [const.go]; it agrees with
    [GoModulePrefix]. *)
Definition ModulePrefix : string := "module ".

(** Modelled from the spec: the version-declaration keyword that begins
    the language-version line of a manifest, missing from [const.go]. *)
Definition VersionPrefix : string := "go ".

(** Modelled from the spec: the tab character that begins a dependency
    line, missing from [const.go]. *)
Definition TabString : string := chr 9.

(** Modelled from the spec: the white space on which a dependency line is
    split, missing from [const.go]. *)
Definition SpaceChar : string := " ".

(** Modelled from the spec: the literal indirect marker, the last
    white-space-delimited token of a line that ends in [// indirect],
    missing from [const.go]. *)
Definition GoModIndirect : string := "indirect".

(** Modelled from the spec: the package-declaration keyword that begins
    the package line of a source file, missing from [const.go]. *)
Definition PackagePrefix : string := "package ".

End Const.

Import Strings Filepath Os Const.

(** ** The module descriptor ([Module], [newModule]) *)

Record Module := {
  RootPath : string;
  GoVersion : string;
  GoModFile : string;
  ModuleName : string;
  DirectDeps : gmap string string;
  IndirectDeps : gmap string string;
}.

Definition setModuleName (m : Module) (v : string) : Module :=
  {| RootPath := RootPath m; GoVersion := GoVersion m; GoModFile := GoModFile m;
     ModuleName := v; DirectDeps := DirectDeps m; IndirectDeps := IndirectDeps m |}.

Definition setGoVersion (m : Module) (v : string) : Module :=
  {| RootPath := RootPath m; GoVersion := v; GoModFile := GoModFile m;
     ModuleName := ModuleName m; DirectDeps := DirectDeps m; IndirectDeps := IndirectDeps m |}.

Definition setDirectDeps (m : Module) (d : gmap string string) : Module :=
  {| RootPath := RootPath m; GoVersion := GoVersion m; GoModFile := GoModFile m;
     ModuleName := ModuleName m; DirectDeps := d; IndirectDeps := IndirectDeps m |}.

Definition setIndirectDeps (m : Module) (d : gmap string string) : Module :=
  {| RootPath := RootPath m; GoVersion := GoVersion m; GoModFile := GoModFile m;
     ModuleName := ModuleName m; DirectDeps := DirectDeps m; IndirectDeps := d |}.

(** The body of the loop of step 3 of [newModule], for one line. *)
Definition goModLine (module : Module) (line : string) : Module :=
  if HasPrefix line ModulePrefix then
    setModuleName module (TrimSpace (sliceFrom line (String.length ModulePrefix)))
  else if HasPrefix line VersionPrefix then
    setGoVersion module (TrimSpace (sliceFrom line (String.length VersionPrefix)))
  else if HasPrefix line TabString then
    let items := Split (TrimSpace line) SpaceChar in
    match items with
    | item0 :: item1 :: _ =>
        let depPkgPath := TrimSpace item0 in
        let depVersion := TrimSpace item1 in
        let lastItem := TrimSpace (List.last items EmptyString) in
        if String.eqb lastItem GoModIndirect then
          setIndirectDeps module (<[depPkgPath := depVersion]> (IndirectDeps module))
        else
          setDirectDeps module (<[depPkgPath := depVersion]> (DirectDeps module))
    | _ => module
    end
  else module.

(** [newModule] returns the Module information read from the path of go.mod. *)
Definition newModule (fs : FileSystem) (goModFile : string) : result Module :=
  (* 1. check the existence of input 'go.mod' file *)
  match statNotExist fs goModFile with
  | Some err => Err err
  | None =>
      if negb (HasSuffix goModFile GoModFileName) then
        Err (Errorf "not go.mod: %s" goModFile)
      else
        (* 2. read the lines of text from 'go.mod' file *)
        let goModFile := Abs fs goModFile in
        match ReadFile fs goModFile with
        | Err err => Err err
        | Ok bytes =>
            if (String.length bytes =? 0)%nat then
              Err (Errorf "empty file: %s" goModFile)
            else
              let lines := Split bytes NewLine in
              let module := {| RootPath := Dir goModFile; GoVersion := EmptyString;
                               GoModFile := goModFile; ModuleName := EmptyString;
                               DirectDeps := ∅; IndirectDeps := ∅ |} in
              (* 3. construct the go.mod lines in the Module *)
              Ok (fold_left goModLine lines module)
        end
  end.

(** The loop of [goModFileOf]. Every turn replaces the path by its parent,
    which is shorter, so [String.length cwdPath] turns are enough; [None]
    stands for a loop that has not ended within [fuel] turns. *)
Fixpoint goModFileLoop (fs : FileSystem) (cwd : string) (fuel : nat) (cwdPath : string)
  : option (result string) :=
  if nonEmpty cwdPath && negb (String.eqb cwdPath "/")
     && negb (String.eqb cwdPath ".") && negb (String.eqb cwdPath "..")
  then
    match fuel with
    | O => None
    | S fuel' =>
        let goModFile := Join2 cwdPath GoModFileName in
        match statNotExist fs goModFile with
        | None => Some (Ok cwdPath)
        | Some _ => goModFileLoop fs cwd fuel' (Dir cwdPath)
        end
    end
  else Some (Err (Errorf "couldn't find `go.mod` file from: %s" cwd)).

(** [goModFileOf]: note that the value returned on success is [cwdPath],
    the directory in which the manifest was seen. *)
Definition goModFileOf (fs : FileSystem) (cwd : string) : option (result string) :=
  let cwdPath := Abs fs cwd in
  goModFileLoop fs cwd (String.length cwdPath) cwdPath.

(** ** Positions ([go/token]) and syntax trees ([go/ast]) *)

Definition Pos := Z.
Definition NoPos : Pos := 0.

(** [token.Pos.IsValid] *)
Definition Pos_IsValid (p : Pos) : bool := negb (p =? NoPos).

Record TokenFile := { tf_name : string; tf_base : Z; tf_size : Z }.

(** A [token.FileSet]: the position table. Line directives are not modelled,
    so a position resolves to the name under which its file was added. *)
Record FileSet := { fset_base : Z; fset_files : list TokenFile }.

Record Position := { Filename : string; Offset : Z }.

(** [token.NewFileSet()] *)
Definition NewFileSet : FileSet := {| fset_base := 1; fset_files := [] |}.

(** [FileSet.AddFile(filename, -1, size)] *)
Definition AddFile (s : FileSet) (filename : string) (size : Z) : FileSet :=
  {| fset_base := fset_base s + size + 1;
     fset_files := fset_files s ++
       [{| tf_name := filename; tf_base := fset_base s; tf_size := size |}] |}.

Definition inFile (p : Pos) (f : TokenFile) : bool :=
  (tf_base f <=? p) && (p <=? tf_base f + tf_size f).

(** [FileSet.Position(p)]: the zero Position for [NoPos] and for a
    position that lies in no file. *)
Definition FileSet_Position (s : FileSet) (p : Pos) : Position :=
  if Pos_IsValid p then
    match List.find (inFile p) (fset_files s) with
    | Some f => {| Filename := tf_name f; Offset := p - tf_base f |}
    | None => {| Filename := EmptyString; Offset := 0 |}
    end
  else {| Filename := EmptyString; Offset := 0 |}.

(** What go/parser makes of one source text, positions as offsets. An
    import is [None] when its spec or its path literal is nil. *)
Record ParsedFile := {
  pf_name : string;                 (* the declared package name *)
  pf_package : Z;                   (* offset of the keyword [package] *)
  pf_imports : list (option string) (* the import path literals, quoted *)
}.

(** An [ast.File]; [Pos()] of a file is the position of its package keyword. *)
Record AstFile := {
  ast_Name : string;
  ast_Package : Pos;
  ast_Imports : list (option string);
}.

Definition AstFile_Pos (f : AstFile) : Pos := ast_Package f.

(** An [ast.Package]: the files of one declared name, by file name. *)
Record AstPackage := {
  ap_Name : string;
  ap_Files : gmap string (option AstFile);   (* a syntax tree may be nil *)
}.

(** [ssa.Member], as far as the model reads it. *)
Record Member := { Member_Name : string; Member_Pos : Pos }.

(** ** The results of go/types *)

Record TypesPackage := { tpkg_path : string; tpkg_name : string }.
Definition TypesInfo := list (Pos * string).
Definition TypesSizes := string.

Record CheckResult := {
  chk_typePkg : option TypesPackage;
  chk_typeErr : option error;
  chk_typeInfo : TypesInfo;
}.

(** ** The model objects ([pkgs.go], [Program], [SrcFile]) *)

Definition loc := nat.

Record LoadInfo := {
  LoadTime : nat;
  LoadedFiles : list string;
  IgnoredFiles : list string;
  IllTyped : bool;
  FileErrors : list error;
  TypeErrors : list error;
  DepsErrors : list error;
}.

Record Package := {
  program : option loc;
  pkgName : string;
  pkgPath : string;
  dirPath : string;
  loadInfo : option LoadInfo;
  srcFiles : gmap string loc;
  fileSet : option loc;
  imports : list string;
  typePkg : option TypesPackage;
  typInfo : option TypesInfo;
  typSize : option TypesSizes;
}.

Record SrcFile := {
  pkg : option loc;
  path : string;
  code : string;
  syntax : option AstFile;
  memSet : list Member;
}.

(** The registry holds the pointers that [newPackage] returned, none nil. *)
Record Program := {
  pkgSet : gmap string loc;
  module : option Module;
}.

(** The heap, the clock read by [time.Now], and the record of the calls
    made to the type checker (import path and syntax set of each). *)
Record Store := {
  programs : gmap loc Program;
  packages : gmap loc Package;
  files : gmap loc SrcFile;
  fileSets : gmap loc FileSet;
  clock : nat;
  checkLog : list (string * list AstFile);
}.

Definition emptyStore : Store :=
  {| programs := ∅; packages := ∅; files := ∅; fileSets := ∅; clock := 0; checkLog := [] |}.

Definition withPrograms (σ : Store) (v : gmap loc Program) : Store :=
  {| programs := v; packages := packages σ; files := files σ;
     fileSets := fileSets σ; clock := clock σ; checkLog := checkLog σ |}.
Definition withPackages (σ : Store) (v : gmap loc Package) : Store :=
  {| programs := programs σ; packages := v; files := files σ;
     fileSets := fileSets σ; clock := clock σ; checkLog := checkLog σ |}.
Definition withFiles (σ : Store) (v : gmap loc SrcFile) : Store :=
  {| programs := programs σ; packages := packages σ; files := v;
     fileSets := fileSets σ; clock := clock σ; checkLog := checkLog σ |}.
Definition withFileSets (σ : Store) (v : gmap loc FileSet) : Store :=
  {| programs := programs σ; packages := packages σ; files := files σ;
     fileSets := v; clock := clock σ; checkLog := checkLog σ |}.
Definition withClock (σ : Store) (v : nat) : Store :=
  {| programs := programs σ; packages := packages σ; files := files σ;
     fileSets := fileSets σ; clock := v; checkLog := checkLog σ |}.
Definition withCheckLog (σ : Store) (v : list (string * list AstFile)) : Store :=
  {| programs := programs σ; packages := packages σ; files := files σ;
     fileSets := fileSets σ; clock := clock σ; checkLog := v |}.

(** ** Computations on the store; [None] is a panic or an unfinished loop *)

Definition M (A : Type) : Type := Store -> option (A * Store).

Definition ret {A} (a : A) : M A := fun σ => Some (a, σ).
Definition bind {A B} (m : M A) (k : A -> M B) : M B :=
  fun σ => match m σ with
           | Some (a, σ') => k a σ'
           | None => None
           end.
Definition panic {A} : M A := fun _ => None.

Notation "'let*' x ':=' m 'in' k" := (bind m (fun x => k))
  (at level 10, x pattern, m at level 100, k at level 200).

Fixpoint forEach {A} (l : list A) (body : A -> M unit) : M unit :=
  match l with
  | [] => ret tt
  | x :: r => let* _ := body x in forEach r body
  end.

Fixpoint foldM {A S} (l : list A) (body : S -> A -> M S) (s : S) : M S :=
  match l with
  | [] => ret s
  | x :: r => let* s' := body s x in foldM r body s'
  end.

(** Dereferencing a pointer that the heap does not hold has no outcome. *)
Definition getProgram (l : loc) : M Program :=
  fun σ => p ← programs σ !! l; Some (p, σ).
Definition getPackage (l : loc) : M Package :=
  fun σ => p ← packages σ !! l; Some (p, σ).
Definition getFile (l : loc) : M SrcFile :=
  fun σ => f ← files σ !! l; Some (f, σ).
Definition getFileSet (l : loc) : M FileSet :=
  fun σ => s ← fileSets σ !! l; Some (s, σ).

Definition setProgram (l : loc) (v : Program) : M unit :=
  fun σ => Some (tt, withPrograms σ (<[l := v]> (programs σ))).
Definition setPackage (l : loc) (v : Package) : M unit :=
  fun σ => Some (tt, withPackages σ (<[l := v]> (packages σ))).
Definition setFile (l : loc) (v : SrcFile) : M unit :=
  fun σ => Some (tt, withFiles σ (<[l := v]> (files σ))).
Definition setFileSet (l : loc) (v : FileSet) : M unit :=
  fun σ => Some (tt, withFileSets σ (<[l := v]> (fileSets σ))).

(** [&T{...}]: a new object at an address that the heap does not use. *)
Definition allocProgram (v : Program) : M loc :=
  fun σ => let l := fresh (dom (programs σ)) in
           Some (l, withPrograms σ (<[l := v]> (programs σ))).
Definition allocPackage (v : Package) : M loc :=
  fun σ => let l := fresh (dom (packages σ)) in
           Some (l, withPackages σ (<[l := v]> (packages σ))).
Definition allocFile (v : SrcFile) : M loc :=
  fun σ => let l := fresh (dom (files σ)) in
           Some (l, withFiles σ (<[l := v]> (files σ))).
Definition allocFileSet (v : FileSet) : M loc :=
  fun σ => let l := fresh (dom (fileSets σ)) in
           Some (l, withFileSets σ (<[l := v]> (fileSets σ))).

(** [time.Now()] *)
Definition timeNow : M nat :=
  fun σ => Some (clock σ, withClock σ (S (clock σ))).

Definition logCheck (pkgPath : string) (astFiles : list AstFile) : M unit :=
  fun σ => Some (tt, withCheckLog σ (checkLog σ ++ [(pkgPath, astFiles)])).

(** ** [Package] and [SrcFile]: constructors, accessors, factories *)

Definition withLoadInfo (p : Package) (v : option LoadInfo) : Package :=
  {| program := program p; pkgName := pkgName p; pkgPath := pkgPath p; dirPath := dirPath p;
     loadInfo := v; srcFiles := srcFiles p; fileSet := fileSet p; imports := imports p;
     typePkg := typePkg p; typInfo := typInfo p; typSize := typSize p |}.
Definition withSrcFiles (p : Package) (v : gmap string loc) : Package :=
  {| program := program p; pkgName := pkgName p; pkgPath := pkgPath p; dirPath := dirPath p;
     loadInfo := loadInfo p; srcFiles := v; fileSet := fileSet p; imports := imports p;
     typePkg := typePkg p; typInfo := typInfo p; typSize := typSize p |}.
Definition withFileSet (p : Package) (v : option loc) : Package :=
  {| program := program p; pkgName := pkgName p; pkgPath := pkgPath p; dirPath := dirPath p;
     loadInfo := loadInfo p; srcFiles := srcFiles p; fileSet := v; imports := imports p;
     typePkg := typePkg p; typInfo := typInfo p; typSize := typSize p |}.
Definition withImports (p : Package) (v : list string) : Package :=
  {| program := program p; pkgName := pkgName p; pkgPath := pkgPath p; dirPath := dirPath p;
     loadInfo := loadInfo p; srcFiles := srcFiles p; fileSet := fileSet p; imports := v;
     typePkg := typePkg p; typInfo := typInfo p; typSize := typSize p |}.
Definition withTypes (p : Package) (tp : option TypesPackage) (ti : option TypesInfo)
    (ts : option TypesSizes) : Package :=
  {| program := program p; pkgName := pkgName p; pkgPath := pkgPath p; dirPath := dirPath p;
     loadInfo := loadInfo p; srcFiles := srcFiles p; fileSet := fileSet p; imports := imports p;
     typePkg := tp; typInfo := ti; typSize := ts |}.

Definition modifyPackage (l : loc) (f : Package -> Package) : M unit :=
  let* p := getPackage l in setPackage l (f p).

(** [newPackage] creates a new package in the program given its name,
    logical path and directory path. *)
Definition newPackage (program : option loc) (pkgName pkgPath dirPath : string) : M loc :=
  allocPackage {| program := program; pkgName := pkgName; pkgPath := pkgPath;
                  dirPath := dirPath; loadInfo := None; srcFiles := ∅; fileSet := None;
                  imports := []; typePkg := None; typInfo := None; typSize := None |}.

(** [newSrcFile] (of [SrcFile]) *)
Definition newSrcFile (pkg : option loc) (path : string) : M loc :=
  allocFile {| pkg := pkg; path := path; code := NoneString; syntax := None; memSet := [] |}.

Definition Package_PkgName (pkg : option loc) : M string :=
  match pkg with
  | Some l => let* p := getPackage l in ret (pkgName p)
  | None => ret NoneString
  end.

Definition Package_PkgPath (pkg : option loc) : M string :=
  match pkg with
  | Some l => let* p := getPackage l in ret (pkgPath p)
  | None => ret NoneString
  end.

Definition Package_DirPath (pkg : option loc) : M string :=
  match pkg with
  | Some l => let* p := getPackage l in ret (dirPath p)
  | None => ret NoneString
  end.

Definition Package_LoadInfo (pkg : option loc) : M (option LoadInfo) :=
  match pkg with
  | Some l => let* p := getPackage l in ret (loadInfo p)
  | None => ret None
  end.

Definition Package_FileSet (pkg : option loc) : M (option loc) :=
  match pkg with
  | Some l => let* p := getPackage l in ret (fileSet p)
  | None => ret None
  end.

Definition Package_SrcFile (pkg : option loc) (path : string) : M (option loc) :=
  match pkg with
  | Some l => let* p := getPackage l in ret (srcFiles p !! path)
  | None => ret None
  end.

(** [Package.newSrcFile] creates a SrcFile representing the source file in
    the package, or returns the one registered under the path. *)
Definition Package_newSrcFile (pkg : option loc) (srcPath : string) : M (option loc) :=
  match pkg with
  | Some l =>
      let* p := getPackage l in
      let* _ := match srcFiles p !! srcPath with
                | None =>
                    let* f := newSrcFile pkg srcPath in
                    modifyPackage l (fun p => withSrcFiles p (<[srcPath := f]> (srcFiles p)))
                | Some _ => ret tt
                end in
      let* p := getPackage l in
      ret (srcFiles p !! srcPath)
  | None => ret None
  end.

Definition SrcFile_Package (file : option loc) : M (option loc) :=
  match file with
  | Some l => let* f := getFile l in ret (pkg f)
  | None => ret None
  end.

Definition SrcFile_Path (file : option loc) : M string :=
  match file with
  | Some l => let* f := getFile l in ret (path f)
  | None => ret NoneString
  end.

Definition SrcFile_Syntax (file : option loc) : M (option AstFile) :=
  match file with
  | Some l => let* f := getFile l in ret (syntax f)
  | None => ret None
  end.

Definition SrcFile_Members (file : option loc) : M (list Member) :=
  match file with
  | Some l => let* f := getFile l in ret (memSet f)
  | None => ret []
  end.

(** [fset.Position(pos)] through a pointer: a nil table is only
    dereferenced for a valid position. *)
Definition positionAt (fset : option loc) (pos : Pos) : M Position :=
  if Pos_IsValid pos then
    match fset with
    | Some l => let* s := getFileSet l in ret (FileSet_Position s pos)
    | None => panic
    end
  else ret {| Filename := EmptyString; Offset := 0 |}.

(** [SrcFile.Contain] checks whether the position is included by this
    source file. *)
Definition SrcFile_Contain (file : option loc) (pos : Pos) : M bool :=
  match file with
  | Some l =>
      if Pos_IsValid pos then
        let* f := getFile l in
        match pkg f with
        | Some pl =>
            let* p := getPackage pl in
            let* position := positionAt (fileSet p) pos in
            ret (String.eqb (Filename position) (path f))
        | None => panic
        end
      else ret false
  | None => ret false
  end.

Definition withContent (f : SrcFile) (c : string) (s : option AstFile) : SrcFile :=
  {| pkg := pkg f; path := path f; code := c; syntax := s; memSet := [] |}.
Definition withMemSet (f : SrcFile) (ms : list Member) : SrcFile :=
  {| pkg := pkg f; path := path f; code := code f; syntax := syntax f; memSet := ms |}.

(** The body of the loop of [SrcFile.update], for one entry of [members]:
    a nil member is skipped, a member that the file contains is appended. *)
Definition attachMember (l : loc) (entry : string * option Member) : M unit :=
  match entry.2 with
  | None => ret tt
  | Some member =>
      let* inside := SrcFile_Contain (Some l) (Member_Pos member) in
      if inside then
        let* f := getFile l in
        setFile l (withMemSet f (memSet f ++ [member]))
      else ret tt
  end.

(** [SrcFile.update] resets the syntax, type and semantic information of
    the source file. [members] lists the entries of the Go map in the order
    in which the loop meets them; a nil or empty map is [[]]. *)
Definition SrcFile_update (file : option loc) (code : string) (syntax : option AstFile)
    (members : list (string * option Member)) : M (option error) :=
  match file with
  | Some l =>
      let* f := getFile l in
      let* _ := setFile l (withContent f code syntax) in
      let* _ := forEach members (attachMember l) in
      ret None
  | None => ret (Some (Errorf "nil file is used" EmptyString))
  end.

(** ** [Program]: the registry of packages *)

(** [Program.Package] returns the unique package for the path. *)
Definition Program_Package (prog : option loc) (pkgPath : string) : M (option loc) :=
  match prog with
  | Some g => let* p := getProgram g in ret (pkgSet p !! pkgPath)
  | None => ret None
  end.

(** [Program.newPackage] is the internal method to create a package from
    the program. *)
Definition Program_newPackage (prog : option loc) (pkgName pkgPath dirPath : string)
  : M (option loc) :=
  match prog with
  | Some g =>
      let* p := getProgram g in
      let* _ := match pkgSet p !! pkgPath with
                | None =>
                    let* l := newPackage prog pkgName pkgPath dirPath in
                    let* p := getProgram g in
                    setProgram g {| pkgSet := <[pkgPath := l]> (pkgSet p);
                                    module := module p |}
                | Some _ => ret tt
                end in
      let* p := getProgram g in
      ret (pkgSet p !! pkgPath)
  | None => ret None
  end.

(** ** Package path inference ([load.go]) *)

(** [fmt.Sprintf(format, arg)] for a format with one verb [%s] or [%v]. *)
Fixpoint Sprintf (format arg : string) : string :=
  match format with
  | String c rest =>
      if Ascii.eqb c (Ascii.ascii_of_nat 37) then
        match rest with
        | String v rest' =>
            if Ascii.eqb v (Ascii.ascii_of_nat 115) || Ascii.eqb v (Ascii.ascii_of_nat 118)
            then arg +:+ rest'
            else String c (Sprintf rest arg)
        | EmptyString => format
        end
      else String c (Sprintf rest arg)
  | EmptyString => EmptyString
  end.

Definition errnoText (code : errno) : string :=
  match code with
  | ENOENT => "no such file or directory"
  | ENOTDIR => "not a directory"
  | EISDIR => "is a directory"
  | EACCES => "permission denied"
  end.

(** [err.Error()] *)
Definition errorText (e : error) : string :=
  match e with
  | PathError op path code => op +:+ " " +:+ path +:+ ": " +:+ errnoText code
  | Errorf format arg => Sprintf format arg
  | ParseError msg => msg
  | TypeError msg => msg
  end.

(** The loop of step 2 of [readGoPackageIn]. *)
Fixpoint findPackageLine (lines : list string) : result string :=
  match lines with
  | line :: rest =>
      let line := TrimSpace line in
      if HasPrefix line PackagePrefix then
        Ok (TrimSpace (sliceFrom line (String.length PackagePrefix)))
      else findPackageLine rest
  | [] => Err (Errorf "no package name is found" EmptyString)
  end.

(** [readGoPackageIn] reads the package name from go source file. *)
Definition readGoPackageIn (fs : FileSystem) (goFile : string) : result string :=
  (* 1. read the content from the source code file *)
  match statNotExist fs goFile with
  | Some err => Err err
  | None =>
      match ReadFile fs goFile with
      | Err err => Err err
      | Ok bytes =>
          (* 2. find the package declaration from the file *)
          findPackageLine (Split bytes NewLine)
      end
  end.

Definition relError (basepath targpath : string) : error :=
  Errorf ("Rel: can't make %s relative to " +:+ basepath) targpath.

(** [inferGoPkgInfo] infers the package's path (pkgPath), reference name
    (pkgName) and package directory path (pkgDir). *)
Definition inferGoPkgInfo (fs : FileSystem) (module : option Module) (file : string)
  : result (string * string * string) :=
  (* 1. check the existence of file and its type *)
  let filePath := Abs fs file in
  match module, Stat fs filePath with
  | None, _ => Err (Errorf "no go module info is provided" EmptyString)
  | Some module, Err err =>
      if IsNotExist err then Err (Errorf "file not exist: %s" filePath)
      else Err (Errorf "can't get info: %s" filePath)
  | Some module, Ok fileInfo =>
      if IsDir fileInfo then
        (* 2. infer the package path, name and file path of directory *)
        match Rel (RootPath module) filePath with
        | None => Err (relError (RootPath module) filePath)
        | Some relPath =>
            let pkgPath := Join2 (ModuleName module) relPath in
            Ok (pkgPath, Base filePath, filePath)
        end
      else if HasSuffix filePath GoFileSuffix then
        (* 3. infer the package path, name and file path of code file *)
        let pkgDir := Dir filePath in
        match Rel (RootPath module) pkgDir with
        | None => Err (relError (RootPath module) pkgDir)
        | Some relPath =>
            let pkgPath := Join2 (ModuleName module) relPath in
            match readGoPackageIn fs filePath with
            | Err err => Err err
            | Ok pkgName => Ok (pkgPath, pkgName, pkgDir)
            end
        end
      else
        (* 4. infer the package path, name and file path of other file *)
        let pkgDir := Dir filePath in
        match Rel (RootPath module) pkgDir with
        | None => Err (relError (RootPath module) pkgDir)
        | Some relPath =>
            let pkgPath := Join2 (ModuleName module) relPath in
            Ok (pkgPath, Base pkgDir, pkgDir)
        end
  end.

(** [initProgram] returns initialized Program with module info, or nil if
    it fails to load the module. *)
Definition initProgram (fs : FileSystem) (cwd : string) : M (option loc * option error) :=
  (* 1. infer the absolute path of CWD *)
  let cwd := if nonEmpty cwd then cwd else Os.cwd fs in
  let cwdPath := Abs fs cwd in
  (* 2. find the 'go.mod' from CWD path *)
  match goModFileOf fs cwdPath with
  | None => panic
  | Some (Err err) => ret (None, Some err)
  | Some (Ok goModFile) =>
      match newModule fs goModFile with
      | Err err => ret (None, Some err)
      | Ok module =>
          (* 3. return the initialized Program instance *)
          let* g := allocProgram {| pkgSet := ∅; module := Some module |} in
          ret (Some g, None)
      end
  end.

(** ** The free-form loaders ([load.go]) *)

Definition defaultSizes : TypesSizes := "gc".
Definition quote : string := chr 34.

Definition stringLen (s : string) : Z := Z.of_nat (String.length s).

(** The text of a pointer under [%v]; the fields behind it are not printed
    here. *)
Definition pointerText (x : option loc) : string :=
  match x with
  | Some _ => "&{...}"
  | None => "<nil>"
  end.

(** [x != nil] *)
Definition notNil {A} (x : option A) : bool :=
  match x with
  | Some _ => true
  | None => false
  end.

Section Loader.

(** The file system, and the two external collaborators: what go/parser
    makes of a source text under a file name, and what [types.Config.Check]
    returns for an import path and a set of syntax trees. *)
Variable fs : FileSystem.
Variable goParse : string -> string -> result ParsedFile.
Variable goCheck : string -> list AstFile -> CheckResult.

(** [parser.ParseFile(fset, filename, nil, mode)]: the file is read, added
    to the position table and parsed. A tree that comes with an error is
    dropped here, as no caller looks at it. *)
Definition ParseFile (fset : loc) (filename : string) : M (option AstFile * option error) :=
  match ReadFile fs filename with
  | Err err => ret (None, Some err)
  | Ok src =>
      let* s := getFileSet fset in
      let* _ := setFileSet fset (AddFile s filename (stringLen src)) in
      match goParse filename src with
      | Ok parsed =>
          ret (Some {| ast_Name := pf_name parsed;
                       ast_Package := fset_base s + pf_package parsed;
                       ast_Imports := pf_imports parsed |}, None)
      | Err err => ret (None, Some err)
      end
  end.

(** One turn of the loop of [parser.ParseDir], for one directory entry. *)
Definition parseDirEntry (fset : loc) (path : string)
    (acc : gmap string AstPackage * option error) (d : string * Node)
  : M (gmap string AstPackage * option error) :=
  let '(pkgs, first) := acc in
  match d.2 with
  | Directory _ => ret acc
  | Regular _ =>
      if negb (HasSuffix d.1 ".go") then ret acc
      else
        let filename := Join2 path d.1 in
        let* (src, err) := ParseFile fset filename in
        match err, src with
        | None, Some src =>
            let name := ast_Name src in
            let pkg := default {| ap_Name := name; ap_Files := ∅ |} (pkgs !! name) in
            let pkg := {| ap_Name := ap_Name pkg;
                          ap_Files := <[filename := Some src]> (ap_Files pkg) |} in
            ret (<[name := pkg]> pkgs, first)
        | None, None => ret acc
        | Some err, _ =>
            match first with
            | None => ret (pkgs, Some err)
            | Some _ => ret acc
            end
        end
  end.

(** [parser.ParseDir(fset, path, nil, mode)]: a nil map when the
    directory cannot be read; otherwise the packages of the files that
    parsed, together with the first error met. *)
Definition ParseDir (fset : loc) (path : string)
  : M (option (gmap string AstPackage) * option error) :=
  match ReadDir fs path with
  | Err err => ret (None, Some err)
  | Ok list =>
      let* (pkgs, first) := foldM list (parseDirEntry fset path) (∅, None) in
      ret (Some pkgs, first)
  end.

(** The loop of step 4 of [parseSourceFileByFree]. *)
Definition appendImports (pl : loc) (specs : list (option string)) : M unit :=
  forEach specs (fun importSpec =>
    match importSpec with
    | Some value =>
        let importPath := Trim value quote in
        modifyPackage pl (fun p => withImports p (imports p ++ [importPath]))
    | None => ret tt
    end).

(** [parseSourceFileByFree] freely builds the source file using syntax
    parser and a basic type checking mode. *)
Definition parseSourceFileByFree (srcFile : option loc) : M (option error) :=
  (* 1. read the source code *)
  let* filePkg := SrcFile_Package srcFile in
  let* filePath := SrcFile_Path srcFile in
  match srcFile, filePkg with
  | Some _, Some pl =>
      match ReadFile fs filePath with
      | Err readErr => ret (Some readErr)
      | Ok srcBytes =>
          if (String.length srcBytes =? 0)%nat then
            ret (Some (Errorf "empty file: %s" filePath))
          else
            (* 2. parse the syntax *)
            let* fileSet := allocFileSet NewFileSet in
            let* (syntax, parseErr) := ParseFile fileSet filePath in
            match parseErr, syntax with
            | Some parseErr, _ => ret (Some parseErr)
            | None, None => ret (Some (Errorf "can't parse: %s" filePath))
            | None, Some syntax =>
                let* _ := SrcFile_update srcFile srcBytes (Some syntax) [] in
                (* 3. perform default type checking *)
                let* pkgPath := Package_PkgPath filePkg in
                let* _ := logCheck pkgPath [syntax] in
                let checked := goCheck pkgPath [syntax] in
                match chk_typePkg checked with
                | None => ret (Some (Errorf "can't create types.Package: %s" pkgPath))
                | Some typePkg =>
                    (* 4. update the package object *)
                    let* _ := modifyPackage pl (fun p =>
                                withTypes (withFileSet p (Some fileSet)) (Some typePkg)
                                  (Some (chk_typeInfo checked)) (Some defaultSizes)) in
                    let* _ := appendImports pl (ast_Imports syntax) in
                    (* 5. record the current load info *)
                    let* now := timeNow in
                    let typeErr := chk_typeErr checked in
                    let* _ := modifyPackage pl (fun p => withLoadInfo p (Some
                                {| LoadTime := now;
                                   LoadedFiles := [filePath];
                                   IgnoredFiles := [];
                                   IllTyped := notNil typeErr;
                                   FileErrors := [];
                                   TypeErrors := match typeErr with
                                                 | Some e => [e]
                                                 | None => []
                                                 end;
                                   DepsErrors := [] |})) in
                    ret None
                end
            end
      end
  | _, _ => ret (Some (Errorf "incomplete: %s" filePath))
  end.

(** [loadSourceFileByFree] 'freely' loads the source file in the given
    path, then returns the SrcFile object (along with its Package and
    Program), if possible. If no 'go.mod' is found in the parent
    directories of source file, then this function returns a SrcFile, with
    only the Package from the parent directory. *)
Definition loadSourceFileByFree (codeFile : string) : M (result loc) :=
  (* 1. validate the input go source file *)
  let codePath := Abs fs codeFile in
  match Stat fs codePath with
  | Err err => if IsNotExist err then ret (Err err) else panic
  | Ok fileInfo =>
      if IsDir fileInfo then ret (Err (Errorf "not go file: %s" codePath))
      else if negb (HasSuffix codePath GoFileSuffix) then
        ret (Err (Errorf " not go file: %s" codePath))
      else
        (* 2. infer package path, name and dir *)
        let* (program, _) := initProgram fs (Dir codePath) in
        let* programModule := match program with
                              | Some g => let* p := getProgram g in ret (module p)
                              | None => ret None
                              end in
        match program, programModule with
        | Some _, Some _ =>
            match inferGoPkgInfo fs programModule codePath with
            | Err err => ret (Err (Errorf "can't get package: %v" (errorText err)))
            | Ok (pkgPath, pkgName, pkgDir) =>
                let* pkg := Program_newPackage program pkgName pkgPath pkgDir in
                match pkg with
                | None => ret (Err (Errorf "can't new package: %s" pkgPath))
                | Some _ =>
                    let* srcFile := Package_newSrcFile pkg codePath in
                    match srcFile with
                    | None => ret (Err (Errorf "can't new source file: %s" codePath))
                    | Some f =>
                        let* parseErr := parseSourceFileByFree srcFile in
                        match parseErr with
                        | Some parseErr => ret (Err parseErr)
                        | None => ret (Ok f)
                        end
                    end
                end
            end
        | _, _ =>
            (* 3. infer a package from absolute path *)
            let pkgDir := Dir codePath in
            match readGoPackageIn fs codePath with
            | Err err => ret (Err err)
            | Ok pkgName =>
                let* pkg := newPackage None pkgName pkgDir pkgDir in
                let* srcFile := Package_newSrcFile (Some pkg) codePath in
                match srcFile with
                | None => ret (Err (Errorf "can't new source file: %s" codePath))
                | Some f =>
                    let* parseErr := parseSourceFileByFree srcFile in
                    match parseErr with
                    | Some parseErr => ret (Err parseErr)
                    | None => ret (Ok f)
                    end
                end
            end
        end
  end.

Definition emptyLoadInfo (now : nat) : LoadInfo :=
  {| LoadTime := now; LoadedFiles := []; IgnoredFiles := []; IllTyped := false;
     FileErrors := []; TypeErrors := []; DepsErrors := [] |}.

Definition addFileError (li : LoadInfo) (e : error) : LoadInfo :=
  {| LoadTime := LoadTime li; LoadedFiles := LoadedFiles li;
     IgnoredFiles := IgnoredFiles li; IllTyped := IllTyped li;
     FileErrors := FileErrors li ++ [e]; TypeErrors := TypeErrors li;
     DepsErrors := DepsErrors li |}.

Definition addLoadedFile (li : LoadInfo) (srcPath : string) : LoadInfo :=
  {| LoadTime := LoadTime li; LoadedFiles := LoadedFiles li ++ [srcPath];
     IgnoredFiles := IgnoredFiles li; IllTyped := IllTyped li;
     FileErrors := FileErrors li; TypeErrors := TypeErrors li;
     DepsErrors := DepsErrors li |}.

Definition addTypeError (li : LoadInfo) (e : error) : LoadInfo :=
  {| LoadTime := LoadTime li; LoadedFiles := LoadedFiles li;
     IgnoredFiles := IgnoredFiles li; IllTyped := true;
     FileErrors := FileErrors li; TypeErrors := TypeErrors li ++ [e];
     DepsErrors := DepsErrors li |}.

(** One turn of the loop of step 2 of [parseGoPackageByFree]: the syntax
    trees kept for the type checker and the load info, which the package
    shares with the loop, are carried along. *)
Definition readPackageFile (pl : loc) (acc : list AstFile * LoadInfo)
    (entry : string * option AstFile) : M (list AstFile * LoadInfo) :=
  let '(astFiles, loadInfo) := acc in
  match entry.2 with
  | None => ret acc
  | Some syntax =>
      let* p := getPackage pl in
      let* position := positionAt (fileSet p) (AstFile_Pos syntax) in
      let srcPath := Abs fs (Filename position) in
      match ReadFile fs srcPath with
      | Err readErr => ret (astFiles, addFileError loadInfo readErr)
      | Ok bytes =>
          if (String.length bytes =? 0)%nat then
            ret (astFiles, addFileError loadInfo (Errorf "empty file: %s" srcPath))
          else
            let* srcFile := Package_newSrcFile (Some pl) srcPath in
            let* _ := SrcFile_update srcFile bytes (Some syntax) [] in
            ret ((astFiles ++ [syntax])%list, addLoadedFile loadInfo srcPath)
      end
  end.

(** The import strings of step 4 of [parseGoPackageByFree], in the order
    of the files. *)
Definition importsOf (files : list (string * option AstFile)) : list string :=
  filter (fun importPath => nonEmpty importPath = true)
    (map (fun value => Trim value quote)
       (omap id (concat (map ast_Imports (omap snd files))))).

(** [parseGoPackageByFree] freely parses the package with the info of
    syntax pkg. It returns the load error if parsing failed. The maps are
    walked in the order of [map_to_list]; Go leaves the order open. *)
Definition parseGoPackageByFree (pkg : option loc) (astPkg : option AstPackage)
  : M (option error) :=
  match pkg, astPkg with
  | Some pl, Some astPkg =>
      if (size (ap_Files astPkg) =? 0)%nat then
        ret (Some (Errorf "no go files in: %v" (pointerText pkg)))
      else
        (* 1. initialize the loading info *)
        let* now := timeNow in
        let* _ := modifyPackage pl (fun p => withLoadInfo p (Some (emptyLoadInfo now))) in
        (* 2. construct each source file in package *)
        let* (astFiles, loadInfo) :=
          foldM (map_to_list (ap_Files astPkg)) (readPackageFile pl)
                ([], emptyLoadInfo now) in
        (* 3. perform the type checking *)
        let* pkgPath := Package_PkgPath pkg in
        let* _ := logCheck pkgPath astFiles in
        let checked := goCheck pkgPath astFiles in
        let loadInfo :=
          match chk_typeErr checked, chk_typePkg checked with
          | Some typeErr, _ => addTypeError loadInfo typeErr
          | None, None => addTypeError loadInfo (Errorf "no types.Package" EmptyString)
          | None, Some _ => loadInfo
          end in
        let* _ := modifyPackage pl (fun p =>
                    withTypes (withLoadInfo p (Some loadInfo)) (chk_typePkg checked)
                      (Some (chk_typeInfo checked)) (Some defaultSizes)) in
        (* 4. update the imported paths in the source files *)
        let found := remove_dups (importsOf (map_to_list (ap_Files astPkg))) in
        let* _ := modifyPackage pl (fun p => withImports p (imports p ++ found)) in
        ret None
  | _, _ => ret (Some (Errorf "no go files in: %v" (pointerText pkg)))
  end.

(** One turn of the loop of step 3 of [loadGoDirectoryByFree]. *)
Definition loadDirPackage (program : option loc) (fileSet : loc)
    (pkgPath pkgName goDirPath : string) (newPackages : list loc)
    (entry : string * AstPackage) : M (list loc) :=
  let '(pkgKey, astPkg) := entry in
  if nonEmpty pkgKey && negb (size (ap_Files astPkg) =? 0)%nat then
    let newPkgPath := if negb (String.eqb pkgKey pkgName)
                      then pkgPath +:+ "/" +:+ pkgKey
                      else pkgPath in
    let* pkg := Program_newPackage program pkgKey newPkgPath goDirPath in
    match pkg with
    | Some pl =>
        let* _ := modifyPackage pl (fun p => withFileSet p (Some fileSet)) in
        let* loadErr := parseGoPackageByFree pkg (Some astPkg) in
        match loadErr with
        | None => ret (newPackages ++ [pl])%list
        | Some _ => ret newPackages
        end
    | None => ret newPackages
    end
  else ret newPackages.

(** [loadGoDirectoryByFree] 'freely' loads the source files in this go
    directory, not including those in its recursive children. *)
Definition loadGoDirectoryByFree (goDir : string) : M (result (list loc)) :=
  (* 1. validate the input directory *)
  let goDirPath := Abs fs goDir in
  match Stat fs goDirPath with
  | Err err => if IsNotExist err then ret (Err err) else panic
  | Ok fileInfo =>
      if negb (IsDir fileInfo) then ret (Err (Errorf "not directory: %s" goDirPath))
      else
        (* 2. parse the source files in dir *)
        let* fileSet := allocFileSet NewFileSet in
        let* (pkgs, parseErr) := ParseDir fileSet goDirPath in
        match parseErr with
        | Some parseErr => ret (Err parseErr)
        | None =>
            let pkgs := default ∅ pkgs in
            if (size pkgs =? 0)%nat then
              ret (Err (Errorf "no go files in: %s" goDirPath))
            else
              (* 3. get the program and module info *)
              let* (program, modErr) := initProgram fs goDirPath in
              let* programModule := match program with
                                    | Some g => let* p := getProgram g in ret (module p)
                                    | None => ret None
                                    end in
              match modErr, program, programModule with
              | None, Some _, Some _ =>
                  match inferGoPkgInfo fs programModule goDirPath with
                  | Err findErr =>
                      ret (Err (Errorf "can't infer package path: %s" goDirPath))
                  | Ok (pkgPath, pkgName, _) =>
                      let* newPackages :=
                        foldM (map_to_list pkgs)
                              (loadDirPackage program fileSet pkgPath pkgName goDirPath) [] in
                      ret (Ok newPackages)
                  end
              | _, _, _ =>
                  (* 4. cannot find go mod *)
                  ret (Err (Errorf "can't find go.mod in: %s" goDirPath))
              end
        end
  end.

End Loader.

(** ** Vocabulary of the statements *)

(** A string without separator, an element of a cleaned absolute path, and
    the absolute path with given elements. *)
Fixpoint noSlash (s : string) : bool :=
  match s with
  | EmptyString => true
  | String c r => negb (Ascii.eqb c slash) && noSlash r
  end.

Definition goodElem (e : string) : bool :=
  nonEmpty e && noSlash e && negb (String.eqb e ".") && negb (String.eqb e "..").

Definition render (elems : list string) : string :=
  Separator +:+ Strings.Join elems Separator.

Abbreviation good := (Forall (fun e => goodElem e = true)).

(** Registering a source file in a package, the result dropped. *)
Definition registerFile (p : loc) (srcPath : string) : M unit :=
  let* _ := Package_newSrcFile (Some p) srcPath in ret tt.

(** The file name to which a position table resolves a member. *)
Definition resolvedName (fset : FileSet) (m : Member) : string :=
  Filename (FileSet_Position fset (Member_Pos m)).

Definition attaches (fset : FileSet) (filePath : string) (m : Member) : bool :=
  String.eqb (resolvedName fset m) filePath.

(** The store links file [fl] to package [pl], whose position table is
    [fset], stored at [sl]. *)
Definition linked (fl pl sl : loc) (p : Package) (fset : FileSet)
    (σ : Store) (f : SrcFile) : Prop :=
  files σ !! fl = Some f /\ pkg f = Some pl /\ packages σ !! pl = Some p
  /\ fileSets σ !! sl = Some fset.

(** The invariant of a Load-Info record of package [p]. *)
Definition illTypedInvariant (p : Package) (li : LoadInfo) : Prop :=
  IllTyped li = true <-> (TypeErrors li <> [] \/ typePkg p = None).

(** Two stores that differ at most in their position tables: the same
    programs, packages, source files, clock and type-checker calls. *)
Definition sameModel (σ σ' : Store) : Prop :=
  programs σ' = programs σ /\ packages σ' = packages σ /\ files σ' = files σ
  /\ clock σ' = clock σ /\ checkLog σ' = checkLog σ.

(** The error that [parser.ParseFile] reports for the file of this name,
    if any: the file cannot be read, or its text does not parse. *)
Definition parseError (fs : FileSystem) (goParse : string -> string -> result ParsedFile)
    (filename : string) : option error :=
  match ReadFile fs filename with
  | Err err => Some err
  | Ok src =>
      match goParse filename src with
      | Err err => Some err
      | Ok _ => None
      end
  end.

(** A directory entry that [parser.ParseDir] parses: a file, not a
    directory, whose name ends in [.go]. *)
Definition goFileEntry (d : string * Node) : bool :=
  match d.2 with
  | Regular _ => HasSuffix d.1 ".go"
  | Directory _ => false
  end.

(** The identity of a package: what its constructor was given. *)
Definition sameIdentity (p p' : Package) : Prop :=
  program p' = program p /\ pkgName p' = pkgName p /\ pkgPath p' = pkgPath p
  /\ dirPath p' = dirPath p.


(** The file behind a syntax tree cannot be read or has no bytes. *)
Definition unreadable (fs : FileSystem) (fset : FileSet) (syntax : AstFile) : bool :=
  match ReadFile fs (Abs fs (Filename (FileSet_Position fset (AstFile_Pos syntax)))) with
  | Err _ => true
  | Ok bytes => (String.length bytes =? 0)%nat
  end.

(** Every file behind the syntax trees of a package is unreadable or empty. *)
Definition allUnreadable (fs : FileSystem) (fset : FileSet)
    (entry : string * option AstFile) : Prop :=
  forall syntax, entry.2 = Some syntax -> unreadable fs fset syntax = true.

(** The three lines of the manifest example. *)
Definition moduleLine : string := "module example.com/app".
Definition directLine : string := TabString +:+ "example.com/dep v1.2.3".
Definition indirectLine : string :=
  TabString +:+ "example.com/indirectdep v0.9.0 // indirect".

(** A line that [newModule] reads neither as the module line nor as a
    dependency line. *)
Definition otherLine (line : string) : bool :=
  negb (HasPrefix line ModulePrefix) && negb (HasPrefix line TabString).

Definition manifestLine (line : string) : bool :=
  String.eqb line moduleLine || String.eqb line directLine
  || String.eqb line indirectLine || otherLine line.

Definition hasLine (lines : list string) (line : string) : bool :=
  existsb (String.eqb line) lines.

Definition appName : string := "example.com/app".
Definition directDeps : gmap string string := {["example.com/dep" := "v1.2.3"]}.
Definition indirectDeps : gmap string string := {["example.com/indirectdep" := "v0.9.0"]}.

(** ** A small world for the examples *)

Module Demo.

Definition manifest : string :=
  moduleLine +:+ NewLine +:+ NewLine +:+ "go 1.21" +:+ NewLine +:+ NewLine +:+
  "require (" +:+ NewLine +:+ directLine +:+ NewLine +:+ indirectLine +:+ NewLine +:+
  ")" +:+ NewLine.

(** A well-formed file, a file with a syntax error, and a well-formed
    file whose package clause does not start its line. *)
Definition goodSource : string := "package r" +:+ NewLine.
Definition brokenSource : string := "package r" +:+ NewLine +:+ "func {" +:+ NewLine.
Definition commentedSource : string := "/* demo */ package main" +:+ NewLine.

(** go/parser on these texts. *)
Definition goParse (filename src : string) : result ParsedFile :=
  if String.eqb src goodSource then
    Ok {| pf_name := "r"; pf_package := 0; pf_imports := [] |}
  else if String.eqb src commentedSource then
    Ok {| pf_name := "main"; pf_package := 11; pf_imports := [] |}
  else if String.eqb src brokenSource then
    Err (ParseError (filename +:+ ":2:6: expected 'IDENT', found '{'"))
  else Err (ParseError (filename +:+ ":1:1: expected 'package'")).

(** go/types on their trees: a package object and no error. *)
Definition goCheck (pkgPath : string) (astFiles : list AstFile) : CheckResult :=
  {| chk_typePkg := Some {| tpkg_path := pkgPath;
                            tpkg_name := match astFiles with
                                         | f :: _ => ast_Name f
                                         | [] => EmptyString
                                         end |};
     chk_typeErr := None;
     chk_typeInfo := [] |}.

(** go/types reporting an error next to the package object. *)
Definition goCheckIll (pkgPath : string) (astFiles : list AstFile) : CheckResult :=
  {| chk_typePkg := chk_typePkg (goCheck pkgPath astFiles);
     chk_typeErr := Some (TypeError "undefined: x");
     chk_typeInfo := [] |}.

Definition fs : FileSystem :=
  {| root := {[
       "q" := Directory {[ "go.mod" := Regular (Some manifest);
                           "a.go" := Regular (Some goodSource) ]};
       "r" := Directory {[ "go.mod" := Regular (Some manifest);
                           "a.go" := Regular (Some goodSource);
                           "b.go" := Regular (Some brokenSource) ]};
       "w" := Directory {[ "a.go" := Regular (Some goodSource);
                           "c.go" := Regular (Some commentedSource) ]};
       "u" := Directory {[ "a.go" := Regular None;
                           "z.go" := Regular (Some EmptyString) ]};
       "m" := Directory {[ "go.mod" := Regular (Some EmptyString) ]};
     "s" := Directory {[ "go.mod" := Regular (Some manifest);
                         "sub" := Directory {[ "pkg" := Directory ∅ ]} ]} ]};
     cwd := "/q" |}.

(** A directory whose one file has a name that only ends in [go.mod]. *)
Definition fsBackup : FileSystem :=
  {| root := {[ "q" := Directory {[ "backup-go.mod" := Regular (Some manifest) ]} ]};
     cwd := "/q" |}.

Definition package (name path dir : string) (files : gmap string loc)
    (fset : option loc) : Package :=
  {| program := None; pkgName := name; pkgPath := path; dirPath := dir;
     loadInfo := None; srcFiles := files; fileSet := fset; imports := [];
     typePkg := None; typInfo := None; typSize := None |}.

Definition tree (name : string) (pos : Pos) : AstFile :=
  {| ast_Name := name; ast_Package := pos; ast_Imports := [] |}.

(** The position table after parsing two files of ten bytes each. *)
Definition table (first second : string) : FileSet :=
  AddFile (AddFile NewFileSet first 10) second 10.

(** A package in [/w] with its file [a.go] registered, not yet parsed. *)
Definition storeW : Store :=
  {| programs := ∅;
     packages := {[ 0%nat := package "r" "/w" "/w" {[ "/w/a.go" := 0%nat ]} (Some 0%nat) ]};
     files := {[ 0%nat := {| pkg := Some 0%nat; path := "/w/a.go"; code := NoneString;
                             syntax := None; memSet := [] |} ]};
     fileSets := {[ 0%nat := table "/w/a.go" "/w/c.go" ]};
     clock := 0; checkLog := [] |}.

Definition astW : AstPackage :=
  {| ap_Name := "r"; ap_Files := {[ "/w/a.go" := Some (tree "r" 1) ]} |}.

(** A package in [/u], whose two files were parsed and can no longer be
    read: one is unreadable, the other has no bytes. *)
Definition storeU : Store :=
  {| programs := ∅;
     packages := {[ 0%nat := package "u" "/u" "/u" ∅ (Some 0%nat) ]};
     files := ∅;
     fileSets := {[ 0%nat := table "/u/a.go" "/u/z.go" ]};
     clock := 0; checkLog := [] |}.

Definition astU : AstPackage :=
  {| ap_Name := "u";
     ap_Files := {[ "/u/a.go" := Some (tree "u" 1); "/u/z.go" := Some (tree "u" 12) ]} |}.

(** A program whose registry is empty, and one that holds a package. *)
Definition storeP : Store :=
  {| programs := {[ 0%nat := {| pkgSet := ∅; module := None |} ]};
     packages := ∅; files := ∅; fileSets := ∅; clock := 0; checkLog := [] |}.

Definition storeQ : Store :=
  {| programs := {[ 0%nat := {| pkgSet := {[ "example.com/app" := 0%nat ]};
                                module := None |} ]};
     packages := {[ 0%nat := package "app" "example.com/app" "/q" ∅ None ]};
     files := ∅; fileSets := ∅; clock := 0; checkLog := [] |}.

(** Two members: one declared in [/w/a.go], one in [/w/c.go]. *)
Definition members : list (string * option Member) :=
  [("f", Some {| Member_Name := "f"; Member_Pos := 5 |});
   ("g", Some {| Member_Name := "g"; Member_Pos := 15 |});
   ("h", None)].

(** The outcome of a computation that is known to end. *)
Definition after {A} (m : M A) (σ : Store) : Store :=
  match m σ with
  | Some (_, σ') => σ'
  | None => σ
  end.

End Demo.

(** ** Further accessors ([pkgs.go], [Program]) *)

(** [Package.IsLoaded] checks whether this package is loaded with any
    syntax, type and semantic information of its source files. *)
Definition Package_IsLoaded (pkg : option loc) : M bool :=
  match pkg with
  | Some l => let* p := getPackage l in ret (notNil (loadInfo p))
  | None => ret false
  end.

(** [Package.GoFiles] are the absolute paths of source files in this
    package. The registry holds the pointers that [newSrcFile] returned,
    none nil, so the test of the loop that remains is the one on the path.
    The map is walked in the order of [map_to_list]; Go leaves it open. *)
Definition Package_GoFiles (pkg : option loc) : M (list string) :=
  match pkg with
  | Some l =>
      let* p := getPackage l in
      ret (filter (fun path => nonEmpty path = true) (map fst (map_to_list (srcFiles p))))
  | None => ret []
  end.

(** [Package.TypePkg] *)
Definition Package_TypePkg (pkg : option loc) : M (option TypesPackage) :=
  match pkg with
  | Some l => let* p := getPackage l in ret (typePkg p)
  | None => ret None
  end.

(** [Program.AllPackages] returns the set of all loaded packages in the
    program, in the order of [map_to_list]; the registry holds no nil
    pointer, so the test of the loop always holds. *)
Definition Program_AllPackages (prog : option loc) : M (list loc) :=
  match prog with
  | Some g => let* p := getProgram g in ret (map snd (map_to_list (pkgSet p)))
  | None => ret []
  end.

(** ** The second manifest lookup ([findGoModFileOf], [findPackagePath]) *)

(** [os.PathSeparator], and [newline] of [const.go]. *)
Definition Os_PathSeparator : Ascii.ascii := slash.

Definition newline : string :=
  if Ascii.eqb Os_PathSeparator slash then chr 10 else chr 13 +:+ chr 10.

(** The loop of [findGoModFileOf]; as in [goModFileLoop], [None] stands
    for a loop that has not ended within [fuel] turns. *)
Fixpoint findGoModFileLoop (fs : FileSystem) (fuel : nat) (dirPath : string)
  : option string :=
  if nonEmpty dirPath && negb (String.eqb dirPath "/")
     && negb (String.eqb dirPath ".") && negb (String.eqb dirPath "..")
  then
    match fuel with
    | O => None
    | S fuel' =>
        let goModInDir := Join2 dirPath GoModFileName in
        match statNotExist fs goModInDir with
        | None => Some goModInDir
        | Some _ =>
            let parentDir := Dir dirPath in
            if String.eqb parentDir dirPath then Some NoneString
            else findGoModFileLoop fs fuel' parentDir
        end
    end
  else Some NoneString.

(** [findGoModFileOf] returns the absolute path of go.mod file that defines
    the module to which the directory belongs, or [NoneString]. *)
Definition findGoModFileOf (fs : FileSystem) (dirPath : string) : option string :=
  match statNotExist fs dirPath with
  | Some _ => Some NoneString
  | None =>
      let dirPath := Abs fs dirPath in
      findGoModFileLoop fs (String.length dirPath) dirPath
  end.

(** The loop of step 3 of [findPackagePath]: the first line that begins
    with the module keyword, trimmed by the characters of the keyword. *)
Fixpoint findModuleName (lines : list string) : string :=
  match lines with
  | line :: rest =>
      if HasPrefix line GoModulePrefix then Trim line GoModulePrefix
      else findModuleName rest
  | [] => EmptyString
  end.

(** [findPackagePath] returns the 'relative' path of the directory to the
    root where go.mod file exists, and returns the package path if the
    directory is a package. *)
Definition findPackagePath (fs : FileSystem) (dirPath : string) : option string :=
  (* 1. get the go.mod or return dirPath simply *)
  let dirPath := Abs fs dirPath in
  match findGoModFileOf fs dirPath with
  | None => None
  | Some goModFile =>
      if (String.length goModFile =? 0)%nat then Some dirPath
      else
        (* 2. infer the relative path of dir in root *)
        let rootPath := Dir goModFile in
        let relPath := default EmptyString (Rel rootPath dirPath) in
        let relPath := Trim relPath PathSeparator in
        (* 3. get the module name from 'go.mod' file *)
        match ReadFile fs goModFile with
        | Err _ => Some relPath
        | Ok bytes =>
            let moduleName := findModuleName (Split bytes newline) in
            (* 4. connect the module with relative path *)
            if (0 <? String.length moduleName)%nat
            then Some (moduleName +:+ "/" +:+ relPath)
            else Some relPath
        end
  end.

(** ** Walking a directory tree ([findPackagesAndGoFiles]) *)

Fixpoint insertByName {A} (x : string * A) (l : list (string * A)) : list (string * A) :=
  match l with
  | [] => [x]
  | y :: r => if String.leb x.1 y.1 then x :: l else y :: insertByName x r
  end.

Definition sortByName {A} (l : list (string * A)) : list (string * A) :=
  foldr insertByName [] l.

(** The calls that [filepath.Walk] makes to its function below [path], in
    lexical order, each with the path and the kind of what is visited. The
    names of a directory are file names, so that the visit of a child is
    the visit of [Join2 path name]; nothing here fails to be read. *)
Fixpoint walkTree (path : string) (n : Node) : list (string * FileInfo) :=
  match n with
  | Regular _ => [(path, {| IsDir := false |})]
  | Directory entries =>
      (path, {| IsDir := true |})
      :: concat (map snd (sortByName
           (map_fold (fun name child below =>
                        (name, walkTree (Join2 path name) child) :: below)
                     [] entries)))
  end.

(** [filepath.Walk(root, fn)] for a function that returns the error it is
    given: when [root] cannot be examined the one call carries an error,
    and nothing is visited. *)
Definition Walk (fs : FileSystem) (root : string) : list (string * FileInfo) :=
  match resolve fs root with
  | inr n => walkTree root n
  | inl _ => []
  end.

(** The second loop of [findPackagesAndGoFiles], for one file. *)
Definition addGoFile (pkgToFiles : gmap string (list string)) (goFile : string)
  : gmap string (list string) :=
  let goDir := Dir goFile in
  <[goDir := (default [] (pkgToFiles !! goDir) ++ [goFile])%list]> pkgToFiles.

(** [findPackagesAndGoFiles] returns a map from directory to the go files
    included. *)
Definition findPackagesAndGoFiles (fs : FileSystem) (rootDir : string)
  : gmap string (list string) :=
  let goFiles :=
    map fst (filter (fun visit => negb (IsDir visit.2) && HasSuffix visit.1 ".go" = true)
                    (Walk fs rootDir)) in
  fold_left addGoFile goFiles ∅.

(** ** The exported loader of one file and the recursive loader *)

Section Api.

(** The file system, go/parser, and [types.Config.Check] under each of the
    two configurations of the code: the default one of [load.go], and the
    one of [LoadBaseFile], which leaves the sizes to go/types. *)
Variable fs : FileSystem.
Variable goParse : string -> string -> result ParsedFile.
Variable goCheck : string -> list AstFile -> CheckResult.
Variable goCheckBase : string -> list AstFile -> CheckResult.

(** [LoadBaseFile] ([api.go]): the file it returns, and the error. *)
Definition LoadBaseFile (srcFile : string) : M (option loc * option error) :=
  (* 1. validate the input and get its source file directory *)
  match statNotExist fs srcFile with
  | Some fileErr => ret (None, Some fileErr)
  | None =>
      if negb (HasSuffix srcFile GoFileSuffix) then
        ret (None, Some (Errorf "not go file: %s" srcFile))
      else
        let srcPath := Abs fs srcFile in
        let dirPath := Clean (Dir srcPath) in
        (* 2. read the source code and parse the syntax tree *)
        match ReadFile fs srcPath with
        | Err readErr => ret (None, Some readErr)
        | Ok bytes =>
            let* fileSet := allocFileSet NewFileSet in
            let* (syntax, parseErr) := ParseFile fs goParse fileSet srcPath in
            match parseErr, syntax with
            | Some parseErr, _ => ret (None, Some parseErr)
            | None, None => ret (None, Some (Errorf "cannot parse: %s" srcPath))
            | None, Some syntax =>
                (* 3. perform the types checking on the syntax tree *)
                let* _ := logCheck dirPath [syntax] in
                let checked := goCheckBase dirPath [syntax] in
                (* 4. generate the types.Package *)
                match chk_typeErr checked, chk_typePkg checked with
                | None, None =>
                    ret (None, Some (Errorf "cannot get the types.Package: %s" dirPath))
                | _, _ =>
                    (* 5. construct the Package and the only SrcFile for output *)
                    let* pkg := newPackage None (ast_Name syntax) dirPath dirPath in
                    let* file := Package_newSrcFile (Some pkg) srcPath in
                    let* fileErr := SrcFile_update file bytes (Some syntax) [] in
                    match fileErr with
                    | Some fileErr => ret (None, Some fileErr)
                    | None => ret (file, None)
                    end
                end
            end
        end
  end.

(** One turn of the loop of step 3 of [loadAllDirectoriesByFree], for one
    directory of the map of [findPackagesAndGoFiles]. *)
Definition loadTreeDirectory (program : option loc) (module : option Module)
    (fileSet : loc) (newPackages : list loc) (entry : string * list string)
  : M (list loc) :=
  let '(pkgDir, goFiles) := entry in
  if (String.length pkgDir =? 0)%nat || (length goFiles =? 0)%nat then ret newPackages
  else
    let* (astPkgs, parseErr) := ParseDir fs goParse fileSet pkgDir in
    match parseErr, astPkgs with
    | None, Some astPkgs =>
        if (size astPkgs =? 0)%nat then ret newPackages
        else
          match inferGoPkgInfo fs module pkgDir with
          | Err _ => ret newPackages
          | Ok (pkgPath, pkgName, _) =>
              foldM (map_to_list astPkgs)
                    (loadDirPackage fs goCheck program fileSet pkgPath pkgName pkgDir)
                    newPackages
          end
    | _, _ => ret newPackages
    end.

(** [loadAllDirectoriesByFree] freely loads the source files and their
    packages in the root-directory as given. A 'go.mod' is required in
    rootDir or any of its parent directories, or none is returned. *)
Definition loadAllDirectoriesByFree (rootDir : string) : M (result (list loc)) :=
  (* 1. validate the input directory *)
  let rootDirPath := Abs fs rootDir in
  match Stat fs rootDirPath with
  | Err err => if IsNotExist err then ret (Err err) else panic
  | Ok fileInfo =>
      if negb (IsDir fileInfo) then ret (Err (Errorf "not directory: %s" rootDirPath))
      else
        (* 2. get the go.mod and module info *)
        let* fileSet := allocFileSet NewFileSet in
        let* (program, modErr) := initProgram fs rootDirPath in
        match modErr with
        | Some modErr => ret (Err modErr)
        | None =>
            let* programModule := match program with
                                  | Some g => let* p := getProgram g in ret (module p)
                                  | None => ret None
                                  end in
            match program, programModule with
            | Some _, Some _ =>
                (* 3. construct the mapping from Package to ast.Package for parsing *)
                let* newPackages :=
                  foldM (map_to_list (findPackagesAndGoFiles fs rootDirPath))
                        (loadTreeDirectory program programModule fileSet) [] in
                ret (Ok newPackages)
            | _, _ => ret (Err (Errorf "no go.mod is found: %s" rootDir))
            end
        end
  end.

End Api.

(** ** Vocabulary of the further statements *)

(** What both manifest lookups test in the directory with these elements:
    that [os.Stat] of its [go.mod] does not report a missing file. *)
Definition manifestSeen (fs : FileSystem) (elems : list string) : Prop :=
  statNotExist fs (render (elems ++ [GoModFileName])) = None.

(** No directory on the way from [up ++ rest] up to, and short of, [up]
    shows a manifest. *)
Definition nearestFrom (fs : FileSystem) (up rest : list string) : Prop :=
  forall mid rest', rest = (mid ++ rest')%list -> mid <> [] -> ~ manifestSeen fs (up ++ mid).

(** No directory from the one with these elements upwards, short of the
    root, shows a manifest. *)
Definition noManifestFrom (fs : FileSystem) (elems : list string) : Prop :=
  forall up rest, elems = (up ++ rest)%list -> up <> [] -> ~ manifestSeen fs up.

(** The path of a directory relative to one of its ancestors. *)
Definition relativePath (rest : list string) : string :=
  match rest with
  | [] => "."
  | _ => Strings.Join rest Separator
  end.

(** A string whose last character, if any, is outside the set. *)
Fixpoint endsOutside (f : Ascii.ascii -> bool) (s : string) : bool :=
  match s with
  | EmptyString => true
  | String c EmptyString => negb (f c)
  | String _ r => endsOutside f r
  end.

(** The text that the last line with this keyword declares, trimmed; empty
    when no line begins with the keyword. *)
Definition declared (keyword : string) (lines : list string) : string :=
  match List.find (fun line => HasPrefix line keyword) (rev lines) with
  | Some line => TrimSpace (sliceFrom line (String.length keyword))
  | None => EmptyString
  end.

(** The file that [newSrcFile] makes for a package. *)
Definition emptyFile (pl : loc) (srcPath : string) : SrcFile :=
  {| pkg := Some pl; path := srcPath; code := NoneString; syntax := None; memSet := [] |}.


(** ** A second small world for the examples *)

Module Tour.

(** The Module of the manifest of [Demo], read in the directory [rootPath]. *)
Definition moduleAt (rootPath : string) : Module :=
  {| RootPath := rootPath; GoVersion := "1.21"; GoModFile := rootPath +:+ "/go.mod";
     ModuleName := appName; DirectDeps := directDeps; IndirectDeps := indirectDeps |}.

(** A manifest whose requirement stands on a single line, in the root
    directory of a file system that holds one more directory. *)
Definition flatManifest : string :=
  "module m" +:+ NewLine +:+ "require example.com/dep v1.2.3" +:+ NewLine.

Definition flat : FileSystem :=
  {| root := {[ "go.mod" := Regular (Some flatManifest); "d" := Directory ∅ ]};
     cwd := "/" |}.

(** The store after the single-file pass on the file of [Demo.storeW]. *)
Definition loadedW : Store :=
  Demo.after (parseSourceFileByFree Demo.fs Demo.goParse Demo.goCheck (Some 0%nat))
             Demo.storeW.

(** The syntax package of [/w] when its file imports [fmt] twice and has
    one import without a path. *)
Definition astImports : AstPackage :=
  {| ap_Name := "r";
     ap_Files := {[ "/w/a.go" := Some {| ast_Name := "r"; ast_Package := 1;
                                          ast_Imports := [Some (quote +:+ "fmt" +:+ quote);
                                                          None;
                                                          Some (quote +:+ "fmt" +:+ quote)] |} ]} |}.

(** The store after the per-package pass on these trees. *)
Definition importedW : Store :=
  Demo.after (parseGoPackageByFree Demo.fs Demo.goCheck (Some 0%nat) (Some astImports))
             Demo.storeW.

(** The store after [LoadBaseFile] on the file whose package clause follows
    a comment, and after it on the file with a syntax error. *)
Definition baseLoaded : Store :=
  Demo.after (LoadBaseFile Demo.fs Demo.goParse Demo.goCheck "/w/c.go") emptyStore.

Definition baseRefused : Store :=
  Demo.after (LoadBaseFile Demo.fs Demo.goParse Demo.goCheck "/r/b.go") emptyStore.

(** The store after the recursive loader on the directory [/q]. *)
Definition treeRefused : Store :=
  Demo.after (loadAllDirectoriesByFree Demo.fs Demo.goParse Demo.goCheck "/q") emptyStore.

End Tour.

(** * Properties *)

(** ** Running computations step by step *)

Lemma bind_Some {A B} (m : M A) (k : A -> M B) σ a σ' :
  m σ = Some (a, σ') -> bind m k σ = k a σ'.
Proof. intros H. unfold bind. by rewrite H. Qed.

(** One step of a computation whose first part is known. *)
Tactic Notation "run" uconstr(H) := rewrite (bind_Some _ _ _ _ _ H).
Tactic Notation "run" uconstr(H) "in" hyp(H') := rewrite (bind_Some _ _ _ _ _ H) in H'.

Lemma bind_inv {A B} (m : M A) (k : A -> M B) σ r :
  bind m k σ = Some r -> exists a σ', m σ = Some (a, σ') /\ k a σ' = Some r.
Proof. unfold bind. destruct (m σ) as [[a σ']|] eqn:E; [|done]. eauto. Qed.

Lemma ret_inv {A} (a b : A) σ σ' : ret a σ = Some (b, σ') -> a = b /\ σ = σ'.
Proof. unfold ret. by intros [= -> ->]. Qed.

Lemma getProgram_Some σ g p : programs σ !! g = Some p -> getProgram g σ = Some (p, σ).
Proof. intros H. unfold getProgram. by rewrite H. Qed.

Lemma getPackage_Some σ l p : packages σ !! l = Some p -> getPackage l σ = Some (p, σ).
Proof. intros H. unfold getPackage. by rewrite H. Qed.

Lemma getFile_Some σ l f : files σ !! l = Some f -> getFile l σ = Some (f, σ).
Proof. intros H. unfold getFile. by rewrite H. Qed.

Lemma getFileSet_Some σ l s : fileSets σ !! l = Some s -> getFileSet l σ = Some (s, σ).
Proof. intros H. unfold getFileSet. by rewrite H. Qed.

Lemma getPackage_inv σ l p σ' :
  getPackage l σ = Some (p, σ') -> packages σ !! l = Some p /\ σ' = σ.
Proof.
  unfold getPackage. destruct (packages σ !! l); cbn; [|done]. by intros [= -> ->].
Qed.

Lemma modifyPackage_Some σ l p f :
  packages σ !! l = Some p ->
  modifyPackage l f σ = Some (tt, withPackages σ (<[l := f p]> (packages σ))).
Proof.
  intros H. unfold modifyPackage.
  by run (getPackage_Some _ _ _ H).
Qed.

Lemma modifyPackage_inv σ l f u σ' :
  modifyPackage l f σ = Some (u, σ') ->
  exists p, packages σ !! l = Some p /\ σ' = withPackages σ (<[l := f p]> (packages σ)).
Proof.
  unfold modifyPackage. intros H. apply bind_inv in H as (p & σ1 & Hg & Hs).
  apply getPackage_inv in Hg as [Hp ->]. exists p. split; [done|].
  unfold setPackage in Hs. by injection Hs as _ <-.
Qed.

Lemma modifyPackage_lookup σ l f u σ' :
  modifyPackage l f σ = Some (u, σ') ->
  exists p, packages σ !! l = Some p /\ packages σ' !! l = Some (f p).
Proof.
  intros H. apply modifyPackage_inv in H as (p & Hp & ->). exists p. split; [done|].
  cbn. by rewrite lookup_insert_eq.
Qed.

Lemma foldM_invariant {A S} (I : S -> Prop) (body : S -> A -> M S) l :
  (forall s x σ s' σ', I s -> body s x σ = Some (s', σ') -> I s') ->
  forall s σ s' σ', I s -> foldM l body s σ = Some (s', σ') -> I s'.
Proof.
  intros Hbody. induction l as [|x l IH]; intros s σ s' σ' Hs Hrun.
  - apply ret_inv in Hrun as [<- _]. done.
  - cbn [foldM] in Hrun. apply bind_inv in Hrun as (s1 & σ1 & H1 & Hrun). eauto.
Qed.

(** ** White space *)

(** [TrimSpace] drops the white space of Unicode at both ends, here a
    no-break space in front and an ideographic space and a line feed
    behind; a byte that is only part of such a character stays. *)
Example TrimSpace_unicode :
  TrimSpace (chr 194 +:+ chr 160 +:+ " package x" +:+ chr 227 +:+ chr 128 +:+ chr 128
             +:+ chr 10)
  = "package x".
Proof. reflexivity. Qed.

Example TrimSpace_broken :
  TrimSpace (chr 160 +:+ "x " +:+ chr 194) = chr 160 +:+ "x " +:+ chr 194.
Proof. reflexivity. Qed.

Lemma ascii_isSpace2 a b : (Ascii.nat_of_ascii a <? 128)%nat = true -> isSpace2 a b = false.
Proof.
  intros Ha%Nat.ltb_lt. unfold isSpace2.
  destruct (Nat.eqb_spec (Ascii.nat_of_ascii a) 194); [lia|done].
Qed.

Lemma ascii_isSpace3 a b c : (Ascii.nat_of_ascii a <? 128)%nat = true -> isSpace3 a b c = false.
Proof.
  intros Ha%Nat.ltb_lt. unfold isSpace3.
  destruct (Nat.eqb_spec (Ascii.nat_of_ascii a) 225); [lia|].
  destruct (Nat.eqb_spec (Ascii.nat_of_ascii a) 226); [lia|].
  destruct (Nat.eqb_spec (Ascii.nat_of_ascii a) 227); [lia|done].
Qed.

(** On ASCII text [TrimSpace] is the trimming of the six white-space
    bytes. *)
Lemma trimLeftSpace_ascii s : allAscii s = true -> trimLeftSpace s = trimLeft isSpace s.
Proof.
  induction s as [|a r IH]; [done|]. cbn [allAscii trimLeftSpace trimLeft].
  intros [Ha Hr]%andb_prop. destruct (isSpace a); [by apply IH|].
  destruct r as [|b [|c r3]]; [done|by rewrite ascii_isSpace2|].
  by rewrite ascii_isSpace2, ascii_isSpace3.
Qed.

Lemma trimRightSpace_ascii s : allAscii s = true -> trimRightSpace s = trimRight isSpace s.
Proof.
  induction s as [|a r IH]; [done|]. cbn [allAscii trimRightSpace trimRight].
  intros [Ha Hr]%andb_prop. rewrite (IH Hr).
  destruct (trimRight isSpace r) as [|b [|c [|d r4]]]; cbn [isSpaceRune]; [done|..].
  - by rewrite ascii_isSpace2.
  - by rewrite ascii_isSpace3.
  - done.
Qed.

Lemma trimLeft_ascii f s : allAscii s = true -> allAscii (trimLeft f s) = true.
Proof.
  induction s as [|a r IH]; [done|]. cbn [trimLeft]. intros H.
  destruct (f a); [|done]. apply IH. by apply andb_prop in H as [_ ?].
Qed.

Lemma TrimSpace_ascii s :
  allAscii s = true -> TrimSpace s = trimRight isSpace (trimLeft isSpace s).
Proof.
  intros H. unfold TrimSpace. rewrite (trimLeftSpace_ascii _ H).
  apply trimRightSpace_ascii. by apply trimLeft_ascii.
Qed.

(** ** Paths are never the empty string *)

Lemma nonEmpty_true s : nonEmpty s = true <-> s <> EmptyString.
Proof. unfold nonEmpty. rewrite negb_true_iff. apply String.eqb_neq. Qed.

Lemma append_nonEmpty a b : nonEmpty a = true -> nonEmpty (a +:+ b) = true.
Proof. by destruct a. Qed.

Lemma Join_nonEmpty e r sep : nonEmpty e = true -> nonEmpty (Strings.Join (e :: r) sep) = true.
Proof. intros He. destruct r; cbn; [done|]. by apply append_nonEmpty. Qed.

Lemma cleanStep_nonEmpty rooted stack e :
  Forall (fun x => nonEmpty x = true) stack -> nonEmpty e = true ->
  Forall (fun x => nonEmpty x = true) (cleanStep rooted stack e).
Proof.
  intros Hst He. unfold cleanStep.
  destruct (String.eqb e "."); [done|].
  destruct (String.eqb e "..").
  - destruct stack as [|top below].
    + destruct rooted; by repeat constructor.
    + apply Forall_cons in Hst as [? ?].
      destruct (String.eqb top ".."); by repeat constructor.
  - by constructor.
Qed.

Lemma cleanFold_nonEmpty rooted elems : forall stack,
  Forall (fun x => nonEmpty x = true) stack ->
  Forall (fun x => nonEmpty x = true) elems ->
  Forall (fun x => nonEmpty x = true) (fold_left (cleanStep rooted) elems stack).
Proof.
  induction elems as [|e elems IH]; intros stack Hst Hel; cbn; [done|].
  apply Forall_cons in Hel as [He Hel]. apply IH; [|done].
  by apply cleanStep_nonEmpty.
Qed.

Lemma elements_nonEmpty path : Forall (fun x => nonEmpty x = true) (elements path).
Proof.
  unfold elements. apply Forall_forall. intros x Hx.
  by apply list_elem_of_filter in Hx as [? _].
Qed.

Lemma Clean_nonEmpty path : nonEmpty (Clean path) = true.
Proof.
  unfold Clean. destruct (IsAbs path); [done|].
  pose proof (cleanFold_nonEmpty false (elements path) [] (Forall_nil_2 _)
                (elements_nonEmpty path)) as H.
  destruct (rev _) as [|e r] eqn:E; [done|].
  apply Join_nonEmpty. rewrite Forall_forall in H. apply H.
  apply list_elem_of_In, in_rev. rewrite E. by left.
Qed.

Lemma Dir_nonEmpty path : nonEmpty (Dir path) = true.
Proof. unfold Dir. destruct (lastSlash path); apply Clean_nonEmpty. Qed.

Lemma IsAbs_nonempty s : IsAbs s = true -> s <> EmptyString.
Proof. by destruct s. Qed.

(** ** Canonical paths *)

Lemma prefix_slash c r : String.prefix "/" (String c r) = Ascii.eqb c slash.
Proof.
  change (String.prefix "/" (String c r))
    with (if Ascii.ascii_dec slash c then String.prefix EmptyString r else false).
  destruct (Ascii.ascii_dec slash c) as [<-|Hne].
  - by destruct r.
  - symmetry. apply Ascii.eqb_neq. intros ->. by apply Hne.
Qed.

Lemma pieces_cons c r :
  pieces "/" 0 (String c r)
  = if Ascii.eqb c slash then EmptyString :: pieces "/" 0 r
    else match pieces "/" 0 r with
         | p :: ps => String c p :: ps
         | [] => [String c EmptyString]
         end.
Proof. cbn [pieces]. by rewrite prefix_slash. Qed.

Lemma pieces_noSlash_sep e r :
  noSlash e = true -> pieces "/" 0 (e +:+ String slash r) = e :: pieces "/" 0 r.
Proof.
  induction e as [|c e IH]; intros H.
  - change (EmptyString +:+ String slash r) with (String slash r).
    rewrite pieces_cons. by rewrite Ascii.eqb_refl.
  - cbn in H. apply andb_true_iff in H as [Hc He].
    change (String c e +:+ String slash r) with (String c (e +:+ String slash r)).
    rewrite pieces_cons. apply negb_true_iff in Hc. rewrite Hc. by rewrite IH.
Qed.

Lemma pieces_noSlash e : noSlash e = true -> pieces "/" 0 e = [e].
Proof.
  induction e as [|c e IH]; intros H; [done|].
  cbn in H. apply andb_true_iff in H as [Hc He].
  rewrite pieces_cons. apply negb_true_iff in Hc. rewrite Hc. by rewrite IH.
Qed.

Lemma pieces_all_noSlash s : Forall (fun e => noSlash e = true) (pieces "/" 0 s).
Proof.
  induction s as [|c s IH]; [by repeat constructor|].
  rewrite pieces_cons. destruct (Ascii.eqb c slash) eqn:Hc.
  - by constructor.
  - destruct (pieces "/" 0 s) as [|p ps]; [repeat constructor; cbn; by rewrite Hc|].
    apply Forall_cons in IH as [Hp Hps]. constructor; [|done]. cbn. by rewrite Hc.
Qed.

Lemma append_assoc (a b c : string) : (a +:+ b) +:+ c = a +:+ (b +:+ c).
Proof.
  induction a as [|x a IH]; [done|].
  change (String x ((a +:+ b) +:+ c) = String x (a +:+ (b +:+ c))). by rewrite IH.
Qed.

(** Splitting what [Join] joined. *)
Lemma pieces_Join elems tail :
  Forall (fun e => noSlash e = true) elems -> elems <> [] ->
  pieces "/" 0 (Strings.Join elems "/" +:+ String slash tail)
  = (elems ++ pieces "/" 0 tail)%list.
Proof.
  induction elems as [|e elems IH]; intros Hall Hne; [done|].
  apply Forall_cons in Hall as [He Hall].
  destruct elems as [|e' elems].
  - cbn [Strings.Join]. by rewrite pieces_noSlash_sep.
  - change (Strings.Join (e :: e' :: elems) "/")
      with (e +:+ "/" +:+ Strings.Join (e' :: elems) "/").
    rewrite !append_assoc.
    change ("/" +:+ (Strings.Join (e' :: elems) "/" +:+ String slash tail))
      with (String slash (Strings.Join (e' :: elems) "/" +:+ String slash tail)).
    rewrite pieces_noSlash_sep by done. by rewrite IH.
Qed.

Lemma pieces_Join_end elems :
  Forall (fun e => noSlash e = true) elems -> elems <> [] ->
  pieces "/" 0 (Strings.Join elems "/") = elems.
Proof.
  induction elems as [|e elems IH]; intros Hall Hne; [done|].
  apply Forall_cons in Hall as [He Hall].
  destruct elems as [|e' elems].
  - cbn [Strings.Join]. by apply pieces_noSlash.
  - change (Strings.Join (e :: e' :: elems) "/")
      with (e +:+ "/" +:+ Strings.Join (e' :: elems) "/").
    change ("/" +:+ Strings.Join (e' :: elems) "/")
      with (String slash (Strings.Join (e' :: elems) "/")).
    rewrite pieces_noSlash_sep by done. by rewrite IH.
Qed.

Lemma goodElem_spec e :
  goodElem e = true ->
  nonEmpty e = true /\ noSlash e = true /\ e <> "." /\ e <> "..".
Proof.
  unfold goodElem. rewrite !andb_true_iff, !negb_true_iff, !String.eqb_neq. tauto.
Qed.

Lemma filter_nonEmpty_good elems :
  Forall (fun e => goodElem e = true) elems ->
  filter (fun e => nonEmpty e = true) elems = elems.
Proof.
  induction 1 as [|e elems He _ IH]; [done|].
  apply goodElem_spec in He as (Hne & _). rewrite filter_cons, decide_True by done.
  by rewrite IH.
Qed.

Lemma good_noSlash elems :
  Forall (fun e => goodElem e = true) elems -> Forall (fun e => noSlash e = true) elems.
Proof.
  intros H. eapply Forall_impl; [exact H|].
  intros e He. by apply goodElem_spec in He as (_ & ? & _).
Qed.

(** The elements of a canonical path, with or without a separator at its end. *)
Lemma elements_render elems :
  Forall (fun e => goodElem e = true) elems -> elements (render elems) = elems.
Proof.
  intros Hall. unfold elements, render, Split, Separator.
  change ("/" +:+ Strings.Join elems "/") with (String slash (Strings.Join elems "/")).
  rewrite pieces_cons, Ascii.eqb_refl. rewrite filter_cons, decide_False by done.
  destruct elems as [|e elems]; [done|].
  rewrite pieces_Join_end by (by apply good_noSlash || done).
  by apply filter_nonEmpty_good.
Qed.

Lemma elements_render_slash elems :
  Forall (fun e => goodElem e = true) elems ->
  elements (render elems +:+ "/") = elems.
Proof.
  intros Hall. unfold elements, render, Split, Separator.
  change (("/" +:+ Strings.Join elems "/") +:+ "/")
    with (String slash (Strings.Join elems "/" +:+ String slash EmptyString)).
  rewrite pieces_cons, Ascii.eqb_refl. rewrite filter_cons, decide_False by done.
  destruct elems as [|e elems]; [done|].
  rewrite pieces_Join by (by apply good_noSlash || done).
  cbn [pieces]. rewrite filter_app, filter_nonEmpty_good by done.
  rewrite filter_cons, decide_False by done. by rewrite filter_nil, app_nil_r.
Qed.

Lemma cleanStep_good stack e :
  good stack -> nonEmpty e = true -> noSlash e = true ->
  good (cleanStep true stack e).
Proof.
  intros Hst Hne Hns. unfold cleanStep.
  destruct (String.eqb e ".") eqn:Hdot; [done|].
  destruct (String.eqb e "..") eqn:Hdd.
  - destruct stack as [|top below]; [done|].
    apply Forall_cons in Hst as [Htop Hbelow].
    apply goodElem_spec in Htop as (_ & _ & _ & Htop).
    apply String.eqb_neq in Htop. by rewrite Htop.
  - constructor; [|done]. unfold goodElem. by rewrite Hne, Hns, Hdot, Hdd.
Qed.

Lemma cleanFold_good elems : forall stack,
  good stack ->
  Forall (fun e => nonEmpty e = true) elems -> Forall (fun e => noSlash e = true) elems ->
  good (fold_left (cleanStep true) elems stack).
Proof.
  induction elems as [|e elems IH]; intros stack Hst Hne Hns; [done|].
  apply Forall_cons in Hne as [? ?]. apply Forall_cons in Hns as [? ?].
  cbn. apply IH; try done. by apply cleanStep_good.
Qed.

Lemma cleanFold_good_id elems : forall stack,
  good elems -> fold_left (cleanStep true) elems stack = (rev elems ++ stack)%list.
Proof.
  induction elems as [|e elems IH]; intros stack Hall; [done|].
  apply Forall_cons in Hall as [He Hall].
  apply goodElem_spec in He as (_ & _ & Hdot & Hdd).
  apply String.eqb_neq in Hdot, Hdd.
  cbn [fold_left rev]. unfold cleanStep at 2. rewrite Hdot, Hdd.
  rewrite IH by done. by rewrite <- app_assoc.
Qed.

Lemma elements_noSlash path : Forall (fun e => noSlash e = true) (elements path).
Proof.
  unfold elements, Split, Separator. apply Forall_forall. intros e He.
  apply list_elem_of_filter in He as [_ He].
  pose proof (pieces_all_noSlash path) as H. rewrite Forall_forall in H. by apply H.
Qed.

Lemma IsAbs_render elems : IsAbs (render elems) = true.
Proof. unfold IsAbs, HasPrefix, render, Separator. apply prefix_slash. Qed.

Lemma good_rev elems : good elems -> good (rev elems).
Proof.
  intros H. apply Forall_forall. intros e He.
  rewrite Forall_forall in H. apply H. by apply list_elem_of_In, in_rev, list_elem_of_In.
Qed.

(** [Clean] of an absolute path is canonical, and canonical paths are
    fixed by [Clean]. *)
Lemma Clean_canonical path :
  IsAbs path = true -> exists elems, good elems /\ Clean path = render elems.
Proof.
  intros Habs. unfold Clean. rewrite Habs.
  exists (rev (fold_left (cleanStep true) (elements path) [])). split; [|done].
  apply good_rev. apply cleanFold_good; [done|apply elements_nonEmpty|apply elements_noSlash].
Qed.

Lemma Clean_render elems : good elems -> Clean (render elems) = render elems.
Proof.
  intros Hall. unfold Clean. rewrite IsAbs_render, elements_render by done.
  rewrite cleanFold_good_id by done. by rewrite app_nil_r, rev_involutive.
Qed.

Lemma IsAbs_append a b : IsAbs a = true -> IsAbs (a +:+ b) = true.
Proof.
  destruct a as [|c a]; [done|]. unfold IsAbs, HasPrefix, Separator.
  change (String c a +:+ b) with (String c (a +:+ b)). by rewrite !prefix_slash.
Qed.

Lemma Clean_render_slash elems : good elems -> Clean (render elems +:+ "/") = render elems.
Proof.
  intros Hall. unfold Clean.
  rewrite (IsAbs_append _ _ (IsAbs_render elems)), elements_render_slash by done.
  rewrite cleanFold_good_id by done. by rewrite app_nil_r, rev_involutive.
Qed.

(** The parent of a canonical path. *)
Lemma lastSlash_noSlash e : noSlash e = true -> lastSlash e = None.
Proof.
  induction e as [|c e IH]; intros H; [done|].
  cbn in H. apply andb_true_iff in H as [Hc He]. apply negb_true_iff in Hc.
  cbn [lastSlash]. rewrite IH by done. by rewrite Hc.
Qed.

Lemma lastSlash_append a e :
  noSlash e = true -> lastSlash (a +:+ String slash e) = Some (String.length a).
Proof.
  intros He. induction a as [|c a IH].
  - change (EmptyString +:+ String slash e) with (String slash e).
    cbn [lastSlash]. rewrite lastSlash_noSlash by done.
    by rewrite Ascii.eqb_refl.
  - change (String c a +:+ String slash e) with (String c (a +:+ String slash e)).
    cbn [lastSlash]. by rewrite IH.
Qed.

Lemma take_append a e :
  take (S (String.length a)) (a +:+ String slash e) = a +:+ "/".
Proof.
  induction a as [|c a IH]; [done|].
  change (take (S (String.length (String c a))) (String c a +:+ String slash e))
    with (String c (take (S (String.length a)) (a +:+ String slash e))).
  by rewrite IH.
Qed.

Lemma Dir_append a e :
  noSlash e = true -> Dir (a +:+ String slash e) = Clean (a +:+ "/").
Proof. intros He. unfold Dir. by rewrite lastSlash_append, take_append. Qed.

Lemma Join_snoc elems e :
  elems <> [] ->
  Strings.Join (elems ++ [e]) "/" = Strings.Join elems "/" +:+ String slash e.
Proof.
  induction elems as [|x elems IH]; intros Hne; [done|].
  destruct elems as [|y elems]; [done|].
  change (Strings.Join ((x :: y :: elems) ++ [e]) "/")
    with (x +:+ "/" +:+ Strings.Join ((y :: elems) ++ [e]) "/").
  rewrite IH by done.
  change (Strings.Join (x :: y :: elems) "/")
    with (x +:+ "/" +:+ Strings.Join (y :: elems) "/").
  by rewrite !append_assoc.
Qed.

Lemma Dir_render elems e :
  good elems -> goodElem e = true -> Dir (render (elems ++ [e])) = render elems.
Proof.
  intros Hall He. apply goodElem_spec in He as (_ & Hns & _).
  destruct elems as [|x elems].
  - change (render ([] ++ [e])) with (EmptyString +:+ String slash e).
    rewrite Dir_append by done. apply (Clean_render []). constructor.
  - unfold render. rewrite Join_snoc by done. rewrite <- append_assoc.
    rewrite Dir_append by done. by apply Clean_render_slash.
Qed.

Lemma render_nonEmpty elems : nonEmpty (render elems) = true.
Proof. done. Qed.

Lemma render_snoc_not_root elems e :
  goodElem e = true -> String.eqb (render (elems ++ [e])) "/" = false.
Proof.
  intros He. apply goodElem_spec in He as (Hne & _). apply String.eqb_neq.
  unfold render, Separator.
  change ("/" +:+ Strings.Join (elems ++ [e]) "/")
    with (String slash (Strings.Join (elems ++ [e]) "/")).
  intros [= H]. destruct elems as [|x elems].
  - cbn in H. subst e. done.
  - rewrite Join_snoc in H by done. by destruct (Strings.Join (x :: elems) "/").
Qed.

(** ** Walking the tree along a canonical path *)

Lemma walk_app elems rest : forall n x,
  walk n (elems ++ rest) = inr x ->
  exists d, walk n elems = inr d /\ walk d rest = inr x.
Proof.
  induction elems as [|e elems IH]; intros n x H; [by exists n|].
  cbn in H. destruct n as [data|entries]; [done|].
  cbn. destruct (entries !! e) as [child|]; [|done]. by apply IH.
Qed.

Lemma walk_into n e rest x :
  walk n (e :: rest) = inr x -> exists entries, n = Directory entries.
Proof. destruct n; [done|eauto]. Qed.

(** Every ancestor of a directory is a directory. *)
Lemma walk_prefix n elems' elems entries :
  elems' `prefix_of` elems -> walk n elems = inr (Directory entries) ->
  exists entries', walk n elems' = inr (Directory entries').
Proof.
  intros [rest ->] H. apply walk_app in H as (d & Hd & Hrest).
  destruct rest as [|e rest].
  - cbn in Hrest. injection Hrest as ->. eauto.
  - apply walk_into in Hrest as [entries' ->]. eauto.
Qed.

Lemma append_length (a b : string) :
  String.length (a +:+ b) = (String.length a + String.length b)%nat.
Proof.
  induction a as [|c a IH]; [done|].
  change (String c a +:+ b) with (String c (a +:+ b)). cbn [String.length]. by rewrite IH.
Qed.

Lemma ReadFile_exists fs path bytes :
  ReadFile fs path = Ok bytes -> statNotExist fs path = None.
Proof.
  unfold ReadFile, statNotExist, Stat.
  by destruct (resolve fs path) as [code|[[data|]|entries]].
Qed.

Section Canonical.
Variable fs : FileSystem.
Hypothesis cwd_absolute : IsAbs (cwd fs) = true.

Lemma Abs_canonical path : exists elems, good elems /\ Abs fs path = render elems.
Proof using cwd_absolute.
  unfold Abs. destruct (IsAbs path) eqn:Hp; [by apply Clean_canonical|].
  unfold Join2. rewrite (proj2 (nonEmpty_true _) (IsAbs_nonempty _ cwd_absolute)).
  apply Clean_canonical. by apply IsAbs_append.
Qed.

Lemma Abs_render elems : good elems -> Abs fs (render elems) = render elems.
Proof. intros H. unfold Abs. rewrite IsAbs_render. by apply Clean_render. Qed.

Lemma resolve_render elems :
  good elems -> resolve fs (render elems) = walk (Directory (root fs)) elems.
Proof.
  intros H. unfold resolve. rewrite render_nonEmpty, Abs_render by done.
  by rewrite elements_render.
Qed.

(** Reading through the absolute form of a path reads the same file. *)
Lemma resolve_Abs path :
  nonEmpty path = true -> resolve fs (Abs fs path) = resolve fs path.
Proof using cwd_absolute.
  intros Hne. destruct (Abs_canonical path) as (elems & Hgood & Habs).
  rewrite Habs, resolve_render by done.
  unfold resolve. by rewrite Hne, Habs, elements_render.
Qed.

Lemma ReadFile_Abs path bytes :
  ReadFile fs path = Ok bytes -> ReadFile fs (Abs fs path) = Ok bytes.
Proof using cwd_absolute.
  unfold ReadFile. intros H. destruct (nonEmpty path) eqn:Hne.
  - rewrite resolve_Abs by done.
    by destruct (resolve fs path) as [code|[[data|]|entries]].
  - unfold resolve in H. by rewrite Hne in H.
Qed.

(** [newModule] refuses a directory, whatever its name. *)
Lemma newModule_directory elems entries :
  good elems -> walk (Directory (root fs)) elems = inr (Directory entries) ->
  exists e, newModule fs (render elems) = Err e.
Proof.
  intros Hgood Hdir. unfold newModule.
  destruct (statNotExist fs (render elems)); [eauto|].
  destruct (HasSuffix (render elems) GoModFileName); cbn [negb]; [|eauto].
  rewrite Abs_render by done. unfold ReadFile.
  rewrite resolve_render, Hdir by done. eauto.
Qed.

(** The loop of [goModFileOf] ends within its fuel, and what it returns
    on success is the directory in which it stands: a prefix of the path
    it started from. *)
Lemma goModFileLoop_canonical from elems : forall fuel,
  good elems -> (length elems <= fuel)%nat ->
  exists r,
    goModFileLoop fs from fuel (render elems) = Some r
    /\ forall d, r = Ok d ->
         exists elems', good elems' /\ elems' `prefix_of` elems /\ d = render elems'.
Proof.
  induction elems as [|e elems IH] using rev_ind; intros fuel Hgood Hfuel.
  - destruct fuel; eexists; (split; [reflexivity|]); intros d [=].
  - apply Forall_app in Hgood as [Hgood He]. apply Forall_cons in He as [He _].
    rewrite length_app in Hfuel. cbn in Hfuel.
    destruct fuel as [|fuel]; [lia|].
    assert (Hcond : nonEmpty (render (elems ++ [e]))
                    && negb (String.eqb (render (elems ++ [e])) "/")
                    && negb (String.eqb (render (elems ++ [e])) ".")
                    && negb (String.eqb (render (elems ++ [e])) "..") = true).
    { rewrite render_nonEmpty, render_snoc_not_root by done. done. }
    cbn [goModFileLoop]. rewrite Hcond.
    destruct (statNotExist fs _).
    + rewrite Dir_render by done.
      destruct (IH fuel Hgood ltac:(lia)) as (r & Hrun & Hr).
      exists r. split; [done|]. intros d ->.
      destruct (Hr d eq_refl) as (elems' & ? & ? & ->).
      exists elems'. split; [done|]. split; [|done]. by apply prefix_app_r.
    + eexists. split; [reflexivity|]. intros d [= <-].
      exists (elems ++ [e])%list. split; [|done].
      apply Forall_app. split; [done|]. by constructor.
Qed.

Lemma render_length elems : good elems -> (length elems <= String.length (render elems))%nat.
Proof.
  intros H. unfold render, Separator.
  change ("/" +:+ Strings.Join elems "/") with (String slash (Strings.Join elems "/")).
  cbn [String.length]. apply Nat.le_le_succ_r.
  induction H as [|e elems He _ IH]; [cbn; lia|].
  apply goodElem_spec in He as (Hne & _).
  destruct elems as [|x elems].
  - cbn. destruct e; [done|cbn; lia].
  - change (Strings.Join (e :: x :: elems) "/")
      with (e +:+ String slash (Strings.Join (x :: elems) "/")).
    rewrite append_length. cbn [String.length length] in *. lia.
Qed.

(** The module lookup never ends without an answer. *)
Lemma goModFileOf_total path : is_Some (goModFileOf fs path).
Proof using cwd_absolute.
  unfold goModFileOf. destruct (Abs_canonical path) as (elems & Hgood & ->).
  destruct (goModFileLoop_canonical path elems (String.length (render elems)) Hgood
              (render_length elems Hgood)) as (r & -> & _). eauto.
Qed.

(** From an existing directory, [initProgram] yields no Program:
    where the lookup sees a manifest it hands the directory, not the
    manifest, to [newModule]. *)
Lemma initProgram_never_succeeds dir σ entries :
  nonEmpty dir = true -> resolve fs dir = inr (Directory entries) ->
  exists e, initProgram fs dir σ = Some ((None, Some e), σ).
Proof using cwd_absolute.
  intros Hne Hdir. unfold initProgram, goModFileOf. rewrite Hne.
  destruct (Abs_canonical dir) as (elems & Hgood & Habs).
  unfold resolve in Hdir. rewrite Hne, Habs, elements_render in Hdir by done.
  rewrite Habs, Abs_render by done.
  destruct (goModFileLoop_canonical (render elems) elems (String.length (render elems))
              Hgood (render_length elems Hgood)) as (r & -> & Hr).
  destruct r as [d|e]; [|eauto].
  destruct (Hr d eq_refl) as (elems' & Hgood' & Hpre & ->).
  destruct (walk_prefix _ _ _ _ Hpre Hdir) as [entries' Hdir'].
  destruct (newModule_directory elems' entries' Hgood' Hdir') as [e ->]. eauto.
Qed.

End Canonical.

(** ** The package registry of a program *)

Lemma newPackage_existing σ g prog P p n d :
  programs σ !! g = Some prog ->
  pkgSet prog !! P = Some p ->
  Program_newPackage (Some g) n P d σ = Some (Some p, σ).
Proof.
  intros Hg HP. unfold Program_newPackage.
  run (getProgram_Some _ _ _ Hg).
  rewrite HP. unfold bind at 1. cbn [ret].
  run (getProgram_Some _ _ _ Hg).
  unfold ret. by rewrite HP.
Qed.

(** The first request at a path: the registry maps the path to the
    instance returned, and that instance is on the heap. *)
Lemma newPackage_first σ g prog P n d :
  programs σ !! g = Some prog ->
  (forall P' p', pkgSet prog !! P' = Some p' -> is_Some (packages σ !! p')) ->
  exists p σ1 prog1 pk,
    Program_newPackage (Some g) n P d σ = Some (Some p, σ1)
    /\ programs σ1 !! g = Some prog1 /\ pkgSet prog1 !! P = Some p
    /\ packages σ1 !! p = Some pk.
Proof.
  intros Hg Hwf. destruct (pkgSet prog !! P) as [p|] eqn:HP.
  - destruct (Hwf _ _ HP) as [pk Hpk].
    exists p, σ, prog, pk. split; [by eapply newPackage_existing|auto].
  - unfold Program_newPackage.
    run (getProgram_Some _ _ _ Hg). rewrite HP.
    unfold newPackage, allocPackage, setProgram, getProgram, bind, ret. cbn.
    rewrite Hg. cbn. rewrite lookup_insert_eq. cbn. rewrite lookup_insert_eq.
    eexists _, _, _, _. split; [reflexivity|]. cbn.
    rewrite !lookup_insert_eq. split; [reflexivity|]. cbn.
    rewrite lookup_insert_eq. split; reflexivity.
Qed.

Lemma Package_newSrcFile_spec σ p pk s :
  packages σ !! p = Some pk ->
  exists f σ' pk',
    Package_newSrcFile (Some p) s σ = Some (Some f, σ')
    /\ programs σ' = programs σ
    /\ packages σ' !! p = Some pk'
    /\ srcFiles pk' !! s = Some f
    /\ (forall s', is_Some (srcFiles pk !! s') -> is_Some (srcFiles pk' !! s')).
Proof.
  intros Hp. unfold Package_newSrcFile.
  run (getPackage_Some _ _ _ Hp).
  destruct (srcFiles pk !! s) as [f|] eqn:Hs.
  - unfold bind at 1. cbn [ret].
    run (getPackage_Some _ _ _ Hp).
    unfold ret. rewrite Hs. by exists f, σ, pk.
  - unfold newSrcFile, allocFile, modifyPackage, setPackage, getPackage, bind, ret. cbn.
    rewrite Hp. cbn. rewrite lookup_insert_eq. cbn. rewrite lookup_insert_eq.
    eexists _, _, _. split; [reflexivity|]. cbn.
    rewrite lookup_insert_eq. split; [done|]. split; [done|]. cbn.
    rewrite lookup_insert_eq. split; [done|].
    intros s' Hs'. destruct (decide (s = s')) as [->|Hne].
    + rewrite lookup_insert_eq. eauto.
    + by rewrite lookup_insert_ne.
Qed.

Lemma registerFiles_spec paths : forall σ p pk,
  packages σ !! p = Some pk ->
  exists σ' pk',
    forEach paths (registerFile p) σ = Some (tt, σ')
    /\ programs σ' = programs σ
    /\ packages σ' !! p = Some pk'
    /\ (forall s', is_Some (srcFiles pk !! s') -> is_Some (srcFiles pk' !! s'))
    /\ (forall s, s ∈ paths -> is_Some (srcFiles pk' !! s)).
Proof.
  induction paths as [|s paths IH]; intros σ p pk Hp.
  - exists σ, pk. cbn. repeat split; try done. intros s Hs. by apply elem_of_nil in Hs.
  - destruct (Package_newSrcFile_spec σ p pk s Hp)
      as (f & σ1 & pk1 & Hrun & Hprog & Hp1 & Hs & Hmono).
    destruct (IH σ1 p pk1 Hp1) as (σ2 & pk2 & Hrun2 & Hprog2 & Hp2 & Hmono2 & Hall).
    exists σ2, pk2. split.
    { cbn [forEach]. unfold registerFile at 1.
      unfold bind at 1. unfold bind at 1. rewrite Hrun. cbn [ret]. exact Hrun2. }
    split; [congruence|]. split; [done|]. split; [eauto|].
    intros s0 Hs0. apply elem_of_cons in Hs0 as [->|Hin]; [|eauto].
    apply Hmono2. eauto.
Qed.

(** C8. Two successive requests for a package at one import path return
    the same instance. Between the two requests any source files may be
    registered in it: the second request leaves the store as it is, so the
    file registry is not reset and still holds every file registered. *)
Theorem newPackage_idempotent σ g prog P n1 d1 n2 d2 paths :
  programs σ !! g = Some prog ->
  (forall P' p', pkgSet prog !! P' = Some p' -> is_Some (packages σ !! p')) ->
  exists p σ1 σ2 pk,
    Program_newPackage (Some g) n1 P d1 σ = Some (Some p, σ1)
    /\ forEach paths (registerFile p) σ1 = Some (tt, σ2)
    /\ Program_newPackage (Some g) n2 P d2 σ2 = Some (Some p, σ2)
    /\ packages σ2 !! p = Some pk
    /\ (forall s, s ∈ paths -> is_Some (srcFiles pk !! s)).
Proof.
  intros Hg Hwf.
  destruct (newPackage_first σ g prog P n1 d1 Hg Hwf)
    as (p & σ1 & prog1 & pk & Hrun & Hg1 & HP1 & Hp1).
  destruct (registerFiles_spec paths σ1 p pk Hp1)
    as (σ2 & pk2 & Hrun2 & Hprog2 & Hp2 & _ & Hall).
  exists p, σ1, σ2, pk2. repeat split; try done.
  eapply newPackage_existing; [|exact HP1]. by rewrite Hprog2.
Qed.

Lemma newPackage_idempotent_witness :
  exists p σ1 σ2 pk,
    Program_newPackage (Some 0%nat) "app" "example.com/app" "/q" Demo.storeP
      = Some (Some p, σ1)
    /\ forEach ["/q/a.go"] (registerFile p) σ1 = Some (tt, σ2)
    /\ Program_newPackage (Some 0%nat) "other" "example.com/app" "/elsewhere" σ2
      = Some (Some p, σ2)
    /\ packages σ2 !! p = Some pk
    /\ (forall s, s ∈ ["/q/a.go"] -> is_Some (srcFiles pk !! s)).
Proof.
  apply (newPackage_idempotent Demo.storeP 0%nat {| pkgSet := ∅; module := None |}).
  - reflexivity.
  - intros P' p' H. cbn in H. by rewrite lookup_empty in H.
Defined.

(** C10. When the registry of a program holds a package at an import
    path, a further request at that path, whatever short name and directory
    it names, returns that instance and changes nothing in the store: the
    package keeps its short name, import path and directory path. *)
Theorem newPackage_keeps_existing σ g prog P p pk n d :
  programs σ !! g = Some prog ->
  pkgSet prog !! P = Some p ->
  packages σ !! p = Some pk ->
  exists σ',
    Program_newPackage (Some g) n P d σ = Some (Some p, σ')
    /\ σ' = σ
    /\ Package_PkgName (Some p) σ' = Some (pkgName pk, σ')
    /\ Package_PkgPath (Some p) σ' = Some (pkgPath pk, σ')
    /\ Package_DirPath (Some p) σ' = Some (dirPath pk, σ').
Proof.
  intros Hg HP Hp. exists σ. split; [by eapply newPackage_existing|]. split; [done|].
  unfold Package_PkgName, Package_PkgPath, Package_DirPath.
  by repeat run (getPackage_Some _ _ _ Hp).
Qed.

Lemma newPackage_keeps_existing_witness :
  exists σ',
    Program_newPackage (Some 0%nat) "other" "example.com/app" "/elsewhere" Demo.storeQ
      = Some (Some 0%nat, σ')
    /\ σ' = Demo.storeQ
    /\ Package_PkgName (Some 0%nat) σ' = Some ("app", σ')
    /\ Package_PkgPath (Some 0%nat) σ' = Some ("example.com/app", σ')
    /\ Package_DirPath (Some 0%nat) σ' = Some ("/q", σ').
Proof.
  apply (newPackage_keeps_existing Demo.storeQ 0%nat
           {| pkgSet := {[ "example.com/app" := 0%nat ]}; module := None |}
           "example.com/app" 0%nat (Demo.package "app" "example.com/app" "/q" ∅ None));
    reflexivity.
Defined.

(** ** Members of a source file *)

Lemma Position_NoPos fset p :
  Pos_IsValid p = false -> Filename (FileSet_Position fset p) = EmptyString.
Proof. intros H. unfold FileSet_Position. by rewrite H. Qed.

Section Update.
Variables (fl pl sl : loc) (p : Package) (fset : FileSet).
Hypothesis Hset : fileSet p = Some sl.

(** For a file with an absolute path, [Contain] is the comparison of
    the resolved file name with the path: an invalid position resolves to
    the empty name, which no absolute path equals. *)
Lemma Contain_spec σ f m :
  linked fl pl sl p fset σ f -> IsAbs (path f) = true ->
  SrcFile_Contain (Some fl) (Member_Pos m) σ = Some (attaches fset (path f) m, σ).
Proof using Hset.
  intros (Hf & Hpkg & Hp & Hs) Habs. unfold SrcFile_Contain, attaches, resolvedName.
  destruct (Pos_IsValid (Member_Pos m)) eqn:Hv.
  - run (getFile_Some _ _ _ Hf). rewrite Hpkg.
    run (getPackage_Some _ _ _ Hp).
    unfold positionAt. rewrite Hv, Hset.
    unfold bind at 1. run (getFileSet_Some _ _ _ Hs).
    reflexivity.
  - rewrite (Position_NoPos _ _ Hv). unfold ret. f_equal. f_equal.
    symmetry. apply String.eqb_neq. intros E. by apply (IsAbs_nonempty _ Habs).
Qed.

Lemma attach_loop members : forall σ f,
  linked fl pl sl p fset σ f -> IsAbs (path f) = true ->
  exists σ',
    forEach members (attachMember fl) σ = Some (tt, σ')
    /\ linked fl pl sl p fset σ'
         (withMemSet f (memSet f ++ filter (fun m => attaches fset (path f) m = true)
                                      (omap snd members))).
Proof using Hset.
  induction members as [|[key [m|]] members IH]; intros σ f Hl Habs.
  - exists σ. split; [reflexivity|]. cbn. rewrite app_nil_r.
    destruct Hl as (Hf & ? & ? & ?). destruct f. by repeat split.
  - change (omap snd ((key, Some m) :: members)) with (m :: omap snd members).
    cbn [forEach]. unfold attachMember at 1. cbn [snd].
    unfold bind at 1. unfold bind at 1. rewrite (Contain_spec σ f m Hl Habs).
    rewrite filter_cons.
    destruct (attaches fset (path f) m) eqn:Hat.
    + destruct Hl as (Hf & Hpkg & Hp & Hs).
      run (getFile_Some _ _ _ Hf).
      unfold setFile.
      edestruct (IH (withFiles σ (<[fl := withMemSet f (memSet f ++ [m])]> (files σ)))
                   (withMemSet f (memSet f ++ [m]))) as (σ' & Hrun & Hl').
      { repeat split; cbn; try done. by rewrite lookup_insert_eq. }
      { done. }
      exists σ'. split; [exact Hrun|].
      rewrite decide_True by done.
      cbn in Hl'. cbn. by rewrite <- app_assoc in Hl'.
    + destruct (IH σ f Hl Habs) as (σ' & Hrun & Hl').
      exists σ'. split; [exact Hrun|].
      rewrite decide_False by done. exact Hl'.
  - change (omap snd ((key, None) :: members)) with (omap (M:=list) snd members).
    cbn [forEach]. unfold attachMember at 1. cbn [snd].
    unfold bind at 1. cbn [ret].
    apply IH; done.
Qed.

End Update.

(** C9. Updating a source file, whose path is absolute, with a set of
    derived members attaches exactly those members whose position resolves,
    through the position table of the owning package, to a file name equal
    to the path of the file (an exact, case-sensitive comparison of strings).
    So a member that resolves to any other path, such as one that differs
    in its last segment only, is not attached. *)
Theorem update_attaches_by_path σ fl f pl p sl fset code syn members :
  files σ !! fl = Some f -> pkg f = Some pl -> packages σ !! pl = Some p ->
  fileSet p = Some sl -> fileSets σ !! sl = Some fset ->
  IsAbs (path f) = true ->
  exists σ' f',
    SrcFile_update (Some fl) code syn members σ = Some (None, σ')
    /\ files σ' !! fl = Some f' /\ path f' = path f
    /\ (forall m, m ∈ memSet f' <->
          (exists key, (key, Some m) ∈ members) /\ resolvedName fset m = path f)
    /\ (forall m other, resolvedName fset m = other -> other <> path f -> m ∉ memSet f').
Proof.
  intros Hf Hpkg Hp Hset Hs Habs.
  assert (Hchar : exists σ' f',
    SrcFile_update (Some fl) code syn members σ = Some (None, σ')
    /\ files σ' !! fl = Some f' /\ path f' = path f
    /\ memSet f' = filter (fun m => attaches fset (path f) m = true) (omap snd members)).
  { unfold SrcFile_update.
    run (getFile_Some _ _ _ Hf).
    unfold setFile at 1. unfold bind at 1.
    edestruct (attach_loop fl pl sl p fset Hset members
                 (withFiles σ (<[fl := withContent f code syn]> (files σ)))
                 (withContent f code syn)) as (σ' & Hrun & Hl').
    { repeat split; cbn; try done. by rewrite lookup_insert_eq. }
    { done. }
    unfold bind at 1. rewrite Hrun.
    destruct Hl' as (Hf' & _). eexists _, _. split; [reflexivity|].
    split; [exact Hf'|]. split; reflexivity. }
  destruct Hchar as (σ' & f' & Hrun & Hf' & Hpath & Hmem).
  assert (Hiff : forall m, m ∈ memSet f' <->
          (exists key, (key, Some m) ∈ members) /\ resolvedName fset m = path f).
  { intros m. rewrite Hmem, list_elem_of_filter, list_elem_of_omap.
    unfold attaches. rewrite String.eqb_eq. split.
    - intros (He & [[key om] [Hin Hom]]). cbn in Hom. subst om. eauto.
    - intros ([key Hin] & He). split; [done|]. by exists (key, Some m). }
  exists σ', f'. do 3 (split; [done|]). split; [exact Hiff|].
  intros m' other Hres Hne Hin. apply Hiff in Hin as [_ He]. congruence.
Qed.

Lemma update_attaches_by_path_witness :
  exists σ' f',
    SrcFile_update (Some 0%nat) Demo.goodSource (Some (Demo.tree "r" 1)) Demo.members
      Demo.storeW = Some (None, σ')
    /\ files σ' !! 0%nat = Some f' /\ path f' = "/w/a.go"
    /\ (forall m, m ∈ memSet f' <->
          (exists key, (key, Some m) ∈ Demo.members)
          /\ resolvedName (Demo.table "/w/a.go" "/w/c.go") m = "/w/a.go")
    /\ (forall m other, resolvedName (Demo.table "/w/a.go" "/w/c.go") m = other ->
          other <> "/w/a.go" -> m ∉ memSet f').
Proof.
  apply (update_attaches_by_path Demo.storeW 0%nat
           {| pkg := Some 0%nat; path := "/w/a.go"; code := NoneString;
              syntax := None; memSet := [] |}
           0%nat (Demo.package "r" "/w" "/w" {[ "/w/a.go" := 0%nat ]} (Some 0%nat))
           0%nat (Demo.table "/w/a.go" "/w/c.go")); reflexivity.
Defined.

(** ** The module descriptor reader *)

Lemma goModLine_module m : goModLine m moduleLine = setModuleName m appName.
Proof. reflexivity. Qed.

Lemma goModLine_direct m :
  goModLine m directLine
  = setDirectDeps m (<["example.com/dep" := "v1.2.3"]> (DirectDeps m)).
Proof. reflexivity. Qed.

Lemma goModLine_indirect m :
  goModLine m indirectLine
  = setIndirectDeps m (<["example.com/indirectdep" := "v0.9.0"]> (IndirectDeps m)).
Proof. reflexivity. Qed.

Lemma manifestLine_cases line :
  manifestLine line = true ->
  line = moduleLine \/ line = directLine \/ line = indirectLine \/ otherLine line = true.
Proof.
  unfold manifestLine. rewrite !orb_true_iff, !String.eqb_eq. tauto.
Qed.

Lemma hasLine_cons lines l line :
  hasLine (l :: lines) line = true -> l <> line -> hasLine lines line = true.
Proof.
  unfold hasLine. cbn. rewrite orb_true_iff, String.eqb_eq. intros [->|?] ?; done.
Qed.

Lemma otherLine_not l line :
  otherLine l = true -> otherLine line = false -> l <> line.
Proof. congruence. Qed.

Lemma goModLine_other m line :
  otherLine line = true ->
  ModuleName (goModLine m line) = ModuleName m
  /\ DirectDeps (goModLine m line) = DirectDeps m
  /\ IndirectDeps (goModLine m line) = IndirectDeps m.
Proof.
  unfold otherLine. rewrite andb_true_iff, !negb_true_iff.
  intros [H1 H2]. unfold goModLine. rewrite H1, H2.
  by destruct (HasPrefix line VersionPrefix).
Qed.

(** The loop over the lines: whatever the order of the lines and however
    often a line is repeated, the three fields end as the three lines say. *)
Lemma fold_manifest lines : forall m,
  forallb manifestLine lines = true ->
  hasLine lines moduleLine = true \/ ModuleName m = appName ->
  (hasLine lines directLine = true /\ DirectDeps m = ∅) \/ DirectDeps m = directDeps ->
  (hasLine lines indirectLine = true /\ IndirectDeps m = ∅)
    \/ IndirectDeps m = indirectDeps ->
  ModuleName (fold_left goModLine lines m) = appName
  /\ DirectDeps (fold_left goModLine lines m) = directDeps
  /\ IndirectDeps (fold_left goModLine lines m) = indirectDeps.
Proof.
  induction lines as [|l lines IH]; intros m Hall Hm Hd Hi.
  - cbn in *. intuition discriminate.
  - cbn [forallb] in Hall. apply andb_true_iff in Hall as [Hl Hall].
    cbn [fold_left]. apply manifestLine_cases in Hl.
    destruct Hl as [->|[->|[->|Ho]]].
    + rewrite goModLine_module. apply IH; [done|by right|..]; cbn.
      * destruct Hd as [[Hd ?]|?]; [left|by right].
        split; [|done]. by apply (hasLine_cons _ _ _ Hd).
      * destruct Hi as [[Hi ?]|?]; [left|by right].
        split; [|done]. by apply (hasLine_cons _ _ _ Hi).
    + rewrite goModLine_direct. apply IH; [done|..]; cbn.
      * destruct Hm as [Hm|?]; [left|by right]. by apply (hasLine_cons _ _ _ Hm).
      * right. destruct Hd as [[_ ->]| ->]; unfold directDeps;
          [by rewrite insert_empty|by rewrite insert_singleton_eq].
      * destruct Hi as [[Hi ?]|?]; [left|by right].
        split; [|done]. by apply (hasLine_cons _ _ _ Hi).
    + rewrite goModLine_indirect. apply IH; [done|..]; cbn.
      * destruct Hm as [Hm|?]; [left|by right]. by apply (hasLine_cons _ _ _ Hm).
      * destruct Hd as [[Hd ?]|?]; [left|by right].
        split; [|done]. by apply (hasLine_cons _ _ _ Hd).
      * right. destruct Hi as [[_ ->]| ->]; unfold indirectDeps;
          [by rewrite insert_empty|by rewrite insert_singleton_eq].
    + destruct (goModLine_other m l Ho) as (Em & Ed & Ei).
      apply IH; [done|rewrite Em|rewrite Ed|rewrite Ei].
      * destruct Hm as [Hm|?]; [left|by right].
        apply (hasLine_cons _ _ _ Hm). by apply (otherLine_not _ _ Ho).
      * destruct Hd as [[Hd ?]|?]; [left|by right]. split; [|done].
        apply (hasLine_cons _ _ _ Hd). by apply (otherLine_not _ _ Ho).
      * destruct Hi as [[Hi ?]|?]; [left|by right]. split; [|done].
        apply (hasLine_cons _ _ _ Hi). by apply (otherLine_not _ _ Ho).
Qed.

(** C6. A manifest that has the line [module example.com/app], the
    tab-indented line [example.com/dep v1.2.3] and the tab-indented line
    [example.com/indirectdep v0.9.0 // indirect], and otherwise only lines
    that are neither module nor dependency lines, is read as a Module named
    [example.com/app] with exactly one direct dependency, example.com/dep at
    v1.2.3, and exactly one indirect one, example.com/indirectdep at v0.9.0. *)
Theorem newModule_example fs goModFile bytes :
  IsAbs (cwd fs) = true ->
  HasSuffix goModFile GoModFileName = true ->
  ReadFile fs goModFile = Ok bytes ->
  forallb manifestLine (Split bytes NewLine) = true ->
  hasLine (Split bytes NewLine) moduleLine = true ->
  hasLine (Split bytes NewLine) directLine = true ->
  hasLine (Split bytes NewLine) indirectLine = true ->
  exists m,
    newModule fs goModFile = Ok m
    /\ ModuleName m = "example.com/app"
    /\ DirectDeps m = {["example.com/dep" := "v1.2.3"]}
    /\ IndirectDeps m = {["example.com/indirectdep" := "v0.9.0"]}.
Proof.
  intros Hcwd Hsuf Hread Hall Hm Hd Hi. unfold newModule.
  rewrite (ReadFile_exists _ _ _ Hread), Hsuf, (ReadFile_Abs fs Hcwd _ _ Hread).
  cbn [negb].
  destruct (String.length bytes =? 0)%nat eqn:Hlen.
  { apply Nat.eqb_eq in Hlen. destruct bytes; [|done]. discriminate Hm. }
  eexists. split; [reflexivity|].
  apply fold_manifest; auto.
Qed.

Lemma newModule_example_witness :
  exists m,
    newModule Demo.fs "/q/go.mod" = Ok m
    /\ ModuleName m = "example.com/app"
    /\ DirectDeps m = {["example.com/dep" := "v1.2.3"]}
    /\ IndirectDeps m = {["example.com/indirectdep" := "v0.9.0"]}.
Proof.
  apply (newModule_example Demo.fs "/q/go.mod" Demo.manifest); vm_compute; reflexivity.
Defined.

(** The loop over the lines leaves the two paths of the Module alone. *)
Lemma fold_goModLine_paths lines : forall m,
  RootPath (fold_left goModLine lines m) = RootPath m
  /\ GoModFile (fold_left goModLine lines m) = GoModFile m.
Proof.
  induction lines as [|line lines IH]; intros m; [done|].
  cbn [fold_left]. destruct (IH (goModLine m line)) as [-> ->].
  unfold goModLine.
  destruct (HasPrefix line ModulePrefix); [done|].
  destruct (HasPrefix line VersionPrefix); [done|].
  destruct (HasPrefix line TabString); [|done].
  destruct (Split (TrimSpace line) SpaceChar) as [|item0 [|item1 items]]; [done..|].
  by destruct (String.eqb _ GoModIndirect).
Qed.

Lemma HasSuffix_nonEmpty s suffix :
  nonEmpty suffix = true -> HasSuffix s suffix = true -> nonEmpty s = true.
Proof.
  destruct s; [|done]. destruct suffix; [done|]. done.
Qed.

(** C7 does not hold as stated: the file [/q/backup-go.mod] is there and
    its name, [backup-go.mod], is not the manifest name [go.mod]; the reader
    does not fail with "not go.mod", it returns the Module that the file
    describes. So it is not true that the reader fails so whenever the file
    name differs from the manifest name. *)
Lemma newModule_wrong_kind_counterexample :
  Stat Demo.fsBackup "/q/backup-go.mod" = Ok {| IsDir := false |}
  /\ Base "/q/backup-go.mod" = "backup-go.mod"
  /\ (exists m,
        newModule Demo.fsBackup "/q/backup-go.mod" = Ok m
        /\ GoModFile m = "/q/backup-go.mod" /\ ModuleName m = "example.com/app")
  /\ ~ (forall fs goModFile info,
          Stat fs goModFile = Ok info -> Base goModFile <> GoModFileName ->
          newModule fs goModFile = Err (Errorf "not go.mod: %s" goModFile)).
Proof.
  split; [reflexivity|]. split; [reflexivity|]. split.
  - eexists. split; [vm_compute; reflexivity|]. split; reflexivity.
  - intros H.
    specialize (H Demo.fsBackup "/q/backup-go.mod" {| IsDir := false |} eq_refl).
    assert (Hbase : Base "/q/backup-go.mod" <> GoModFileName) by discriminate.
    specialize (H Hbase). vm_compute in H. discriminate H.
Qed.

(** C7, amended. The module descriptor reader fails with the error of
    [os.Stat] (NotFound) when the file is absent; when the file is there it
    fails with "not go.mod" (WrongKind) exactly when the path does not end in
    the manifest name [go.mod]; it fails with "empty file" (Empty) when the
    manifest is there and has no bytes. In each of these cases the result is
    the error: a Module is returned only for a file that is there, whose
    path ends in [go.mod] and that holds at least one byte, and it carries
    the absolute path of that file. *)
Theorem newModule_errors fs goModFile :
  IsAbs (cwd fs) = true ->
  (forall err, Stat fs goModFile = Err err -> IsNotExist err = true ->
     newModule fs goModFile = Err err)
  /\ (forall info, Stat fs goModFile = Ok info ->
        (newModule fs goModFile = Err (Errorf "not go.mod: %s" goModFile)
         <-> HasSuffix goModFile GoModFileName = false))
  /\ (HasSuffix goModFile GoModFileName = true ->
      ReadFile fs goModFile = Ok EmptyString ->
      newModule fs goModFile = Err (Errorf "empty file: %s" (Abs fs goModFile)))
  /\ (forall m, newModule fs goModFile = Ok m ->
        HasSuffix goModFile GoModFileName = true
        /\ GoModFile m = Abs fs goModFile
        /\ exists bytes, ReadFile fs goModFile = Ok bytes /\ bytes <> EmptyString).
Proof.
  intros Hcwd. unfold newModule. split; [|split; [|split]].
  - intros err Hs Hne. unfold statNotExist. by rewrite Hs, Hne.
  - intros info Hs. unfold statNotExist. rewrite Hs.
    destruct (HasSuffix goModFile GoModFileName); cbn [negb]; [|done].
    split; [|done].
    destruct (ReadFile fs (Abs fs goModFile)) as [bytes|err] eqn:Hr.
    + by destruct (String.length bytes =? 0)%nat.
    + unfold ReadFile in Hr.
      destruct (resolve fs (Abs fs goModFile)) as [code|[[data|]|entries]];
        congruence.
  - intros Hsuf Hr.
    by rewrite (ReadFile_exists _ _ _ Hr), Hsuf, (ReadFile_Abs fs Hcwd _ _ Hr).
  - intros m. destruct (statNotExist fs goModFile); [done|].
    destruct (HasSuffix goModFile GoModFileName) eqn:Hsuf; cbn [negb]; [|done].
    destruct (ReadFile fs (Abs fs goModFile)) as [bytes|err] eqn:Hr; [|done].
    destruct (String.length bytes =? 0)%nat eqn:Hlen; [done|].
    intros Hm. assert (Hm' : m = fold_left goModLine (Split bytes NewLine)
                                   {| RootPath := Dir (Abs fs goModFile);
                                      GoVersion := EmptyString;
                                      GoModFile := Abs fs goModFile;
                                      ModuleName := EmptyString;
                                      DirectDeps := ∅; IndirectDeps := ∅ |}) by congruence.
    split; [done|]. split.
    + rewrite Hm'. by destruct (fold_goModLine_paths (Split bytes NewLine)
        {| RootPath := Dir (Abs fs goModFile); GoVersion := EmptyString;
           GoModFile := Abs fs goModFile; ModuleName := EmptyString;
           DirectDeps := ∅; IndirectDeps := ∅ |}) as [_ ->].
    + exists bytes. split; [|by destruct bytes].
      pose proof (resolve_Abs fs Hcwd goModFile
                    (HasSuffix_nonEmpty goModFile GoModFileName eq_refl Hsuf)) as Hres.
      unfold ReadFile in *. rewrite Hres in Hr.
      destruct (resolve fs goModFile) as [code|[[data|]|entries]]; congruence.
Qed.

Lemma newModule_errors_witness :
  newModule Demo.fs "/q/none/go.mod" = Err (PathError "stat" "/q/none/go.mod" ENOENT)
  /\ newModule Demo.fs "/q/a.go" = Err (Errorf "not go.mod: %s" "/q/a.go")
  /\ newModule Demo.fs "/m/go.mod" = Err (Errorf "empty file: %s" "/m/go.mod")
  /\ newModule Demo.fsBackup "/q/backup-go.mod"
     <> Err (Errorf "not go.mod: %s" "/q/backup-go.mod").
Proof.
  pose proof (newModule_errors Demo.fs "/q/none/go.mod" eq_refl) as (Habsent & _).
  pose proof (newModule_errors Demo.fs "/q/a.go" eq_refl) as (_ & Hkind & _).
  pose proof (newModule_errors Demo.fs "/m/go.mod" eq_refl) as (_ & _ & Hempty & _).
  pose proof (newModule_errors Demo.fsBackup "/q/backup-go.mod" eq_refl) as (_ & Hends & _).
  split; [|split; [|split]].
  - apply Habsent; reflexivity.
  - apply (Hkind {| IsDir := false |}); reflexivity.
  - apply Hempty; reflexivity.
  - intros H. by apply (Hends {| IsDir := false |} eq_refl) in H.
Defined.

(** ** The type-checking passes *)

Section Passes.
Variable fs : FileSystem.
Variable goParse : string -> string -> result ParsedFile.
Variable goCheck : string -> list AstFile -> CheckResult.

Lemma appendImports_typePkg pl specs : forall σ σ' u p,
  appendImports pl specs σ = Some (u, σ') ->
  packages σ !! pl = Some p ->
  exists p', packages σ' !! pl = Some p' /\ typePkg p' = typePkg p.
Proof.
  unfold appendImports.
  induction specs as [|[v|] specs IH]; intros σ σ' u p Hrun Hp.
  - apply ret_inv in Hrun as [_ <-]. eauto.
  - cbn [forEach] in Hrun. apply bind_inv in Hrun as (u1 & σ1 & H1 & Hrun).
    apply modifyPackage_lookup in H1 as (p0 & Hp0 & Hp1).
    rewrite Hp in Hp0. injection Hp0 as <-.
    destruct (IH _ _ _ _ Hrun Hp1) as (p' & Hp' & Ht). eauto.
  - cbn [forEach] in Hrun. apply bind_inv in Hrun as (u1 & σ1 & H1 & Hrun).
    apply ret_inv in H1 as [_ <-]. eauto.
Qed.

(** Reading the files of a package records no type error. *)
Lemma readPackageFile_untyped pl acc entry σ acc' σ' :
  IllTyped acc.2 = false /\ TypeErrors acc.2 = [] ->
  readPackageFile fs pl acc entry σ = Some (acc', σ') ->
  IllTyped acc'.2 = false /\ TypeErrors acc'.2 = [].
Proof.
  intros HI Hrun. destruct acc as [astFiles li]. unfold readPackageFile in Hrun.
  destruct entry.2 as [syn|]; [|by apply ret_inv in Hrun as [<- _]].
  apply bind_inv in Hrun as (p & σ1 & _ & Hrun).
  apply bind_inv in Hrun as (pos & σ2 & _ & Hrun).
  destruct (ReadFile fs _) as [bytes|e]; [|by apply ret_inv in Hrun as [<- _]].
  destruct (String.length bytes =? 0)%nat; [by apply ret_inv in Hrun as [<- _]|].
  apply bind_inv in Hrun as (f & σ3 & _ & Hrun).
  apply bind_inv in Hrun as (o & σ4 & _ & Hrun).
  by apply ret_inv in Hrun as [<- _].
Qed.

Lemma single_pass_invariant srcFile σ σ' :
  parseSourceFileByFree fs goParse goCheck srcFile σ = Some (None, σ') ->
  exists fl f pl p li,
    srcFile = Some fl /\ files σ !! fl = Some f /\ pkg f = Some pl
    /\ packages σ' !! pl = Some p /\ loadInfo p = Some li
    /\ illTypedInvariant p li.
Proof.
  unfold parseSourceFileByFree. intros H.
  apply bind_inv in H as (filePkg & σ1 & Hpkg & H).
  apply bind_inv in H as (filePath & σ2 & Hpath & H).
  destruct srcFile as [fl|]; [|by apply ret_inv in H as [? _]].
  destruct filePkg as [pl|]; [|by apply ret_inv in H as [? _]].
  cbn in Hpkg. apply bind_inv in Hpkg as (f & σ0 & Hf & Hpkg).
  apply ret_inv in Hpkg as [Hfp <-].
  unfold getFile in Hf. destruct (files σ !! fl) as [f0|] eqn:Hfl; [|done].
  cbn in Hf. injection Hf as -> <-.
  destruct (ReadFile fs filePath) as [srcBytes|]; [|by apply ret_inv in H as [? _]].
  destruct (String.length srcBytes =? 0)%nat; [by apply ret_inv in H as [? _]|].
  apply bind_inv in H as (fileSet & σ3 & _ & H).
  apply bind_inv in H as ([syn parseErr] & σ4 & _ & H).
  destruct parseErr; [by apply ret_inv in H as [? _]|].
  destruct syn as [syn|]; [|by apply ret_inv in H as [? _]].
  apply bind_inv in H as (o & σ5 & _ & H).
  apply bind_inv in H as (pkgPath & σ6 & _ & H).
  apply bind_inv in H as (u & σ7 & _ & H).
  destruct (chk_typePkg (goCheck pkgPath [syn])) as [tp|] eqn:Htp;
    [|by apply ret_inv in H as [? _]].
  apply bind_inv in H as (u1 & σ8 & Hmod & H).
  apply bind_inv in H as (u2 & σ9 & Himp & H).
  apply bind_inv in H as (now & σ10 & Hnow & H).
  apply bind_inv in H as (u3 & σ11 & Hli & H).
  apply ret_inv in H as [_ <-].
  apply modifyPackage_lookup in Hmod as (p0 & _ & Hp8).
  destruct (appendImports_typePkg _ _ _ _ _ _ Himp Hp8) as (p9 & Hp9 & Ht9).
  unfold timeNow in Hnow. injection Hnow as <- <-.
  apply modifyPackage_lookup in Hli as (p10 & Hp10 & Hp11).
  cbn in Hp10. rewrite Hp9 in Hp10. injection Hp10 as <-.
  eexists fl, f, pl, _, _. do 4 (split; [done|]). split; [reflexivity|].
  unfold illTypedInvariant. cbn. rewrite Ht9. cbn.
  destruct (chk_typeErr (goCheck pkgPath [syn])); cbn; split; try done.
  - intros _. by left.
  - intros [?|?]; done.
Qed.

Lemma package_pass_invariant pkg astPkg σ σ' :
  parseGoPackageByFree fs goCheck pkg astPkg σ = Some (None, σ') ->
  exists pl p li,
    pkg = Some pl /\ packages σ' !! pl = Some p /\ loadInfo p = Some li
    /\ illTypedInvariant p li.
Proof.
  unfold parseGoPackageByFree. intros H.
  destruct pkg as [pl|]; [|by apply ret_inv in H as [? _]].
  destruct astPkg as [astPkg|]; [|by apply ret_inv in H as [? _]].
  destruct (size (ap_Files astPkg) =? 0)%nat; [by apply ret_inv in H as [? _]|].
  apply bind_inv in H as (now & σ1 & _ & H).
  apply bind_inv in H as (u1 & σ2 & _ & H).
  apply bind_inv in H as ([astFiles li] & σ3 & Hfold & H).
  apply bind_inv in H as (pkgPath & σ4 & _ & H).
  apply bind_inv in H as (u2 & σ5 & _ & H).
  apply bind_inv in H as (u3 & σ6 & Hmod & H).
  apply bind_inv in H as (u4 & σ7 & Himp & H).
  apply ret_inv in H as [_ <-].
  assert (HI : IllTyped li = false /\ TypeErrors li = []).
  { pose proof (foldM_invariant
                  (fun acc => IllTyped acc.2 = false /\ TypeErrors acc.2 = [])
                  (readPackageFile fs pl) (map_to_list (ap_Files astPkg))
                  (readPackageFile_untyped pl)
                  ([], emptyLoadInfo now) σ2 (astFiles, li) σ3) as HI.
    apply HI; [done|exact Hfold]. }
  destruct HI as [Hill Herr].
  apply modifyPackage_lookup in Hmod as (p0 & _ & Hp6).
  apply modifyPackage_lookup in Himp as (p6 & Hp6' & Hp7).
  rewrite Hp6 in Hp6'. injection Hp6' as <-.
  eexists pl, _, _. split; [done|]. split; [exact Hp7|]. split; [reflexivity|].
  unfold illTypedInvariant. cbn.
  destruct (chk_typeErr (goCheck pkgPath astFiles)) as [e|],
           (chk_typePkg (goCheck pkgPath astFiles)) as [tp|]; cbn.
  - rewrite Herr. split; [intros _; by left|done].
  - rewrite Herr. split; [intros _; by left|done].
  - rewrite Hill, Herr. split; [done|intros [?|?]; done].
  - split; [intros _; by right|done].
Qed.

End Passes.

(** C5. Every Load-Info record that the single-file pass or the
    per-package pass constructs, that is whenever the pass returns without
    error, has its IllTyped flag set if and only if its list of type-check
    errors is not empty or the package holds no types.Package. *)
Theorem illTyped_iff_type_errors fs goParse goCheck :
  (forall srcFile σ σ',
      parseSourceFileByFree fs goParse goCheck srcFile σ = Some (None, σ') ->
      exists fl f pl p li,
        srcFile = Some fl /\ files σ !! fl = Some f /\ pkg f = Some pl
        /\ packages σ' !! pl = Some p /\ loadInfo p = Some li
        /\ illTypedInvariant p li)
  /\ (forall pkg astPkg σ σ',
      parseGoPackageByFree fs goCheck pkg astPkg σ = Some (None, σ') ->
      exists pl p li,
        pkg = Some pl /\ packages σ' !! pl = Some p /\ loadInfo p = Some li
        /\ illTypedInvariant p li).
Proof.
  split.
  - apply single_pass_invariant.
  - apply package_pass_invariant.
Qed.

Lemma illTyped_iff_type_errors_witness :
  (exists fl f pl p li,
      Some 0%nat = Some fl /\ files Demo.storeW !! fl = Some f /\ pkg f = Some pl
      /\ packages (Demo.after (parseSourceFileByFree Demo.fs Demo.goParse Demo.goCheckIll
                                 (Some 0%nat)) Demo.storeW) !! pl = Some p
      /\ loadInfo p = Some li /\ illTypedInvariant p li)
  /\ (exists pl p li,
      Some 0%nat = Some pl
      /\ packages (Demo.after (parseGoPackageByFree Demo.fs Demo.goCheck (Some 0%nat)
                                 (Some Demo.astW)) Demo.storeW) !! pl = Some p
      /\ loadInfo p = Some li /\ illTypedInvariant p li).
Proof.
  split.
  - apply (proj1 (illTyped_iff_type_errors Demo.fs Demo.goParse Demo.goCheckIll)).
    vm_compute. reflexivity.
  - apply (proj2 (illTyped_iff_type_errors Demo.fs Demo.goParse Demo.goCheck)
             (Some 0%nat) (Some Demo.astW) Demo.storeW).
    vm_compute. reflexivity.
Defined.

(** ** The per-package pass on packages without readable files *)

Lemma positionAt_Some σ sl fset pos :
  fileSets σ !! sl = Some fset ->
  positionAt (Some sl) pos σ = Some (FileSet_Position fset pos, σ).
Proof.
  intros Hs. unfold positionAt, FileSet_Position.
  destruct (Pos_IsValid pos); [|done].
  by run (getFileSet_Some _ _ _ Hs).
Qed.

Lemma Package_PkgPath_Some σ l p :
  packages σ !! l = Some p -> Package_PkgPath (Some l) σ = Some (pkgPath p, σ).
Proof.
  intros H. unfold Package_PkgPath.
  by run (getPackage_Some _ _ _ H).
Qed.

Section Unreadable.
Variable fs : FileSystem.
Variables (pl sl : loc) (fset : FileSet).

Lemma readPackageFile_unreadable σ p astFiles li name syn :
  packages σ !! pl = Some p -> fileSet p = Some sl -> fileSets σ !! sl = Some fset ->
  unreadable fs fset syn = true ->
  exists e,
    readPackageFile fs pl (astFiles, li) (name, Some syn) σ
    = Some ((astFiles, addFileError li e), σ).
Proof.
  intros Hp Hset Hs Hun. unfold unreadable in Hun.
  unfold readPackageFile. lazy beta iota. cbn [snd].
  run (getPackage_Some _ _ _ Hp). rewrite Hset.
  run (positionAt_Some _ _ _ _ Hs).
  destruct (ReadFile fs _) as [bytes|e]; [rewrite Hun|]; eauto.
Qed.

(** The loop over files none of which can be read: no syntax tree is
    kept, no file is loaded, one file error is recorded for each tree, and
    the store is left as it is. *)
Lemma read_loop_unreadable l : forall σ p astFiles li,
  packages σ !! pl = Some p -> fileSet p = Some sl -> fileSets σ !! sl = Some fset ->
  Forall (allUnreadable fs fset) l ->
  exists li',
    foldM l (readPackageFile fs pl) (astFiles, li) σ = Some ((astFiles, li'), σ)
    /\ LoadedFiles li' = LoadedFiles li
    /\ length (FileErrors li') = (length (FileErrors li) + length (omap snd l))%nat.
Proof.
  induction l as [|[name [syn|]] l IH]; intros σ p astFiles li Hp Hset Hs Hall.
  - exists li. cbn. split; [done|]. split; [done|lia].
  - apply Forall_cons in Hall as [Hun Hall].
    specialize (Hun syn eq_refl).
    change (omap snd ((name, Some syn) :: l)) with (syn :: omap snd l).
    destruct (readPackageFile_unreadable σ p astFiles li name syn Hp Hset Hs Hun)
      as (e & Hstep).
    destruct (IH σ p astFiles (addFileError li e) Hp Hset Hs Hall)
      as (li' & Hrun & Hl & He).
    exists li'. cbn [foldM]. run Hstep.
    split; [exact Hrun|]. split; [done|].
    rewrite He. cbn. rewrite length_app. cbn. lia.
  - apply Forall_cons in Hall as [_ Hall].
    change (omap snd ((name, None) :: l)) with (omap (M:=list) snd l).
    cbn [foldM]. unfold readPackageFile at 1. lazy beta iota. cbn [snd].
    unfold bind at 1. cbn [ret]. by apply (IH σ p).
Qed.

End Unreadable.

(** C4 does not hold as stated: the two files of the package are
    there in the syntax package, one cannot be read and the other has no
    bytes; the pass records two file errors, calls the type checker on the
    empty set of syntax trees and returns no error. *)
Lemma package_pass_unreadable_counterexample :
  (exists σ' p li,
      parseGoPackageByFree Demo.fs Demo.goCheck (Some 0%nat) (Some Demo.astU) Demo.storeU
        = Some (None, σ')
      /\ checkLog σ' = [("/u", [])]
      /\ packages σ' !! 0%nat = Some p /\ loadInfo p = Some li
      /\ LoadedFiles li = []
      /\ FileErrors li = [PathError "open" "/u/a.go" EACCES;
                          Errorf "empty file: %s" "/u/z.go"])
  /\ ~ (exists e σ',
      parseGoPackageByFree Demo.fs Demo.goCheck (Some 0%nat) (Some Demo.astU) Demo.storeU
        = Some (Some e, σ')
      /\ checkLog σ' = checkLog Demo.storeU).
Proof.
  split.
  - eexists _, _, _. split; [vm_compute; reflexivity|]. repeat split.
  - intros (e & σ' & H & _). vm_compute in H. discriminate H.
Qed.

(** C4, amended. The pass fails with the "no go files" error (NoFiles),
    before the type checker is called and without a change to the store,
    when the package is nil, the syntax package is nil, or the syntax
    package holds no file at all. When it holds files and none of them can
    be read or all have no bytes, the pass records a file error for each,
    loads no file, calls the type checker once, on the empty set of syntax
    trees, and returns no error. *)
Theorem package_pass_no_files fs goCheck :
  (forall pkg astPkg σ,
      pkg = None \/ astPkg = None
      \/ (exists ap, astPkg = Some ap /\ size (ap_Files ap) = 0%nat) ->
      parseGoPackageByFree fs goCheck pkg astPkg σ
      = Some (Some (Errorf "no go files in: %v" (pointerText pkg)), σ))
  /\ (forall pl sl p fset ap σ,
      packages σ !! pl = Some p -> fileSet p = Some sl -> fileSets σ !! sl = Some fset ->
      size (ap_Files ap) <> 0%nat ->
      Forall (allUnreadable fs fset) (map_to_list (ap_Files ap)) ->
      exists σ' p' li,
        parseGoPackageByFree fs goCheck (Some pl) (Some ap) σ = Some (None, σ')
        /\ checkLog σ' = (checkLog σ ++ [(pkgPath p, [])])%list
        /\ files σ' = files σ
        /\ packages σ' !! pl = Some p' /\ loadInfo p' = Some li
        /\ LoadedFiles li = []
        /\ length (FileErrors li) = length (omap snd (map_to_list (ap_Files ap)))).
Proof.
  split.
  - intros pkg astPkg σ H. unfold parseGoPackageByFree.
    destruct pkg as [pl|]; [|done]. destruct astPkg as [ap|]; [|done].
    destruct H as [?|[?|(ap' & [= <-] & Hsize)]]; try done.
    by rewrite Hsize.
  - intros pl sl p fset ap σ Hp Hset Hs Hsize Hall. unfold parseGoPackageByFree.
    apply Nat.eqb_neq in Hsize. rewrite Hsize.
    unfold bind at 1. cbn [timeNow].
    set (σ1 := withClock σ (S (clock σ))).
    set (li0 := emptyLoadInfo (clock σ)).
    assert (Hp1 : packages σ1 !! pl = Some p) by done.
    run (modifyPackage_Some _ _ _ _ Hp1).
    set (σ2 := withPackages σ1 _).
    assert (Hp2 : packages σ2 !! pl = Some (withLoadInfo p (Some li0))).
    { subst σ2. cbn. by rewrite lookup_insert_eq. }
    destruct (read_loop_unreadable fs pl sl fset (map_to_list (ap_Files ap)) σ2
                (withLoadInfo p (Some li0)) [] li0 Hp2 Hset Hs Hall)
      as (li' & Hrun & Hl & He).
    run Hrun.
    run (Package_PkgPath_Some _ _ _ Hp2).
    unfold bind at 1. cbn [logCheck].
    set (σ3 := withCheckLog σ2 _).
    assert (Hp3 : packages σ3 !! pl = Some (withLoadInfo p (Some li0))) by done.
    run (modifyPackage_Some _ _ _ _ Hp3).
    set (σ4 := withPackages σ3 _).
    eassert (Hp4 : packages σ4 !! pl = Some _)
      by (subst σ4; cbn; apply lookup_insert_eq).
    run (modifyPackage_Some _ _ _ _ Hp4).
    eexists _, _, _. split; [reflexivity|]. cbn.
    split; [done|]. split; [done|]. rewrite lookup_insert_eq.
    split; [reflexivity|]. cbn. split; [reflexivity|].
    destruct (chk_typeErr _), (chk_typePkg _); cbn; rewrite ?Hl; split; try done;
      rewrite He; cbn; lia.
Qed.

Lemma package_pass_no_files_witness :
  parseGoPackageByFree Demo.fs Demo.goCheck (Some 0%nat)
    (Some {| ap_Name := "u"; ap_Files := ∅ |}) Demo.storeU
  = Some (Some (Errorf "no go files in: %v" "&{...}"), Demo.storeU)
  /\ exists σ' p' li,
      parseGoPackageByFree Demo.fs Demo.goCheck (Some 0%nat) (Some Demo.astU) Demo.storeU
        = Some (None, σ')
      /\ checkLog σ' = (checkLog Demo.storeU ++ [("/u", [])])%list
      /\ files σ' = files Demo.storeU
      /\ packages σ' !! 0%nat = Some p' /\ loadInfo p' = Some li
      /\ LoadedFiles li = []
      /\ length (FileErrors li) = length (omap snd (map_to_list (ap_Files Demo.astU))).
Proof.
  split.
  - apply (proj1 (package_pass_no_files Demo.fs Demo.goCheck)).
    right. right. by eexists.
  - apply (proj2 (package_pass_no_files Demo.fs Demo.goCheck) 0%nat 0%nat
             (Demo.package "u" "/u" "/u" ∅ (Some 0%nat))
             (Demo.table "/u/a.go" "/u/z.go") Demo.astU Demo.storeU);
      try reflexivity.
    + vm_compute. lia.
    + let l := eval vm_compute in (map_to_list (ap_Files Demo.astU)) in
      change (map_to_list (ap_Files Demo.astU)) with l.
      repeat (apply Forall_cons; split;
              [intros syn H; cbn in H; injection H as <-; reflexivity|]).
      constructor.
Defined.

(** ** The directory loader and files that do not parse *)

Lemma sameModel_refl σ : sameModel σ σ.
Proof. by repeat split. Qed.


Lemma insertSorted_elem x y l : x ∈ insertSorted y l <-> x = y \/ x ∈ l.
Proof.
  induction l as [|z l IH]; cbn.
  - rewrite list_elem_of_singleton. rewrite elem_of_nil. tauto.
  - destruct (String.leb y z).
    + by rewrite elem_of_cons.
    + rewrite !elem_of_cons, IH. tauto.
Qed.

Lemma sortNames_elem x l : x ∈ sortNames l <-> x ∈ l.
Proof.
  unfold sortNames. induction l as [|y l IH]; cbn; [done|].
  by rewrite insertSorted_elem, elem_of_cons, IH.
Qed.

(** The entries that [os.ReadDir] lists are the entries of the directory. *)
Lemma ReadDir_entries fs path entries :
  resolve fs path = inr (Directory entries) ->
  exists list,
    ReadDir fs path = Ok list
    /\ (forall name node, entries !! name = Some node -> (name, node) ∈ list).
Proof.
  intros H. unfold ReadDir. rewrite H. eexists. split; [reflexivity|].
  intros name node Hn. apply list_elem_of_omap. exists name. split.
  - apply sortNames_elem. apply list_elem_of_fmap. exists (name, node).
    split; [done|]. by apply elem_of_map_to_list.
  - by rewrite Hn.
Qed.

Section ParseDir.
Variable fs : FileSystem.
Variable goParse : string -> string -> result ParsedFile.
Variables (fset : loc) (path : string).





End ParseDir.



(** ** The single-file loader without a manifest *)

Lemma initProgram_no_manifest fs cwd σ e :
  nonEmpty cwd = true ->
  goModFileOf fs (Abs fs cwd) = Some (Err e) ->
  initProgram fs cwd σ = Some ((None, Some e), σ).
Proof. intros Hne H. unfold initProgram. by rewrite Hne, H. Qed.

Lemma findPackageLine_nonempty src name :
  findPackageLine (Split src NewLine) = Ok name -> (String.length src =? 0)%nat = false.
Proof. by destruct src. Qed.

Lemma readGoPackageIn_Ok fs goFile info src name :
  Stat fs goFile = Ok info -> ReadFile fs goFile = Ok src ->
  findPackageLine (Split src NewLine) = Ok name ->
  readGoPackageIn fs goFile = Ok name.
Proof.
  intros Hs Hr Hl. unfold readGoPackageIn, statNotExist. by rewrite Hs, Hr.
Qed.

Lemma appendImports_spec pl specs : forall σ p,
  packages σ !! pl = Some p ->
  exists found,
    appendImports pl specs σ
    = Some (tt, withPackages σ (<[pl := withImports p (imports p ++ found)]> (packages σ))).
Proof.
  induction specs as [|[v|] specs IH]; intros σ p Hp.
  - exists []. unfold appendImports. cbn. unfold ret. do 2 f_equal.
    destruct σ; cbn in *. unfold withPackages; cbn. f_equal. rewrite app_nil_r.
    symmetry. apply insert_id. rewrite Hp. by destruct p.
  - unfold appendImports. cbn [forEach].
    run (modifyPackage_Some _ _ _ _ Hp).
    set (σ1 := withPackages σ _).
    eassert (Hp1 : packages σ1 !! pl = Some _) by (subst σ1; cbn; apply lookup_insert_eq).
    destruct (IH σ1 _ Hp1) as (found & Hrun).
    unfold appendImports in Hrun. rewrite Hrun.
    exists (Trim v quote :: found). do 2 f_equal. subst σ1. cbn.
    unfold withPackages. cbn. f_equal. rewrite insert_insert_eq.
    f_equal. unfold withImports. cbn. f_equal. by rewrite <- app_assoc.
  - unfold appendImports. cbn [forEach]. unfold bind at 1. cbn [ret].
    apply (IH σ p Hp).
Qed.

Lemma SrcFile_Package_Some σ l f :
  files σ !! l = Some f -> SrcFile_Package (Some l) σ = Some (pkg f, σ).
Proof.
  intros H. unfold SrcFile_Package.
  by run (getFile_Some _ _ _ H).
Qed.

Lemma SrcFile_Path_Some σ l f :
  files σ !! l = Some f -> SrcFile_Path (Some l) σ = Some (path f, σ).
Proof.
  intros H. unfold SrcFile_Path.
  by run (getFile_Some _ _ _ H).
Qed.

Lemma SrcFile_update_nil σ l f code syn :
  files σ !! l = Some f ->
  SrcFile_update (Some l) code syn [] σ
  = Some (None, withFiles σ (<[l := withContent f code syn]> (files σ))).
Proof.
  intros H. unfold SrcFile_update.
  by run (getFile_Some _ _ _ H).
Qed.

Lemma ParseFile_Ok fs goParse fset filename σ s src parsed :
  fileSets σ !! fset = Some s -> ReadFile fs filename = Ok src ->
  goParse filename src = Ok parsed ->
  ParseFile fs goParse fset filename σ
  = Some ((Some {| ast_Name := pf_name parsed;
                   ast_Package := fset_base s + pf_package parsed;
                   ast_Imports := pf_imports parsed |}, None),
          withFileSets σ (<[fset := AddFile s filename (stringLen src)]> (fileSets σ))).
Proof.
  intros Hs Hr Hp. unfold ParseFile. rewrite Hr.
  run (getFileSet_Some _ _ _ Hs).
  unfold bind at 1. cbn [setFileSet]. by rewrite Hp.
Qed.

Section SinglePass.
Variable fs : FileSystem.
Variable goParse : string -> string -> result ParsedFile.
Variable goCheck : string -> list AstFile -> CheckResult.

(** The single-file pass succeeds on a readable, parsable file with
    bytes, once the type checker returns a package object. *)
Lemma single_pass_succeeds σ fl f pl p src parsed :
  files σ !! fl = Some f -> pkg f = Some pl -> packages σ !! pl = Some p ->
  ReadFile fs (path f) = Ok src -> (String.length src =? 0)%nat = false ->
  goParse (path f) src = Ok parsed ->
  (forall asts, is_Some (chk_typePkg (goCheck (pkgPath p) asts))) ->
  exists σ' f' p' li ast,
    parseSourceFileByFree fs goParse goCheck (Some fl) σ = Some (None, σ')
    /\ programs σ' = programs σ
    /\ files σ' !! fl = Some f' /\ path f' = path f /\ pkg f' = pkg f
    /\ code f' = src /\ syntax f' = Some ast /\ ast_Name ast = pf_name parsed
    /\ packages σ' !! pl = Some p' /\ sameIdentity p p'
    /\ loadInfo p' = Some li /\ LoadedFiles li = [path f].
Proof.
  intros Hf Hpkg Hp Hread Hlen Hparse Hchk. unfold parseSourceFileByFree.
  run (SrcFile_Package_Some _ _ _ Hf).
  run (SrcFile_Path_Some _ _ _ Hf).
  rewrite Hpkg, Hread, Hlen.
  unfold bind at 1. cbn [allocFileSet].
  set (sl := fresh (dom (fileSets σ))). set (σ1 := withFileSets σ _).
  assert (Hs1 : fileSets σ1 !! sl = Some NewFileSet)
    by (subst σ1; cbn; apply lookup_insert_eq).
  run (ParseFile_Ok fs goParse sl (path f) σ1 _ src parsed Hs1 Hread Hparse).
  set (σ2 := withFileSets σ1 _).
  set (ast := {| ast_Name := pf_name parsed |}).
  assert (Hf2 : files σ2 !! fl = Some f) by done.
  run (SrcFile_update_nil _ _ _ src (Some ast) Hf2).
  set (σ3 := withFiles σ2 _).
  assert (Hp3 : packages σ3 !! pl = Some p) by done.
  run (Package_PkgPath_Some _ _ _ Hp3).
  unfold bind at 1. cbn [logCheck].
  destruct (Hchk [ast]) as [tp Htp]. rewrite Htp.
  set (σ4 := withCheckLog σ3 _).
  assert (Hp4 : packages σ4 !! pl = Some p) by done.
  run (modifyPackage_Some _ _ _ _ Hp4).
  set (σ5 := withPackages σ4 _).
  eassert (Hp5 : packages σ5 !! pl = Some _) by (subst σ5; cbn; apply lookup_insert_eq).
  destruct (appendImports_spec pl (ast_Imports ast) σ5 _ Hp5) as (found & Himp).
  run Himp.
  unfold bind at 1. cbn [timeNow].
  set (σ6 := withClock _ _).
  eassert (Hp6 : packages σ6 !! pl = Some _) by (subst σ6; cbn; apply lookup_insert_eq).
  run (modifyPackage_Some _ _ _ _ Hp6).
  eexists _, _, _, _, ast. split; [reflexivity|]. cbn.
  split; [done|]. rewrite !lookup_insert_eq.
  split; [reflexivity|]. cbn.
  repeat split; try reflexivity; done.
Qed.

End SinglePass.

(** A file registered for the first time in a package. *)
Lemma Package_newSrcFile_fresh σ pl p srcPath :
  packages σ !! pl = Some p -> srcFiles p !! srcPath = None ->
  exists fl σ' f p',
    Package_newSrcFile (Some pl) srcPath σ = Some (Some fl, σ')
    /\ programs σ' = programs σ
    /\ files σ' !! fl = Some f /\ path f = srcPath /\ pkg f = Some pl
    /\ packages σ' !! pl = Some p' /\ sameIdentity p p'.
Proof.
  intros Hp Hs. unfold Package_newSrcFile.
  run (getPackage_Some _ _ _ Hp). rewrite Hs.
  unfold newSrcFile, allocFile, modifyPackage, setPackage, getPackage, bind, ret. cbn.
  rewrite Hp. cbn. rewrite lookup_insert_eq. cbn. rewrite lookup_insert_eq.
  eexists _, _, _, _. split; [reflexivity|]. cbn.
  rewrite !lookup_insert_eq. by repeat split.
Qed.

Lemma findPackageLine_Err lines err :
  findPackageLine lines = Err err -> err = Errorf "no package name is found" EmptyString.
Proof.
  induction lines as [|line lines IH]; cbn [findPackageLine].
  - congruence.
  - by destruct (HasPrefix (TrimSpace line) PackagePrefix).
Qed.

(** The scan takes the name from the first line that begins with the
    keyword once the white space of Unicode is trimmed, also inside a
    comment: here behind a no-break space. *)
Example findPackageLine_in_comment :
  findPackageLine
    (Split ("/*" +:+ NewLine +:+ chr 194 +:+ chr 160 +:+ "package fake" +:+ NewLine
            +:+ "*/" +:+ NewLine +:+ "package real" +:+ NewLine) NewLine)
  = Ok "fake".
Proof. reflexivity. Qed.

(** C3. The file [/w/c.go] is there, can be read, ends in [.go] and lies
    under no manifest; the parser accepts it and finds the package clause
    [package main] behind the comment that begins its one line. The loader
    is due to fall back to a standalone Package of that name and to return
    the SrcFile. It does not ask the parser for the name: [readGoPackageIn]
    looks for a line that begins with the keyword, finds none, and the
    loader fails with "no package name is found"; the store is as before. *)
Theorem single_file_loader_misses_package_clause :
  Stat Demo.fs "/w/c.go" = Ok {| IsDir := false |}
  /\ HasSuffix "/w/c.go" GoFileSuffix = true
  /\ ReadFile Demo.fs "/w/c.go" = Ok Demo.commentedSource
  /\ Demo.goParse "/w/c.go" Demo.commentedSource
     = Ok {| pf_name := "main"; pf_package := 11; pf_imports := [] |}
  /\ goModFileOf Demo.fs "/w"
     = Some (Err (Errorf "couldn't find `go.mod` file from: %s" "/w"))
  /\ readGoPackageIn Demo.fs "/w/c.go"
     = Err (Errorf "no package name is found" EmptyString)
  /\ loadSourceFileByFree Demo.fs Demo.goParse Demo.goCheck "/w/c.go" emptyStore
     = Some (Err (Errorf "no package name is found" EmptyString), emptyStore).
Proof. repeat split; vm_compute; reflexivity. Qed.

(** Whatever the parser makes of it, an existing file with the suffix
    [.go] under no manifest whose text has no line that, trimmed, begins
    with the keyword [package] and a blank is refused by the single-file
    loader with "no package name is found", before anything is created. *)
Theorem single_file_loader_needs_package_line
    fs goParse goCheck codeFile σ info src e err :
  let codePath := Abs fs codeFile in
  Stat fs codePath = Ok info -> IsDir info = false ->
  HasSuffix codePath GoFileSuffix = true ->
  goModFileOf fs (Abs fs (Dir codePath)) = Some (Err e) ->
  ReadFile fs codePath = Ok src ->
  findPackageLine (Split src NewLine) = Err err ->
  loadSourceFileByFree fs goParse goCheck codeFile σ
  = Some (Err (Errorf "no package name is found" EmptyString), σ).
Proof.
  intros codePath Hstat Hfile Hsuf Hmod Hread Hline.
  unfold loadSourceFileByFree. fold codePath. rewrite Hstat, Hfile, Hsuf. cbn [negb].
  run (initProgram_no_manifest fs (Dir codePath) σ e (Dir_nonEmpty _) Hmod).
  unfold bind at 1. cbn [ret].
  unfold readGoPackageIn, statNotExist. rewrite Hstat, Hread, Hline.
  by rewrite (findPackageLine_Err _ _ Hline).
Qed.

Lemma single_file_loader_needs_package_line_witness :
  loadSourceFileByFree Demo.fs Demo.goParse Demo.goCheck "/w/c.go" emptyStore
  = Some (Err (Errorf "no package name is found" EmptyString), emptyStore).
Proof.
  apply (single_file_loader_needs_package_line Demo.fs Demo.goParse Demo.goCheck "/w/c.go"
           emptyStore {| IsDir := false |} Demo.commentedSource
           (Errorf "couldn't find `go.mod` file from: %s" "/w")
           (Errorf "no package name is found" EmptyString));
    vm_compute; reflexivity.
Defined.

(** X30: for an existing, readable, parsable file with the suffix [.go]
    under no manifest, the single-file loader succeeds when the text of the
    file has a line that, trimmed, begins with the keyword [package] and a
    blank, and the type checker returns a package object: it creates a
    Package without Program, rooted at the directory of the file and named by
    the text that follows the keyword on the first such line, runs the
    single-file pass and returns the SrcFile of the file. *)
Theorem single_file_loader_without_manifest
    fs goParse goCheck codeFile σ info src parsed name e :
  let codePath := Abs fs codeFile in
  Stat fs codePath = Ok info -> IsDir info = false ->
  HasSuffix codePath GoFileSuffix = true ->
  goModFileOf fs (Abs fs (Dir codePath)) = Some (Err e) ->
  ReadFile fs codePath = Ok src ->
  goParse codePath src = Ok parsed ->
  findPackageLine (Split src NewLine) = Ok name ->
  (forall asts, is_Some (chk_typePkg (goCheck (Dir codePath) asts))) ->
  exists fl σ' f pl p li ast,
    loadSourceFileByFree fs goParse goCheck codeFile σ = Some (Ok fl, σ')
    /\ programs σ' = programs σ
    /\ files σ' !! fl = Some f /\ path f = codePath /\ pkg f = Some pl
    /\ code f = src /\ syntax f = Some ast /\ ast_Name ast = pf_name parsed
    /\ packages σ' !! pl = Some p
    /\ program p = None /\ pkgName p = name
    /\ pkgPath p = Dir codePath /\ dirPath p = Dir codePath
    /\ loadInfo p = Some li /\ LoadedFiles li = [codePath].
Proof.
  intros codePath Hstat Hfile Hsuf Hmod Hread Hparse Hline Hchk.
  unfold loadSourceFileByFree. fold codePath. rewrite Hstat, Hfile, Hsuf. cbn [negb].
  run (initProgram_no_manifest fs (Dir codePath) σ e (Dir_nonEmpty _) Hmod).
  unfold bind at 1. cbn [ret].
  rewrite (readGoPackageIn_Ok fs codePath info src name Hstat Hread Hline).
  unfold bind at 1. unfold newPackage. cbn [allocPackage].
  set (pl := fresh (dom (packages σ))). set (σ1 := withPackages σ _).
  eassert (Hp1 : packages σ1 !! pl = Some _) by (subst σ1; cbn; apply lookup_insert_eq).
  destruct (Package_newSrcFile_fresh σ1 pl _ codePath Hp1 (lookup_empty _))
    as (fl & σ2 & f & p2 & Hnew & Hprog2 & Hf2 & Hpath2 & Hpkg2 & Hp2 & Hid2).
  run Hnew.
  destruct Hid2 as (Hprogram2 & Hname2 & Hpkgpath2 & Hdir2). cbn in *.
  destruct (single_pass_succeeds fs goParse goCheck σ2 fl f pl p2 src parsed
              Hf2 Hpkg2 Hp2) as (σ3 & f3 & p3 & li & ast & Hrun & Hprog3 & Hf3 & Hpath3
                                   & Hpkg3 & Hcode3 & Hsyn3 & Hast3 & Hp3 & Hid3 & Hli3 & Hloaded3).
  { by rewrite Hpath2. }
  { by eapply findPackageLine_nonempty. }
  { by rewrite Hpath2. }
  { by rewrite Hpkgpath2. }
  run Hrun.
  destruct Hid3 as (Hprogram3 & Hname3 & Hpkgpath3 & Hdir3).
  exists fl, σ3, f3, pl, p3, li, ast. split; [reflexivity|].
  repeat split; try congruence.
Qed.

Lemma single_file_loader_without_manifest_witness :
  exists fl σ' f pl p li ast,
    loadSourceFileByFree Demo.fs Demo.goParse Demo.goCheck "/w/a.go" emptyStore
      = Some (Ok fl, σ')
    /\ programs σ' = programs emptyStore
    /\ files σ' !! fl = Some f /\ path f = Abs Demo.fs "/w/a.go" /\ pkg f = Some pl
    /\ code f = Demo.goodSource /\ syntax f = Some ast
    /\ ast_Name ast = pf_name {| pf_name := "r"; pf_package := 0; pf_imports := [] |}
    /\ packages σ' !! pl = Some p
    /\ program p = None /\ pkgName p = "r"
    /\ pkgPath p = Dir (Abs Demo.fs "/w/a.go") /\ dirPath p = Dir (Abs Demo.fs "/w/a.go")
    /\ loadInfo p = Some li /\ LoadedFiles li = [Abs Demo.fs "/w/a.go"].
Proof.
  apply (single_file_loader_without_manifest Demo.fs Demo.goParse Demo.goCheck "/w/a.go"
           emptyStore {| IsDir := false |} Demo.goodSource
           {| pf_name := "r"; pf_package := 0; pf_imports := [] |} "r"
           (Errorf "couldn't find `go.mod` file from: %s" "/w"));
    try (vm_compute; reflexivity).
  intros asts. cbn. eauto.
Defined.

(** ** The module lookup of the directory loader *)

(** Path inference works once a Module is at hand: with root [/s] and
    name [example.com/app], the directory [/s/sub/pkg] has the import path
    [example.com/app/sub/pkg] and the short name [pkg]. *)
Example inferGoPkgInfo_directory :
  inferGoPkgInfo Demo.fs
    (Some {| RootPath := "/s"; GoVersion := "1.21"; GoModFile := "/s/go.mod";
             ModuleName := "example.com/app"; DirectDeps := ∅; IndirectDeps := ∅ |})
    "/s/sub/pkg"
  = Ok ("example.com/app/sub/pkg", "pkg", "/s/sub/pkg").
Proof. vm_compute. reflexivity. Qed.

(** C1. The directory [/q] holds the manifest of module
    [example.com/app] and one well-formed Go file, so one Package is due.
    The lookup [goModFileOf] sees the manifest and returns the directory [/q]
    in its place; [newModule], given a directory, answers "not go.mod"; so
    [initProgram] yields no Program and the directory loader returns the
    error "can't find go.mod" and no Package. *)
Theorem directory_loader_misses_manifest :
  (exists m, newModule Demo.fs "/q/go.mod" = Ok m /\ ModuleName m = "example.com/app")
  /\ parseError Demo.fs Demo.goParse "/q/a.go" = None
  /\ goModFileOf Demo.fs "/q" = Some (Ok "/q")
  /\ newModule Demo.fs "/q" = Err (Errorf "not go.mod: %s" "/q")
  /\ initProgram Demo.fs "/q" emptyStore
     = Some ((None, Some (Errorf "not go.mod: %s" "/q")), emptyStore)
  /\ exists σ',
       loadGoDirectoryByFree Demo.fs Demo.goParse Demo.goCheck "/q" emptyStore
       = Some (Err (Errorf "can't find go.mod in: %s" "/q"), σ')
       /\ packages σ' = ∅.
Proof.
  split; [eexists; split; vm_compute; reflexivity|].
  do 4 (split; [vm_compute; reflexivity|]).
  eexists. split; [vm_compute; reflexivity|reflexivity].
Qed.

(** The defect does not depend on the directory: whatever it holds, the
    non-recursive directory loader returns no Package, every outcome is an
    error. *)
Theorem directory_loader_never_succeeds fs goParse goCheck goDir σ r σ' :
  IsAbs (cwd fs) = true ->
  loadGoDirectoryByFree fs goParse goCheck goDir σ = Some (r, σ') ->
  exists e, r = Err e.
Proof.
  intros Hcwd. unfold loadGoDirectoryByFree.
  destruct (Stat fs (Abs fs goDir)) as [info|err] eqn:Hstat.
  2:{ destruct (IsNotExist err); [|done]. intros H. apply ret_inv in H as [<- _]. eauto. }
  destruct (IsDir info) eqn:Hisdir; cbn [negb].
  2:{ intros H. apply ret_inv in H as [<- _]. eauto. }
  intros H. apply bind_inv in H as (fileSet & σ1 & _ & H).
  apply bind_inv in H as ([pkgs parseErr] & σ2 & _ & H).
  destruct parseErr; [apply ret_inv in H as [<- _]; eauto|].
  destruct (size (default ∅ pkgs) =? 0)%nat; [apply ret_inv in H as [<- _]; eauto|].
  assert (Hdir : exists entries, resolve fs (Abs fs goDir) = inr (Directory entries)).
  { unfold Stat in Hstat. destruct (resolve fs (Abs fs goDir)) as [code|[data|entries]];
      [done| |eauto]. injection Hstat as <-. done. }
  destruct Hdir as [entries Hdir].
  assert (Hne : nonEmpty (Abs fs goDir) = true).
  { destruct (Abs_canonical fs Hcwd goDir) as (elems & _ & ->). apply render_nonEmpty. }
  destruct (initProgram_never_succeeds fs Hcwd (Abs fs goDir) σ2 entries Hne Hdir) as [e Hinit].
  run Hinit in H.
  unfold bind at 1 in H. cbn [ret] in H. apply ret_inv in H as [<- _]. eauto.
Qed.

(** ** The two manifest lookups on canonical paths *)

Lemma render_inj a b : good a -> good b -> render a = render b -> a = b.
Proof. intros Ha Hb H. by rewrite <- (elements_render a Ha), H, elements_render. Qed.

Lemma good_snoc elems e : good elems -> goodElem e = true -> good (elems ++ [e]).
Proof. intros H He. apply Forall_app. split; [done|]. by constructor. Qed.

Lemma render_snoc elems e :
  elems <> [] -> render (elems ++ [e]) = render elems +:+ String slash e.
Proof. intros Hne. unfold render. rewrite Join_snoc by done. by rewrite append_assoc. Qed.

Lemma Join2_render elems e :
  good elems -> elems <> [] -> goodElem e = true ->
  Join2 (render elems) e = render (elems ++ [e]).
Proof.
  intros Hgood Hne He. unfold Join2. rewrite render_nonEmpty.
  replace (render elems +:+ Separator +:+ e) with (render (elems ++ [e])).
  - apply Clean_render. by apply good_snoc.
  - by rewrite render_snoc.
Qed.

Lemma render_snoc_neq elems e :
  good elems -> goodElem e = true -> String.eqb (render elems) (render (elems ++ [e])) = false.
Proof.
  intros Hgood He. apply String.eqb_neq. intros H.
  apply render_inj in H; [|done|by apply good_snoc].
  apply (f_equal length) in H. rewrite length_app in H. cbn in H. lia.
Qed.

Section Lookup.
Variable fs : FileSystem.

(** Both loops climb from a canonical path to the nearest directory, short
    of the root, in which a manifest is seen, and end within their fuel. *)
Lemma lookup_loops from elems : forall fuel,
  good elems -> (length elems <= fuel)%nat ->
  (exists up rest,
      elems = (up ++ rest)%list /\ up <> [] /\ manifestSeen fs up /\ nearestFrom fs up rest
      /\ goModFileLoop fs from fuel (render elems) = Some (Ok (render up))
      /\ findGoModFileLoop fs fuel (render elems) = Some (render (up ++ [GoModFileName])))
  \/ (noManifestFrom fs elems
      /\ goModFileLoop fs from fuel (render elems)
         = Some (Err (Errorf "couldn't find `go.mod` file from: %s" from))
      /\ findGoModFileLoop fs fuel (render elems) = Some NoneString).
Proof.
  induction elems as [|e elems IH] using rev_ind; intros fuel Hgood Hfuel.
  - right. split; [|by destruct fuel].
    intros up rest Heq Hne. symmetry in Heq. apply app_eq_nil in Heq as [-> _]. done.
  - apply Forall_app in Hgood as [Hgood He]. apply Forall_cons in He as [He _].
    rewrite length_app in Hfuel. cbn in Hfuel.
    destruct fuel as [|fuel]; [lia|].
    assert (Hcond : nonEmpty (render (elems ++ [e]))
                    && negb (String.eqb (render (elems ++ [e])) "/")
                    && negb (String.eqb (render (elems ++ [e])) ".")
                    && negb (String.eqb (render (elems ++ [e])) "..") = true).
    { rewrite render_nonEmpty, render_snoc_not_root by done. done. }
    assert (Hgood' : good (elems ++ [e])) by by apply good_snoc.
    cbn [goModFileLoop findGoModFileLoop]. rewrite Hcond.
    rewrite Join2_render by (done || by destruct elems).
    destruct (statNotExist fs (render ((elems ++ [e]) ++ [GoModFileName]))) as [err|] eqn:Hstat.
    + rewrite Dir_render by done.
      rewrite render_snoc_neq by done.
      destruct (IH fuel Hgood ltac:(lia))
        as [(up & rest & -> & Hne & Hseen & Hnear & Hrun & Hfind)|(Hnone & Hrun & Hfind)].
      * left. exists up, (rest ++ [e])%list.
        split; [by rewrite app_assoc|]. split; [done|]. split; [done|].
        split; [|done].
        intros mid rest' Heq Hmid.
        destruct rest' as [|x rest' _] using rev_ind.
        -- rewrite app_nil_r in Heq. subst mid. unfold manifestSeen.
           rewrite app_assoc, Hstat. done.
        -- rewrite app_assoc in Heq. apply app_inj_tail in Heq as [-> ->].
           by apply (Hnear mid rest').
      * right. split; [|done].
        intros up rest Heq Hne.
        destruct rest as [|x rest _] using rev_ind.
        -- rewrite app_nil_r in Heq. subst up. unfold manifestSeen. by rewrite Hstat.
        -- rewrite app_assoc in Heq. apply app_inj_tail in Heq as [-> ->].
           by apply (Hnone up rest).
    + left. exists (elems ++ [e])%list, []. rewrite app_nil_r.
      split; [done|]. split; [by destruct elems|]. split; [done|]. split; [|done].
      intros mid rest' Heq Hmid. symmetry in Heq. apply app_eq_nil in Heq as [-> _]. done.
Qed.

(** The nearest directory that shows a manifest is unique. *)
Lemma nearest_unique up rest up' rest' :
  (up ++ rest = up' ++ rest')%list ->
  manifestSeen fs up -> nearestFrom fs up rest ->
  manifestSeen fs up' -> nearestFrom fs up' rest' -> up = up'.
Proof.
  intros Heq Hseen Hnear Hseen' Hnear'.
  apply app_eq_inv in Heq as [(mid & -> & ->)|(mid & -> & ->)].
  - destruct mid as [|x mid]; [by rewrite app_nil_r|].
    exfalso. by apply (Hnear' (x :: mid) rest eq_refl).
  - destruct mid as [|x mid]; [by rewrite app_nil_r|].
    exfalso. by apply (Hnear (x :: mid) rest' eq_refl).
Qed.

Lemma lookup_found from up rest fuel :
  good (up ++ rest) -> (length (up ++ rest) <= fuel)%nat ->
  up <> [] -> manifestSeen fs up -> nearestFrom fs up rest ->
  goModFileLoop fs from fuel (render (up ++ rest)) = Some (Ok (render up))
  /\ findGoModFileLoop fs fuel (render (up ++ rest)) = Some (render (up ++ [GoModFileName])).
Proof.
  intros Hgood Hfuel Hne Hseen Hnear.
  destruct (lookup_loops from (up ++ rest) fuel Hgood Hfuel)
    as [(up' & rest' & Heq & Hne' & Hseen' & Hnear' & Hrun & Hfind)|(Hnone & _)].
  - pose proof (nearest_unique _ _ _ _ Heq Hseen Hnear Hseen' Hnear') as <-. done.
  - exfalso. by apply (Hnone up rest eq_refl).
Qed.

Lemma lookup_missed from elems fuel :
  good elems -> (length elems <= fuel)%nat -> noManifestFrom fs elems ->
  goModFileLoop fs from fuel (render elems)
  = Some (Err (Errorf "couldn't find `go.mod` file from: %s" from))
  /\ findGoModFileLoop fs fuel (render elems) = Some NoneString.
Proof.
  intros Hgood Hfuel Hnone.
  destruct (lookup_loops from elems fuel Hgood Hfuel)
    as [(up & rest & Heq & Hne & Hseen & _)|(_ & ?)]; [|done].
  exfalso. by apply (Hnone up rest Heq).
Qed.

End Lookup.

Lemma drop_append a b : drop (String.length a) (a +:+ b) = b.
Proof. induction a as [|c a IH]; [done|]. exact IH. Qed.

Lemma HasSuffix_append a b : HasSuffix (a +:+ b) b = true.
Proof.
  unfold HasSuffix. rewrite append_length.
  replace (String.length a + String.length b - String.length b)%nat
    with (String.length a) by lia.
  rewrite drop_append, String.eqb_refl, andb_true_r. apply Nat.leb_le. lia.
Qed.

(** X1: from an existing directory, [findGoModFileOf] stops at the nearest
    directory on the way up, short of the root, whose [go.mod] is not
    reported missing, and returns the path of that [go.mod]; it returns the
    empty string when there is none, and for a path that does not exist. *)
Theorem findGoModFileOf_nearest fs dirPath :
  IsAbs (cwd fs) = true ->
  (is_Some (statNotExist fs dirPath) -> findGoModFileOf fs dirPath = Some NoneString)
  /\ (statNotExist fs dirPath = None ->
      exists elems,
        good elems /\ Abs fs dirPath = render elems
        /\ ((exists up rest,
                elems = (up ++ rest)%list /\ up <> []
                /\ manifestSeen fs up /\ nearestFrom fs up rest
                /\ findGoModFileOf fs dirPath = Some (render (up ++ [GoModFileName])))
            \/ (noManifestFrom fs elems /\ findGoModFileOf fs dirPath = Some NoneString))).
Proof.
  intros Hcwd. unfold findGoModFileOf. split.
  - by intros [e ->].
  - intros ->. destruct (Abs_canonical fs Hcwd dirPath) as (elems & Hgood & Habs).
    exists elems. split; [done|]. split; [done|]. rewrite Habs.
    destruct (lookup_loops fs dirPath elems (String.length (render elems)) Hgood
                (render_length elems Hgood))
      as [(up & rest & Heq & Hne & Hseen & Hnear & _ & Hfind)|(Hnone & _ & Hfind)].
    + left. by exists up, rest.
    + by right.
Qed.

Lemma findGoModFileOf_nearest_witness :
  (is_Some (statNotExist Demo.fs "/s/sub/pkg") ->
   findGoModFileOf Demo.fs "/s/sub/pkg" = Some NoneString)
  /\ (statNotExist Demo.fs "/s/sub/pkg" = None ->
      exists elems,
        good elems /\ Abs Demo.fs "/s/sub/pkg" = render elems
        /\ ((exists up rest,
                elems = (up ++ rest)%list /\ up <> []
                /\ manifestSeen Demo.fs up /\ nearestFrom Demo.fs up rest
                /\ findGoModFileOf Demo.fs "/s/sub/pkg"
                   = Some (render (up ++ [GoModFileName])))
            \/ (noManifestFrom Demo.fs elems
                /\ findGoModFileOf Demo.fs "/s/sub/pkg" = Some NoneString))).
Proof. apply (findGoModFileOf_nearest Demo.fs "/s/sub/pkg"). reflexivity. Defined.

(** X2: from an existing path the two lookups agree: where [goModFileOf]
    returns a directory, [findGoModFileOf] returns the [go.mod] of that
    directory, and where [goModFileOf] fails, [findGoModFileOf] returns the
    empty string. Neither runs out of turns. *)
Theorem manifest_lookups_agree fs dirPath :
  IsAbs (cwd fs) = true ->
  statNotExist fs dirPath = None ->
  (exists d,
      goModFileOf fs dirPath = Some (Ok d)
      /\ findGoModFileOf fs dirPath = Some (Join2 d GoModFileName))
  \/ (exists e,
      goModFileOf fs dirPath = Some (Err e)
      /\ findGoModFileOf fs dirPath = Some NoneString).
Proof.
  intros Hcwd Hstat. unfold findGoModFileOf, goModFileOf. rewrite Hstat.
  destruct (Abs_canonical fs Hcwd dirPath) as (elems & Hgood & ->).
  destruct (lookup_loops fs dirPath elems (String.length (render elems)) Hgood
              (render_length elems Hgood))
    as [(up & rest & -> & Hne & _ & _ & -> & ->)|(_ & -> & ->)].
  - left. exists (render up). split; [done|].
    apply Forall_app in Hgood as [Hup _]. by rewrite Join2_render.
  - right. eauto.
Qed.

Lemma manifest_lookups_agree_witness :
  (exists d,
      goModFileOf Demo.fs "/s/sub/pkg" = Some (Ok d)
      /\ findGoModFileOf Demo.fs "/s/sub/pkg" = Some (Join2 d GoModFileName))
  \/ (exists e,
      goModFileOf Demo.fs "/s/sub/pkg" = Some (Err e)
      /\ findGoModFileOf Demo.fs "/s/sub/pkg" = Some NoneString).
Proof. apply (manifest_lookups_agree Demo.fs "/s/sub/pkg"); reflexivity. Defined.

(** X3: a manifest that lies in the root directory is never found: no
    lookup returns [/go.mod], and [goModFileOf] never returns [/]. *)
Theorem root_manifest_never_found fs dirPath :
  IsAbs (cwd fs) = true ->
  findGoModFileOf fs dirPath <> Some "/go.mod"
  /\ goModFileOf fs dirPath <> Some (Ok "/").
Proof.
  intros Hcwd. unfold findGoModFileOf, goModFileOf.
  destruct (Abs_canonical fs Hcwd dirPath) as (elems & Hgood & ->).
  destruct (lookup_loops fs dirPath elems (String.length (render elems)) Hgood
              (render_length elems Hgood))
    as [(up & rest & -> & Hne & _ & _ & -> & ->)|(_ & -> & ->)].
  - apply Forall_app in Hgood as [Hup _]. split.
    + destruct (statNotExist fs dirPath); [done|]. intros H.
      change "/go.mod" with (render ["go.mod"]) in H. apply (inj Some) in H.
      apply render_inj in H; [|by apply good_snoc|by repeat constructor].
      by destruct up as [|x [|y up]].
    + intros H. change "/" with (render []) in H.
      assert (H' : render up = render []) by congruence.
      apply render_inj in H'; [done..|constructor].
  - split; [|done]. by destruct (statNotExist fs dirPath).
Qed.

Lemma root_manifest_never_found_witness :
  findGoModFileOf Tour.flat "/d" <> Some "/go.mod"
  /\ goModFileOf Tour.flat "/d" <> Some (Ok "/").
Proof. apply (root_manifest_never_found Tour.flat "/d"). reflexivity. Defined.

(** X4: the path that [findGoModFileOf] returns is one that [newModule]
    accepts: when it names a readable file that is not empty, [newModule]
    yields a Module with that manifest path, whose root is the directory
    that [goModFileOf] returns. *)
Theorem newModule_of_found_manifest fs dirPath goModFile bytes :
  IsAbs (cwd fs) = true ->
  findGoModFileOf fs dirPath = Some goModFile -> goModFile <> NoneString ->
  ReadFile fs goModFile = Ok bytes -> bytes <> EmptyString ->
  exists m,
    newModule fs goModFile = Ok m
    /\ GoModFile m = goModFile /\ RootPath m = Dir goModFile
    /\ goModFileOf fs dirPath = Some (Ok (RootPath m)).
Proof.
  intros Hcwd Hfind Hne Hread Hbytes. unfold findGoModFileOf, goModFileOf in *.
  destruct (statNotExist fs dirPath); [by injection Hfind as <-|].
  destruct (Abs_canonical fs Hcwd dirPath) as (elems & Hgood & Habs). rewrite Habs in *.
  destruct (lookup_loops fs dirPath elems (String.length (render elems)) Hgood
              (render_length elems Hgood))
    as [(up & rest & -> & Hup & _ & _ & Hrun & Hfind')|(_ & _ & Hfind')];
    rewrite Hfind' in Hfind; injection Hfind as <-; [|done].
  apply Forall_app in Hgood as [Hgood _].
  assert (Hgood' : good (up ++ [GoModFileName])) by by apply good_snoc.
  unfold newModule. rewrite (ReadFile_exists _ _ _ Hread).
  rewrite render_snoc by done.
  change (String slash GoModFileName) with ("/" +:+ GoModFileName).
  rewrite <- append_assoc, HasSuffix_append. cbn [negb].
  rewrite append_assoc. change ("/" +:+ GoModFileName) with (String slash GoModFileName).
  rewrite <- render_snoc by done.
  rewrite Abs_render, Hread by done.
  destruct bytes as [|c bytes]; [done|]. cbn [String.length Nat.eqb].
  eexists. split; [reflexivity|].
  destruct (fold_goModLine_paths (Split (String c bytes) NewLine)
              {| RootPath := Dir (render (up ++ [GoModFileName])); GoVersion := EmptyString;
                 GoModFile := render (up ++ [GoModFileName]); ModuleName := EmptyString;
                 DirectDeps := ∅; IndirectDeps := ∅ |}) as [-> ->].
  cbn [RootPath GoModFile]. split; [done|]. split; [done|].
  by rewrite Dir_render.
Qed.

Lemma newModule_of_found_manifest_witness :
  exists m,
    newModule Demo.fs "/s/go.mod" = Ok m
    /\ GoModFile m = "/s/go.mod" /\ RootPath m = Dir "/s/go.mod"
    /\ goModFileOf Demo.fs "/s/sub/pkg" = Some (Ok (RootPath m)).
Proof.
  apply (newModule_of_found_manifest Demo.fs "/s/sub/pkg" "/s/go.mod" Demo.manifest);
    [reflexivity|reflexivity|discriminate|reflexivity|discriminate].
Defined.

(** ** Relative paths and [findPackagePath] *)

Lemma dropCommon_app up rest : dropCommon up (up ++ rest) = ([], rest).
Proof.
  induction up as [|e up IH]; [by destruct rest|].
  cbn. by rewrite String.eqb_refl.
Qed.

Lemma render_not_dot elems : String.eqb (render elems) "." = false.
Proof. done. Qed.

(** [filepath.Rel] from a directory to one below it. *)
Lemma Rel_render up rest :
  good (up ++ rest) -> Rel (render up) (render (up ++ rest)) = Some (relativePath rest).
Proof.
  intros Hgood. pose proof Hgood as Hboth. apply Forall_app in Hboth as [Hup Hrest].
  unfold Rel. rewrite !Clean_render by done.
  destruct rest as [|x rest].
  - by rewrite app_nil_r, String.eqb_refl.
  - assert (Hneq : String.eqb (render (up ++ x :: rest)) (render up) = false).
    { apply String.eqb_neq. intros H. apply render_inj in H; [|done..].
      apply (f_equal length) in H. rewrite length_app in H. cbn in H. lia. }
    rewrite Hneq, !IsAbs_render, render_not_dot. cbn [Bool.eqb negb].
    by rewrite !elements_render, dropCommon_app by done.
Qed.

Lemma trimRight_id f s : endsOutside f s = true -> trimRight f s = s.
Proof.
  induction s as [|c s IH]; [done|]. intros H.
  destruct s as [|d s].
  - cbn in *. by destruct (f c).
  - change (trimRight f (String c (String d s)))
      with (match trimRight f (String d s) with
            | EmptyString => if f c then EmptyString else String c EmptyString
            | r' => String c r'
            end).
    by rewrite IH.
Qed.

Lemma endsOutside_append f a b :
  b <> EmptyString -> endsOutside f (a +:+ b) = endsOutside f b.
Proof.
  intros Hb. induction a as [|c a IH]; [done|].
  change (String c a +:+ b) with (String c (a +:+ b)).
  cbn [endsOutside]. destruct (a +:+ b) eqn:Hab; [|done].
  by destruct a, b.
Qed.

Lemma endsOutside_noSlash e :
  noSlash e = true -> endsOutside (contains "/") e = true.
Proof.
  induction e as [|c e IH]; [done|]. cbn [noSlash]. intros [Hc He]%andb_prop.
  destruct e as [|d e]; [|by apply IH].
  cbn. rewrite orb_false_r. exact Hc.
Qed.

Lemma Trim_relativePath rest :
  good rest -> Trim (relativePath rest) PathSeparator = relativePath rest.
Proof.
  intros Hgood. destruct rest as [|x rest]; [done|].
  unfold Trim, relativePath.
  assert (Hleft : trimLeft (contains PathSeparator) (Strings.Join (x :: rest) Separator)
                  = Strings.Join (x :: rest) Separator).
  { apply Forall_cons in Hgood as [(Hne & Hns & _)%goodElem_spec _].
    destruct x as [|c x]; [done|]. cbn [noSlash] in Hns. apply andb_prop in Hns as [Hc _].
    assert (Hcut : contains PathSeparator c = false).
    { cbn. rewrite orb_false_r. by apply negb_true_iff. }
    destruct rest as [|y rest].
    - cbn -[contains]. by rewrite Hcut.
    - change (Strings.Join (String c x :: y :: rest) Separator)
        with (String c (x +:+ Separator +:+ Strings.Join (y :: rest) Separator)).
      cbn [trimLeft]. by rewrite Hcut. }
  rewrite Hleft. apply trimRight_id.
  clear Hleft. induction rest as [|y rest IH] in x, Hgood |- *.
  - apply Forall_cons in Hgood as [(_ & Hns & _)%goodElem_spec _].
    by apply endsOutside_noSlash.
  - apply Forall_cons in Hgood as [_ Hgood].
    change (Strings.Join (x :: y :: rest) Separator)
      with (x +:+ (Separator +:+ Strings.Join (y :: rest) Separator)).
    rewrite endsOutside_append by done.
    change (Separator +:+ Strings.Join (y :: rest) Separator)
      with ("/" +:+ Strings.Join (y :: rest) Separator).
    rewrite endsOutside_append; [by apply IH|].
    apply nonEmpty_true, Join_nonEmpty.
    by apply Forall_cons in Hgood as [(Hne & _)%goodElem_spec _].
Qed.

Lemma findModuleName_first before line after :
  Forall (fun l => HasPrefix l GoModulePrefix = false) before ->
  HasPrefix line GoModulePrefix = true ->
  findModuleName (before ++ line :: after) = Trim line GoModulePrefix.
Proof.
  intros Hbefore Hline. induction Hbefore as [|l before Hl _ IH]; cbn; [by rewrite Hline|].
  by rewrite Hl.
Qed.

(** X5: for a directory that does not exist, and for one with no manifest
    in sight on the way up, [findPackagePath] returns the absolute path of
    the directory. *)
Theorem findPackagePath_without_manifest fs dirPath elems :
  IsAbs (cwd fs) = true -> good elems -> Abs fs dirPath = render elems ->
  is_Some (statNotExist fs (render elems)) \/ noManifestFrom fs elems ->
  findPackagePath fs dirPath = Some (render elems).
Proof.
  intros Hcwd Hgood Habs Hcase. unfold findPackagePath, findGoModFileOf.
  rewrite Habs, Abs_render by done.
  destruct (statNotExist fs (render elems)) as [err|] eqn:Hstat; [done|].
  destruct Hcase as [[? Hk]|Hnone]; [done|].
  by destruct (lookup_missed fs dirPath elems (String.length (render elems)) Hgood
                 (render_length elems Hgood) Hnone) as [_ ->].
Qed.

Lemma findPackagePath_without_manifest_witness :
  findPackagePath Demo.fs "../w/./sub" = Some (render ["w"; "sub"]).
Proof.
  apply (findPackagePath_without_manifest Demo.fs "../w/./sub" ["w"; "sub"]);
    [reflexivity|by repeat constructor|reflexivity|left; by eexists].
Defined.

(** X6: below a manifest, [findPackagePath] joins two parts with a slash:
    the first line of the manifest that begins with [module ], trimmed at
    both ends of every character of the set [module ] (not of the keyword
    alone), and the path of the directory relative to that of the
    manifest, which is [.] for the directory of the manifest itself. *)
Theorem findPackagePath_under_manifest fs dirPath up rest bytes before line after :
  good (up ++ rest) -> up <> [] ->
  Abs fs dirPath = render (up ++ rest) ->
  findGoModFileOf fs (render (up ++ rest)) = Some (render (up ++ [GoModFileName])) ->
  ReadFile fs (render (up ++ [GoModFileName])) = Ok bytes ->
  Split bytes newline = (before ++ line :: after)%list ->
  Forall (fun l => HasPrefix l GoModulePrefix = false) before ->
  HasPrefix line GoModulePrefix = true ->
  Trim line GoModulePrefix <> EmptyString ->
  findPackagePath fs dirPath
  = Some (Trim line GoModulePrefix +:+ "/" +:+ relativePath rest).
Proof.
  intros Hgood Hup Habs Hfind Hread Hsplit Hbefore Hline Hname.
  pose proof Hgood as Hboth. apply Forall_app in Hboth as [Hgu Hgr].
  unfold findPackagePath. rewrite Habs, Hfind.
  rewrite render_snoc by done.
  change (String.length (render up +:+ String slash GoModFileName) =? 0)%nat with false.
  cbn match. rewrite <- render_snoc by done.
  rewrite Dir_render, Rel_render by done. cbn [default from_option id].
  rewrite Trim_relativePath, Hread, Hsplit, findModuleName_first by done.
  destruct (Trim line GoModulePrefix); done.
Qed.

Lemma findPackagePath_under_manifest_witness :
  findPackagePath Demo.fs "/s/sub/pkg"
  = Some (Trim moduleLine GoModulePrefix +:+ "/" +:+ relativePath ["sub"; "pkg"])
  /\ Trim moduleLine GoModulePrefix +:+ "/" +:+ relativePath ["sub"; "pkg"]
     = "xample.com/app/sub/pkg".
Proof.
  split; [|reflexivity].
  apply (findPackagePath_under_manifest Demo.fs "/s/sub/pkg" ["s"] ["sub"; "pkg"]
           Demo.manifest [] moduleLine
           [EmptyString; "go 1.21"; EmptyString; "require ("; directLine; indirectLine;
            ")"; EmptyString]);
    [by repeat constructor|done|reflexivity|reflexivity|reflexivity|reflexivity
    |constructor|reflexivity|discriminate].
Defined.

(** ** What [newModule] reads from the lines of a manifest *)

Lemma newModule_Ok_inv fs goModFile m :
  newModule fs goModFile = Ok m ->
  exists bytes,
    ReadFile fs (Abs fs goModFile) = Ok bytes
    /\ m = fold_left goModLine (Split bytes NewLine)
             {| RootPath := Dir (Abs fs goModFile); GoVersion := EmptyString;
                GoModFile := Abs fs goModFile; ModuleName := EmptyString;
                DirectDeps := ∅; IndirectDeps := ∅ |}.
Proof.
  unfold newModule. destruct (statNotExist fs goModFile); [done|].
  destruct (HasSuffix goModFile GoModFileName); [|done]. cbn [negb].
  destruct (ReadFile fs (Abs fs goModFile)) as [bytes|]; [|done].
  destruct (String.length bytes =? 0)%nat; [done|].
  intros [= <-]. eauto.
Qed.

Lemma version_not_module line :
  HasPrefix line VersionPrefix = true -> HasPrefix line ModulePrefix = false.
Proof.
  unfold HasPrefix. destruct line as [|c line]; [done|].
  cbn [String.prefix VersionPrefix ModulePrefix].
  match goal with
  | |- context [Ascii.ascii_dec ?a c] => destruct (Ascii.ascii_dec a c) as [<-|]; done
  end.
Qed.

Lemma declared_snoc keyword lines line :
  declared keyword (lines ++ [line])
  = if HasPrefix line keyword
    then TrimSpace (sliceFrom line (String.length keyword))
    else declared keyword lines.
Proof.
  unfold declared. rewrite rev_app_distr. cbn [rev app List.find].
  by destruct (HasPrefix line keyword).
Qed.

Lemma fold_goModLine_declared lines : forall m,
  ModuleName m = EmptyString -> GoVersion m = EmptyString ->
  ModuleName (fold_left goModLine lines m) = declared ModulePrefix lines
  /\ GoVersion (fold_left goModLine lines m) = declared VersionPrefix lines.
Proof.
  induction lines as [|line lines IH] using rev_ind; intros m Hname Hversion; [done|].
  rewrite fold_left_app, !declared_snoc. cbn [fold_left].
  destruct (IH m Hname Hversion) as [IHname IHversion].
  unfold goModLine at 1 3.
  destruct (HasPrefix line ModulePrefix) eqn:Hmod.
  - destruct (HasPrefix line VersionPrefix) eqn:Hver; [|done].
    apply version_not_module in Hver. congruence.
  - destruct (HasPrefix line VersionPrefix); [done|].
    destruct (HasPrefix line TabString); [|done].
    destruct (Split (TrimSpace line) SpaceChar) as [|item0 [|item1 items]]; [done..|].
    by destruct (String.eqb _ GoModIndirect).
Qed.

Lemma fold_goModLine_no_deps lines : forall m,
  Forall (fun line => HasPrefix line TabString = false) lines ->
  DirectDeps (fold_left goModLine lines m) = DirectDeps m
  /\ IndirectDeps (fold_left goModLine lines m) = IndirectDeps m.
Proof.
  induction lines as [|line lines IH]; intros m Hlines; [done|].
  apply Forall_cons in Hlines as [Hline Hlines]. cbn [fold_left].
  destruct (IH (goModLine m line) Hlines) as [-> ->].
  unfold goModLine. rewrite Hline.
  destruct (HasPrefix line ModulePrefix); [done|].
  by destruct (HasPrefix line VersionPrefix).
Qed.

(** X7: the Module that [newModule] returns carries, as its name and as
    its language version, what the last line beginning with [module ],
    respectively with [go ], declares (the text after the keyword, trimmed
    of white space); each is empty when the manifest has no such line. *)
Theorem newModule_last_declaration_wins fs goModFile m :
  newModule fs goModFile = Ok m ->
  exists bytes,
    ReadFile fs (Abs fs goModFile) = Ok bytes
    /\ ModuleName m = declared ModulePrefix (Split bytes NewLine)
    /\ GoVersion m = declared VersionPrefix (Split bytes NewLine).
Proof.
  intros (bytes & Hread & ->)%newModule_Ok_inv. exists bytes. split; [done|].
  by apply fold_goModLine_declared.
Qed.

Lemma newModule_last_declaration_wins_witness :
  exists bytes,
    ReadFile Demo.fs (Abs Demo.fs "/q/go.mod") = Ok bytes
    /\ ModuleName {| RootPath := "/q"; GoVersion := "1.21"; GoModFile := "/q/go.mod";
                     ModuleName := appName; DirectDeps := directDeps;
                     IndirectDeps := indirectDeps |}
       = declared ModulePrefix (Split bytes NewLine)
    /\ GoVersion {| RootPath := "/q"; GoVersion := "1.21"; GoModFile := "/q/go.mod";
                    ModuleName := appName; DirectDeps := directDeps;
                    IndirectDeps := indirectDeps |}
       = declared VersionPrefix (Split bytes NewLine).
Proof. apply (newModule_last_declaration_wins Demo.fs "/q/go.mod"). reflexivity. Defined.

(** X8: [newModule] records dependencies from lines that begin with a tab
    only: a manifest without such a line (its requirements written on
    single lines, or indented by spaces) yields a Module without direct
    and without indirect dependencies. *)
Theorem newModule_dependencies_need_tab fs goModFile m :
  newModule fs goModFile = Ok m ->
  exists bytes,
    ReadFile fs (Abs fs goModFile) = Ok bytes
    /\ (Forall (fun line => HasPrefix line TabString = false) (Split bytes NewLine) ->
        DirectDeps m = ∅ /\ IndirectDeps m = ∅).
Proof.
  intros (bytes & Hread & ->)%newModule_Ok_inv. exists bytes. split; [done|].
  intros Hlines. by apply fold_goModLine_no_deps.
Qed.

Lemma newModule_dependencies_need_tab_witness :
  exists bytes,
    ReadFile Tour.flat (Abs Tour.flat "/go.mod") = Ok bytes
    /\ (Forall (fun line => HasPrefix line TabString = false) (Split bytes NewLine) ->
        DirectDeps {| RootPath := "/"; GoVersion := EmptyString; GoModFile := "/go.mod";
                      ModuleName := "m"; DirectDeps := ∅; IndirectDeps := ∅ |} = ∅
        /\ IndirectDeps {| RootPath := "/"; GoVersion := EmptyString; GoModFile := "/go.mod";
                           ModuleName := "m"; DirectDeps := ∅; IndirectDeps := ∅ |} = ∅).
Proof. apply (newModule_dependencies_need_tab Tour.flat "/go.mod"). reflexivity. Defined.

(** ** Package path inference on canonical paths *)

Lemma Stat_directory fs name info :
  Stat fs name = Ok info -> IsDir info = true ->
  exists entries, resolve fs name = inr (Directory entries).
Proof.
  unfold Stat. destruct (resolve fs name) as [code|[data|entries]]; [done| |by eauto].
  by intros [= <-].
Qed.

Lemma Stat_regular fs name info :
  Stat fs name = Ok info -> IsDir info = false ->
  exists data, resolve fs name = inr (Regular data).
Proof.
  unfold Stat. destruct (resolve fs name) as [code|[data|entries]]; [done|by eauto|].
  by intros [= <-].
Qed.

Lemma dropCommon_good base targ :
  good base -> good (dropCommon base targ).1.
Proof.
  induction base as [|b base IH] in targ |- *; intros Hgood; [by destruct targ|].
  destruct targ as [|t targ]; [done|]. cbn.
  destruct (String.eqb b t); [|done].
  apply IH. by apply Forall_cons in Hgood as [_ ?].
Qed.

(** [filepath.Rel] between absolute paths never fails. *)
Lemma Rel_absolute basepath targpath :
  IsAbs basepath = true -> IsAbs targpath = true -> is_Some (Rel basepath targpath).
Proof.
  intros Hbase Htarg.
  destruct (Clean_canonical basepath Hbase) as (bs & Hbs & Hb).
  destruct (Clean_canonical targpath Htarg) as (ts & Hts & Ht).
  unfold Rel. rewrite Hb, Ht.
  destruct (String.eqb (render ts) (render bs)); [by eauto|].
  rewrite !IsAbs_render, render_not_dot. cbn [Bool.eqb negb].
  rewrite !elements_render by done.
  pose proof (dropCommon_good bs ts Hbs) as Hrest.
  destruct (dropCommon bs ts) as [brest trest]. cbn [fst] in Hrest.
  destruct brest as [|b brest]; [by eauto|].
  apply Forall_cons in Hrest as [(_ & _ & _ & Hb')%goodElem_spec _].
  apply String.eqb_neq in Hb'. rewrite Hb'. by eauto.
Qed.

(** The parent of whatever lies at a canonical path is a directory. *)
Lemma walk_parent n elems e x :
  walk n (elems ++ [e]) = inr x -> exists entries, walk n elems = inr (Directory entries).
Proof.
  intros (d & Hd & He)%walk_app. apply walk_into in He as [entries ->]. eauto.
Qed.

(** X9: inside the module, the package of a directory is the module name
    joined with the path of the directory relative to the module root; its
    short name is the last element of the directory path, and its
    directory is the absolute path of the directory. *)
Theorem inferGoPkgInfo_below_root fs m file up rest info :
  good (up ++ rest) -> Abs fs file = render (up ++ rest) ->
  RootPath m = render up ->
  Stat fs (render (up ++ rest)) = Ok info -> IsDir info = true ->
  inferGoPkgInfo fs (Some m) file
  = Ok (Join2 (ModuleName m) (relativePath rest),
        Base (render (up ++ rest)), render (up ++ rest)).
Proof.
  intros Hgood Habs Hroot Hstat Hdir. unfold inferGoPkgInfo.
  by rewrite Habs, Hstat, Hdir, Hroot, Rel_render.
Qed.

Lemma inferGoPkgInfo_below_root_witness :
  inferGoPkgInfo Demo.fs (Some (Tour.moduleAt "/s")) "/s/sub/pkg"
  = Ok (Join2 (ModuleName (Tour.moduleAt "/s")) (relativePath ["sub"; "pkg"]),
        Base (render (["s"] ++ ["sub"; "pkg"])), render (["s"] ++ ["sub"; "pkg"])).
Proof.
  apply (inferGoPkgInfo_below_root Demo.fs (Tour.moduleAt "/s") "/s/sub/pkg" ["s"] ["sub"; "pkg"]
           {| IsDir := true |});
    [by repeat constructor|reflexivity|reflexivity|reflexivity|reflexivity].
Defined.

(** X10: a file that is not a Go file is given the package of its
    directory: [inferGoPkgInfo] returns for it what it returns for the
    directory that holds it. *)
Theorem inferGoPkgInfo_other_file fs module file info :
  IsAbs (cwd fs) = true ->
  Stat fs (Abs fs file) = Ok info -> IsDir info = false ->
  HasSuffix (Abs fs file) GoFileSuffix = false ->
  inferGoPkgInfo fs module file = inferGoPkgInfo fs module (Dir (Abs fs file)).
Proof.
  intros Hcwd Hstat Hfile Hsuffix. unfold inferGoPkgInfo.
  destruct module as [m|]; [|done].
  rewrite Hstat, Hfile, Hsuffix.
  destruct (Stat_regular _ _ _ Hstat Hfile) as [data Hres].
  destruct (Abs_canonical fs Hcwd file) as (elems & Hgood & Habs). rewrite Habs in *.
  rewrite resolve_render in Hres by done.
  destruct elems as [|e elems _] using rev_ind; [done|].
  apply Forall_app in Hgood as [Hgood He]. apply Forall_cons in He as [He _].
  rewrite Dir_render, Abs_render by done.
  destruct (walk_parent _ _ _ _ Hres) as [entries Hdir].
  unfold Stat. rewrite resolve_render, Hdir by done. done.
Qed.

Lemma inferGoPkgInfo_other_file_witness :
  inferGoPkgInfo Demo.fs (Some (Tour.moduleAt "/s")) "/s/go.mod"
  = inferGoPkgInfo Demo.fs (Some (Tour.moduleAt "/s")) (Dir (Abs Demo.fs "/s/go.mod")).
Proof.
  apply (inferGoPkgInfo_other_file Demo.fs (Some (Tour.moduleAt "/s")) "/s/go.mod"
           {| IsDir := false |});
    reflexivity.
Defined.

(** X11: for a module whose root path is absolute, as [newModule] makes
    it, package inference succeeds on every existing directory and on every
    existing file that is not a Go file, inside the module or not. *)
Theorem inferGoPkgInfo_total fs m file info :
  IsAbs (cwd fs) = true -> IsAbs (RootPath m) = true ->
  Stat fs (Abs fs file) = Ok info ->
  IsDir info = true \/ HasSuffix (Abs fs file) GoFileSuffix = false ->
  exists pkgPath pkgName pkgDir,
    inferGoPkgInfo fs (Some m) file = Ok (pkgPath, pkgName, pkgDir).
Proof.
  intros Hcwd Hroot Hstat Hkind. unfold inferGoPkgInfo. rewrite Hstat.
  destruct (Abs_canonical fs Hcwd file) as (elems & Hgood & Habs).
  destruct (IsDir info) eqn:Hdir.
  - destruct (Rel_absolute (RootPath m) (Abs fs file) Hroot) as [rel ->]; [|by eauto].
    rewrite Habs. apply IsAbs_render.
  - destruct Hkind as [Hk| ->]; [done|].
    destruct (Rel_absolute (RootPath m) (Dir (Abs fs file)) Hroot) as [rel ->]; [|by eauto].
    rewrite Habs. destruct elems as [|e elems _] using rev_ind; [done|].
    apply Forall_app in Hgood as [Hgood He]. apply Forall_cons in He as [He _].
    rewrite Dir_render by done. apply IsAbs_render.
Qed.

Lemma inferGoPkgInfo_total_witness :
  exists pkgPath pkgName pkgDir,
    inferGoPkgInfo Demo.fs (Some (Tour.moduleAt "/s")) "/w" = Ok (pkgPath, pkgName, pkgDir).
Proof.
  apply (inferGoPkgInfo_total Demo.fs (Tour.moduleAt "/s") "/w" {| IsDir := true |});
    [reflexivity|reflexivity|reflexivity|by left].
Defined.

(** ** The registries and their queries *)

Lemma withFiles_same σ fl f : files σ !! fl = Some f -> withFiles σ (<[fl := f]> (files σ)) = σ.
Proof. intros H. destruct σ. unfold withFiles. cbn in *. by rewrite insert_id. Qed.

Lemma withFiles_twice σ fl f1 f2 :
  withFiles (withFiles σ (<[fl := f1]> (files σ)))
    (<[fl := f2]> (files (withFiles σ (<[fl := f1]> (files σ)))))
  = withFiles σ (<[fl := f2]> (files σ)).
Proof. unfold withFiles. cbn. by rewrite insert_insert_eq. Qed.

Lemma Package_newSrcFile_run σ pl p srcPath :
  packages σ !! pl = Some p ->
  Package_newSrcFile (Some pl) srcPath σ
  = Some (match srcFiles p !! srcPath with
          | Some fl => (Some fl, σ)
          | None =>
              let fl := fresh (dom (files σ)) in
              (Some fl,
               withPackages (withFiles σ (<[fl := emptyFile pl srcPath]> (files σ)))
                 (<[pl := withSrcFiles p (<[srcPath := fl]> (srcFiles p))]> (packages σ)))
          end).
Proof.
  intros Hp. unfold Package_newSrcFile.
  run (getPackage_Some _ _ _ Hp).
  destruct (srcFiles p !! srcPath) as [fl|] eqn:Hs.
  - unfold bind at 1. cbn [ret]. run (getPackage_Some _ _ _ Hp). unfold ret. by rewrite Hs.
  - unfold newSrcFile, allocFile, modifyPackage, setPackage, getPackage, bind, ret. cbn.
    rewrite Hp. cbn. rewrite lookup_insert_eq. cbn. by rewrite lookup_insert_eq.
Qed.

Lemma Program_newPackage_run σ g prog n P d :
  programs σ !! g = Some prog ->
  Program_newPackage (Some g) n P d σ
  = Some (match pkgSet prog !! P with
          | Some l => (Some l, σ)
          | None =>
              let l := fresh (dom (packages σ)) in
              (Some l,
               withPrograms
                 (withPackages σ
                    (<[l := {| program := Some g; pkgName := n; pkgPath := P; dirPath := d;
                               loadInfo := None; srcFiles := ∅; fileSet := None;
                               imports := []; typePkg := None; typInfo := None;
                               typSize := None |}]> (packages σ)))
                 (<[g := {| pkgSet := <[P := l]> (pkgSet prog); module := module prog |}]>
                    (programs σ)))
          end).
Proof.
  intros Hg. unfold Program_newPackage.
  run (getProgram_Some _ _ _ Hg).
  destruct (pkgSet prog !! P) as [l|] eqn:HP.
  - unfold bind at 1. cbn [ret]. run (getProgram_Some _ _ _ Hg). unfold ret. by rewrite HP.
  - unfold newPackage, allocPackage, setProgram, getProgram, bind, ret. cbn.
    rewrite Hg. cbn. rewrite lookup_insert_eq. cbn. by rewrite lookup_insert_eq.
Qed.

Lemma fresh_file σ : files σ !! fresh (dom (files σ)) = None.
Proof. apply not_elem_of_dom, is_fresh. Qed.

Lemma elem_of_keys {A} (m : gmap string A) k :
  k ∈ map fst (map_to_list m) <-> is_Some (m !! k).
Proof.
  rewrite list_elem_of_fmap. split.
  - intros ([k' x] & -> & H%elem_of_map_to_list). eauto.
  - intros [x H]. exists (k, x). split; [done|]. by apply elem_of_map_to_list.
Qed.

Lemma elem_of_values {A} (m : gmap string A) x :
  x ∈ map snd (map_to_list m) <-> exists k, m !! k = Some x.
Proof.
  rewrite list_elem_of_fmap. split.
  - intros ([k x'] & -> & H%elem_of_map_to_list). eauto.
  - intros [k H]. exists (k, x). split; [done|]. by apply elem_of_map_to_list.
Qed.

(** X12: [Package.newSrcFile] creates or gets: it returns the file
    registered under the path, making an empty one on the first request;
    [Package.SrcFile] then finds that file under the path, a further
    request returns it again and changes nothing, and the files under all
    other paths stay as they are. *)
Theorem newSrcFile_creates_or_gets σ pl p srcPath :
  packages σ !! pl = Some p ->
  exists fl σ' p',
    Package_newSrcFile (Some pl) srcPath σ = Some (Some fl, σ')
    /\ packages σ' !! pl = Some p'
    /\ Package_SrcFile (Some pl) srcPath σ' = Some (Some fl, σ')
    /\ Package_newSrcFile (Some pl) srcPath σ' = Some (Some fl, σ')
    /\ (forall other, other <> srcPath -> srcFiles p' !! other = srcFiles p !! other)
    /\ match srcFiles p !! srcPath with
       | Some registered => fl = registered /\ σ' = σ
       | None => files σ !! fl = None /\ files σ' !! fl = Some (emptyFile pl srcPath)
       end.
Proof.
  intros Hp. rewrite (Package_newSrcFile_run _ _ _ _ Hp).
  destruct (srcFiles p !! srcPath) as [fl|] eqn:Hs.
  - exists fl, σ, p. split; [done|]. split; [done|]. split.
    { unfold Package_SrcFile. run (getPackage_Some _ _ _ Hp). unfold ret. by rewrite Hs. }
    split; [by rewrite (Package_newSrcFile_run _ _ _ _ Hp), Hs|]. done.
  - eexists _, _, _. split; [reflexivity|]. cbn zeta.
    set (fl := fresh (dom (files σ))).
    set (p' := withSrcFiles p (<[srcPath := fl]> (srcFiles p))).
    set (σ' := withPackages _ _).
    assert (Hp' : packages σ' !! pl = Some p') by apply lookup_insert_eq.
    split; [exact Hp'|]. split.
    { unfold Package_SrcFile. run (getPackage_Some _ _ _ Hp'). unfold ret.
      subst p'. cbn. by rewrite lookup_insert_eq. }
    split.
    { rewrite (Package_newSrcFile_run _ _ _ _ Hp'). subst p'. cbn.
      by rewrite lookup_insert_eq. }
    split.
    { intros other Hne. subst p'. cbn. by rewrite lookup_insert_ne. }
    split; [apply fresh_file|]. subst σ'. cbn. apply lookup_insert_eq.
Qed.

Lemma newSrcFile_creates_or_gets_witness :
  exists fl σ' p',
    Package_newSrcFile (Some 0%nat) "/w/c.go" Demo.storeW = Some (Some fl, σ')
    /\ packages σ' !! 0%nat = Some p'
    /\ Package_SrcFile (Some 0%nat) "/w/c.go" σ' = Some (Some fl, σ')
    /\ Package_newSrcFile (Some 0%nat) "/w/c.go" σ' = Some (Some fl, σ')
    /\ (forall other, other <> "/w/c.go" ->
          srcFiles p' !! other
          = srcFiles (Demo.package "r" "/w" "/w" {[ "/w/a.go" := 0%nat ]} (Some 0%nat))
              !! other)
    /\ match srcFiles (Demo.package "r" "/w" "/w" {[ "/w/a.go" := 0%nat ]} (Some 0%nat))
               !! "/w/c.go" with
       | Some registered => fl = registered /\ σ' = Demo.storeW
       | None => files Demo.storeW !! fl = None
                 /\ files σ' !! fl = Some (emptyFile 0%nat "/w/c.go")
       end.
Proof. apply (newSrcFile_creates_or_gets Demo.storeW 0%nat). reflexivity. Defined.

Lemma Package_newSrcFile_registry σ pl p srcPath :
  packages σ !! pl = Some p ->
  exists fl σ' p',
    Package_newSrcFile (Some pl) srcPath σ = Some (Some fl, σ')
    /\ packages σ' !! pl = Some p'
    /\ srcFiles p' !! srcPath = Some fl
    /\ (forall other, other <> srcPath -> srcFiles p' !! other = srcFiles p !! other).
Proof.
  intros Hp. rewrite (Package_newSrcFile_run _ _ _ _ Hp).
  destruct (srcFiles p !! srcPath) as [fl|] eqn:Hs.
  - by exists fl, σ, p.
  - eexists _, _, _. split; [reflexivity|]. cbn zeta.
    split; [apply lookup_insert_eq|]. cbn. split; [apply lookup_insert_eq|].
    intros other Hne. by rewrite lookup_insert_ne.
Qed.

(** X13: [Package.GoFiles] lists, each once, the paths under which a file
    is registered, the empty path left out; registering a file adds its
    path to the list, unless the path is empty or listed already. *)
Theorem GoFiles_after_newSrcFile σ pl p srcPath :
  packages σ !! pl = Some p ->
  exists before after fl σ',
    Package_GoFiles (Some pl) σ = Some (before, σ)
    /\ Package_newSrcFile (Some pl) srcPath σ = Some (Some fl, σ')
    /\ Package_GoFiles (Some pl) σ' = Some (after, σ')
    /\ NoDup before /\ NoDup after
    /\ (forall path, path ∈ before <-> path <> EmptyString /\ is_Some (srcFiles p !! path))
    /\ (forall path, path ∈ after <->
          path ∈ before \/ (path = srcPath /\ srcPath <> EmptyString)).
Proof.
  intros Hp.
  assert (Hlist : forall q : Package,
    NoDup (filter (fun path => nonEmpty path = true) (map fst (map_to_list (srcFiles q))))
    /\ forall path,
         path ∈ filter (fun path => nonEmpty path = true) (map fst (map_to_list (srcFiles q)))
         <-> path <> EmptyString /\ is_Some (srcFiles q !! path)).
  { intros q. split; [apply NoDup_filter, NoDup_fst_map_to_list|].
    intros path. by rewrite list_elem_of_filter, elem_of_keys, nonEmpty_true. }
  destruct (Package_newSrcFile_registry σ pl p srcPath Hp)
    as (fl & σ' & p' & Hrun & Hp' & Hnew & Hold).
  eexists _, _, fl, σ'. split.
  { unfold Package_GoFiles. run (getPackage_Some _ _ _ Hp). reflexivity. }
  split; [exact Hrun|]. split.
  { unfold Package_GoFiles. run (getPackage_Some _ _ _ Hp'). reflexivity. }
  split; [apply Hlist|]. split; [apply Hlist|]. split; [apply Hlist|].
  intros path. rewrite !(proj2 (Hlist _)).
  destruct (decide (path = srcPath)) as [->|Hne].
  - rewrite Hnew. split; [intros [? _]; by right|]. intros [[? _]|[_ ?]]; eauto.
  - rewrite (Hold path Hne). split; [by left|]. by intros [?|[? _]].
Qed.

Lemma GoFiles_after_newSrcFile_witness :
  exists before after fl σ',
    Package_GoFiles (Some 0%nat) Demo.storeW = Some (before, Demo.storeW)
    /\ Package_newSrcFile (Some 0%nat) EmptyString Demo.storeW = Some (Some fl, σ')
    /\ Package_GoFiles (Some 0%nat) σ' = Some (after, σ')
    /\ NoDup before /\ NoDup after
    /\ (forall path, path ∈ before <->
          path <> EmptyString
          /\ is_Some (srcFiles (Demo.package "r" "/w" "/w" {[ "/w/a.go" := 0%nat ]}
                                  (Some 0%nat)) !! path))
    /\ (forall path, path ∈ after <->
          path ∈ before \/ (path = EmptyString /\ EmptyString <> EmptyString)).
Proof. apply (GoFiles_after_newSrcFile Demo.storeW 0%nat). reflexivity. Defined.

(** X14: [Program.newPackage] registers what it returns: [Program.Package]
    then finds it under the path, [Program.AllPackages] lists it next to
    the packages listed before, one more only if the path was new, and the
    packages under all other paths stay registered as they were. *)
Theorem AllPackages_after_newPackage σ g prog n P d :
  programs σ !! g = Some prog ->
  exists before after l σ',
    Program_AllPackages (Some g) σ = Some (before, σ)
    /\ Program_newPackage (Some g) n P d σ = Some (Some l, σ')
    /\ Program_Package (Some g) P σ' = Some (Some l, σ')
    /\ Program_AllPackages (Some g) σ' = Some (after, σ')
    /\ (forall x, x ∈ after <-> x ∈ before \/ x = l)
    /\ length after = match pkgSet prog !! P with
                      | Some _ => length before
                      | None => S (length before)
                      end
    /\ (forall P', P' <> P ->
          Program_Package (Some g) P' σ' = Some (pkgSet prog !! P', σ')).
Proof.
  intros Hg. rewrite (Program_newPackage_run _ _ _ n P d Hg).
  exists (map snd (map_to_list (pkgSet prog))).
  assert (Hall : Program_AllPackages (Some g) σ
                 = Some (map snd (map_to_list (pkgSet prog)), σ)).
  { unfold Program_AllPackages. by run (getProgram_Some _ _ _ Hg). }
  assert (Hget : forall P', Program_Package (Some g) P' σ = Some (pkgSet prog !! P', σ)).
  { intros P'. unfold Program_Package. by run (getProgram_Some _ _ _ Hg). }
  destruct (pkgSet prog !! P) as [l|] eqn:HP.
  - exists (map snd (map_to_list (pkgSet prog))), l, σ.
    split; [done|]. split; [done|]. split; [by rewrite Hget, HP|]. split; [done|].
    split; [|by split].
    intros x. split; [by left|]. intros [?| ->]; [done|].
    apply elem_of_values. eauto.
  - eexists _, _, _. split; [done|]. split; [reflexivity|]. cbn zeta.
    set (l := fresh (dom (packages σ))).
    set (prog' := {| pkgSet := <[P := l]> (pkgSet prog); module := module prog |}).
    set (σ' := withPrograms _ _).
    assert (Hg' : programs σ' !! g = Some prog') by apply lookup_insert_eq.
    split.
    { unfold Program_Package. run (getProgram_Some _ _ _ Hg'). unfold ret.
      subst prog'. cbn. by rewrite lookup_insert_eq. }
    split.
    { unfold Program_AllPackages. run (getProgram_Some _ _ _ Hg'). reflexivity. }
    subst prog'. cbn [pkgSet]. split; [|split].
    + intros x. rewrite !elem_of_values. split.
      * intros [k Hk]. destruct (decide (k = P)) as [->|Hne].
        -- rewrite lookup_insert_eq in Hk. right. by injection Hk.
        -- rewrite lookup_insert_ne in Hk by done. left. eauto.
      * intros [[k Hk]| ->].
        -- exists k. rewrite lookup_insert_ne; [done|]. intros ->. by rewrite HP in Hk.
        -- exists P. apply lookup_insert_eq.
    + rewrite !length_map. by rewrite (map_to_list_insert _ _ _ HP).
    + intros P' Hne. unfold Program_Package. run (getProgram_Some _ _ _ Hg'). unfold ret.
      cbn. by rewrite lookup_insert_ne.
Qed.

Lemma AllPackages_after_newPackage_witness :
  exists before after l σ',
    Program_AllPackages (Some 0%nat) Demo.storeQ = Some (before, Demo.storeQ)
    /\ Program_newPackage (Some 0%nat) "lib" "example.com/app/lib" "/q/lib" Demo.storeQ
       = Some (Some l, σ')
    /\ Program_Package (Some 0%nat) "example.com/app/lib" σ' = Some (Some l, σ')
    /\ Program_AllPackages (Some 0%nat) σ' = Some (after, σ')
    /\ (forall x, x ∈ after <-> x ∈ before \/ x = l)
    /\ length after
       = match pkgSet {| pkgSet := {[ "example.com/app" := 0%nat ]}; module := None |}
               !! "example.com/app/lib" with
         | Some _ => length before
         | None => S (length before)
         end
    /\ (forall P', P' <> "example.com/app/lib" ->
          Program_Package (Some 0%nat) P' σ'
          = Some (pkgSet {| pkgSet := {[ "example.com/app" := 0%nat ]}; module := None |}
                    !! P', σ')).
Proof. apply (AllPackages_after_newPackage Demo.storeQ 0%nat). reflexivity. Defined.

(** ** Updating a source file again *)

Section Overwrite.
Variables (fl pl sl : loc) (p : Package) (fset : FileSet).
Hypothesis Hset : fileSet p = Some sl.

Lemma linked_withFiles σ f f' :
  linked fl pl sl p fset σ f -> pkg f' = pkg f ->
  linked fl pl sl p fset (withFiles σ (<[fl := f']> (files σ))) f'.
Proof.
  intros (Hf & Hpkg & Hp & Hs) Hsame. repeat split; cbn; try done.
  - apply lookup_insert_eq.
  - congruence.
Qed.

(** The store after the loop of [SrcFile.update]. *)
Lemma attach_loop_store members : forall σ f,
  linked fl pl sl p fset σ f -> IsAbs (path f) = true ->
  forEach members (attachMember fl) σ
  = Some (tt, withFiles σ
                (<[fl := withMemSet f (memSet f ++ filter (fun m => attaches fset (path f) m = true)
                                                      (omap snd members))]> (files σ))).
Proof using Hset.
  induction members as [|[key [m|]] members IH]; intros σ f Hl Habs.
  - cbn. rewrite app_nil_r. destruct Hl as (Hf & _).
    replace (withMemSet f (memSet f)) with f by by destruct f.
    by rewrite withFiles_same.
  - change (omap snd ((key, Some m) :: members)) with (m :: omap snd members).
    cbn [forEach]. unfold attachMember at 1. cbn [snd].
    unfold bind at 1. unfold bind at 1. rewrite (Contain_spec fl pl sl p fset Hset σ f m Hl Habs).
    rewrite filter_cons.
    destruct (attaches fset (path f) m) eqn:Hat.
    + pose proof Hl as (Hf & _).
      run (getFile_Some _ _ _ Hf). unfold setFile.
      rewrite (IH _ (withMemSet f (memSet f ++ [m]))); [|by apply (linked_withFiles _ f)|done].
      rewrite withFiles_twice, decide_True by done.
      cbn [withMemSet memSet path code syntax pkg]. by rewrite <- app_assoc.
    + rewrite decide_False by done. by apply IH.
  - change (omap snd ((key, None) :: members)) with (omap (M:=list) snd members).
    cbn [forEach]. unfold attachMember at 1. cbn [snd].
    unfold bind at 1. cbn [ret]. by apply IH.
Qed.

Lemma update_store σ f code syn members :
  linked fl pl sl p fset σ f -> IsAbs (path f) = true ->
  SrcFile_update (Some fl) code syn members σ
  = Some (None, withFiles σ
                  (<[fl := {| pkg := pkg f; path := path f; code := code; syntax := syn;
                              memSet := filter (fun m => attaches fset (path f) m = true)
                                               (omap snd members) |}]> (files σ))).
Proof using Hset.
  intros Hl Habs. unfold SrcFile_update. pose proof Hl as (Hf & _).
  run (getFile_Some _ _ _ Hf).
  assert (Hput : setFile fl (withContent f code syn) σ
                 = Some (tt, withFiles σ (<[fl := withContent f code syn]> (files σ))))
    by reflexivity.
  run Hput.
  run (attach_loop_store members _ (withContent f code syn)
         (linked_withFiles σ f (withContent f code syn) Hl eq_refl) Habs).
  unfold ret. by rewrite withFiles_twice.
Qed.

End Overwrite.

(** X15: [SrcFile.update] overwrites: two updates in a row leave the
    store as the second update alone leaves it; nothing of the code, the
    syntax tree or the members of the first update is kept. *)
Theorem update_overwrites σ fl f pl p sl fset code1 syn1 members1 code2 syn2 members2 :
  files σ !! fl = Some f -> pkg f = Some pl -> packages σ !! pl = Some p ->
  fileSet p = Some sl -> fileSets σ !! sl = Some fset ->
  IsAbs (path f) = true ->
  exists σ1 σ2,
    SrcFile_update (Some fl) code1 syn1 members1 σ = Some (None, σ1)
    /\ SrcFile_update (Some fl) code2 syn2 members2 σ1 = Some (None, σ2)
    /\ SrcFile_update (Some fl) code2 syn2 members2 σ = Some (None, σ2).
Proof.
  intros Hf Hpkg Hp Hset Hs Habs.
  assert (Hl : linked fl pl sl p fset σ f) by done.
  eexists _, _. split; [by apply (update_store fl pl sl p fset Hset)|].
  split; [|by apply (update_store fl pl sl p fset Hset)].
  erewrite (update_store fl pl sl p fset Hset); [|by apply (linked_withFiles fl pl sl p fset _ f)|done].
  by rewrite withFiles_twice.
Qed.

Lemma update_overwrites_witness :
  exists σ1 σ2,
    SrcFile_update (Some 0%nat) Demo.brokenSource None Demo.members Demo.storeW
      = Some (None, σ1)
    /\ SrcFile_update (Some 0%nat) Demo.goodSource (Some (Demo.tree "r" 1)) [] σ1
       = Some (None, σ2)
    /\ SrcFile_update (Some 0%nat) Demo.goodSource (Some (Demo.tree "r" 1)) [] Demo.storeW
       = Some (None, σ2).
Proof.
  apply (update_overwrites Demo.storeW 0%nat (emptyFile 0%nat "/w/a.go") 0%nat
           (Demo.package "r" "/w" "/w" {[ "/w/a.go" := 0%nat ]} (Some 0%nat)) 0%nat
           (Demo.table "/w/a.go" "/w/c.go"));
    reflexivity.
Defined.

(** ** What the single-file pass leaves behind *)

Lemma getFile_inv σ l f σ' :
  getFile l σ = Some (f, σ') -> files σ !! l = Some f /\ σ' = σ.
Proof.
  unfold getFile. destruct (files σ !! l) as [f0|]; [|done]. cbn. by intros [= <- <-].
Qed.

Lemma getFileSet_inv σ l s σ' :
  getFileSet l σ = Some (s, σ') -> fileSets σ !! l = Some s /\ σ' = σ.
Proof.
  unfold getFileSet. destruct (fileSets σ !! l) as [s0|]; [|done]. cbn. by intros [= <- <-].
Qed.

Lemma SrcFile_Package_inv l σ r σ' :
  SrcFile_Package (Some l) σ = Some (r, σ') ->
  exists f, files σ !! l = Some f /\ r = pkg f /\ σ' = σ.
Proof.
  intros (f & σ1 & [Hf ->]%getFile_inv & [<- <-]%ret_inv)%bind_inv. eauto.
Qed.

Lemma SrcFile_Path_inv l σ r σ' :
  SrcFile_Path (Some l) σ = Some (r, σ') ->
  exists f, files σ !! l = Some f /\ r = path f /\ σ' = σ.
Proof.
  intros (f & σ1 & [Hf ->]%getFile_inv & [<- <-]%ret_inv)%bind_inv. eauto.
Qed.

Lemma Package_PkgPath_inv l σ r σ' :
  Package_PkgPath (Some l) σ = Some (r, σ') ->
  exists p, packages σ !! l = Some p /\ r = pkgPath p /\ σ' = σ.
Proof.
  intros (p & σ1 & [Hp ->]%getPackage_inv & [<- <-]%ret_inv)%bind_inv. eauto.
Qed.

Lemma SrcFile_update_nil_inv l code syn σ r σ' :
  SrcFile_update (Some l) code syn [] σ = Some (r, σ') ->
  exists f, files σ !! l = Some f /\ r = None
            /\ σ' = withFiles σ (<[l := withContent f code syn]> (files σ)).
Proof.
  intros H. destruct (files σ !! l) as [f|] eqn:Hf.
  - rewrite (SrcFile_update_nil _ _ _ _ _ Hf) in H. injection H as <- <-. eauto.
  - unfold SrcFile_update, bind, getFile in H. by rewrite Hf in H.
Qed.

(** What [parser.ParseFile] returns and what it changes: the position
    table alone. *)
Lemma ParseFile_inv fs goParse fset filename σ syn err σ' :
  ParseFile fs goParse fset filename σ = Some ((syn, err), σ') ->
  sameModel σ σ'
  /\ (err = None -> exists src parsed s,
        ReadFile fs filename = Ok src /\ goParse filename src = Ok parsed
        /\ fileSets σ !! fset = Some s
        /\ syn = Some {| ast_Name := pf_name parsed;
                         ast_Package := fset_base s + pf_package parsed;
                         ast_Imports := pf_imports parsed |}).
Proof.
  unfold ParseFile. destruct (ReadFile fs filename) as [src|e] eqn:Hread.
  - intros (s & σ1 & [Hs ->]%getFileSet_inv & H)%bind_inv.
    apply bind_inv in H as (u & σ2 & Hput & H). injection Hput as _ <-.
    destruct (goParse filename src) as [parsed|e] eqn:Hparse;
      apply ret_inv in H as [Heq <-]; injection Heq as <- <-; (split; [done|]); [|done].
    intros _. by exists src, parsed, s.
  - intros [Heq <-]%ret_inv. injection Heq as <- <-. split; [apply sameModel_refl|done].
Qed.

Section SingleRun.
Variable fs : FileSystem.
Variable goParse : string -> string -> result ParsedFile.
Variable goCheck : string -> list AstFile -> CheckResult.


(** X17: when the single-file pass reports no error, the file holds the
    bytes that were read under its path, which are not empty, and the
    syntax tree, and has no members; its package is marked as loaded,
    with this one path as the loaded files, no file error and the moment
    of loading, and holds the package object of the one call made to
    the type checker. *)
Theorem single_pass_postcondition srcFile σ σ' :
  parseSourceFileByFree fs goParse goCheck srcFile σ = Some (None, σ') ->
  exists fl f pl p src ast p' li,
    srcFile = Some fl /\ files σ !! fl = Some f /\ pkg f = Some pl
    /\ packages σ !! pl = Some p
    /\ ReadFile fs (path f) = Ok src /\ src <> EmptyString
    /\ files σ'
       = <[fl := {| pkg := Some pl; path := path f; code := src; syntax := Some ast;
                    memSet := [] |}]> (files σ)
    /\ checkLog σ' = (checkLog σ ++ [(pkgPath p, [ast])])%list
    /\ packages σ' !! pl = Some p' /\ sameIdentity p p' /\ srcFiles p' = srcFiles p
    /\ typePkg p' = chk_typePkg (goCheck (pkgPath p) [ast]) /\ is_Some (typePkg p')
    /\ loadInfo p' = Some li /\ LoadedFiles li = [path f] /\ FileErrors li = []
    /\ LoadTime li = clock σ
    /\ Package_IsLoaded (Some pl) σ' = Some (true, σ').
Proof.
  unfold parseSourceFileByFree. intros H.
  apply bind_inv in H as (filePkg & σ1 & Hpkg & H).
  apply bind_inv in H as (filePath & σ2 & Hpath & H).
  destruct srcFile as [fl|].
  2:{ apply ret_inv in Hpkg as [<- <-]. by apply ret_inv in H as [? _]. }
  apply SrcFile_Package_inv in Hpkg as (f & Hf & -> & ->).
  apply SrcFile_Path_inv in Hpath as (f' & Hf' & -> & ->).
  rewrite Hf in Hf'. injection Hf' as <-.
  destruct (pkg f) as [pl|] eqn:Hfp; [|by apply ret_inv in H as [? _]].
  destruct (ReadFile fs (path f)) as [src|] eqn:Hread; [|by apply ret_inv in H as [? _]].
  destruct (String.length src =? 0)%nat eqn:Hlen; [by apply ret_inv in H as [? _]|].
  apply bind_inv in H as (fileSet & σ3 & Hset & H). injection Hset as <- <-.
  apply bind_inv in H as ([syn parseErr] & σ4 & Hparse & H).
  apply ParseFile_inv in Hparse as [(Hg & Hp & Hfs & Hc & Hl) _]. cbn in Hg, Hp, Hfs, Hc, Hl.
  destruct parseErr; [by apply ret_inv in H as [? _]|].
  destruct syn as [ast|]; [|by apply ret_inv in H as [? _]].
  apply bind_inv in H as (o & σ5 & Hupd & H).
  apply SrcFile_update_nil_inv in Hupd as (f0 & Hf0 & _ & ->).
  rewrite Hfs, Hf in Hf0. injection Hf0 as <-.
  apply bind_inv in H as (pkgPath & σ6 & Hpp & H).
  apply Package_PkgPath_inv in Hpp as (p & Hpl & -> & ->).
  cbn in Hpl. rewrite Hp in Hpl.
  apply bind_inv in H as (u & σ7 & Hlog & H). injection Hlog as _ <-.
  destruct (chk_typePkg (goCheck (pkgPath p) [ast])) as [tp|] eqn:Htp;
    [|by apply ret_inv in H as [? _]].
  apply bind_inv in H as (u1 & σ8 & Hmod & H).
  apply modifyPackage_inv in Hmod as (p7 & Hp7 & ->).
  cbn in Hp7. rewrite Hp, Hpl in Hp7. injection Hp7 as <-.
  apply bind_inv in H as (u2 & σ9 & Himp & H).
  eassert (Hp8 : packages (withPackages _ _) !! pl = Some _) by apply lookup_insert_eq.
  destruct (appendImports_spec pl (ast_Imports ast) _ _ Hp8) as (found & Hrun).
  rewrite Hrun in Himp. injection Himp as _ <-. clear Hrun Hp8.
  apply bind_inv in H as (now & σ10 & Hnow & H). injection Hnow as <- <-.
  apply bind_inv in H as (u3 & σ11 & Hli & H).
  apply modifyPackage_inv in Hli as (p10 & Hp10 & ->).
  cbn in Hp10. rewrite lookup_insert_eq in Hp10. injection Hp10 as <-.
  apply ret_inv in H as [_ <-]. cbn.
  eexists fl, f, pl, p, src, ast, _, _.
  do 4 (split; [done|]). split; [done|]. split; [by destruct src|].
  split; [by rewrite Hfs; unfold withContent; rewrite Hfp|].
  split; [by rewrite Hl|].
  split; [apply lookup_insert_eq|].
  split; [done|]. split; [done|]. split; [done|]. split; [by eexists|].
  split; [reflexivity|]. split; [done|]. split; [done|]. split; [exact Hc|].
  unfold Package_IsLoaded, bind, getPackage. cbn [packages withPackages].
  by rewrite lookup_insert_eq.
Qed.

End SingleRun.


Lemma single_pass_postcondition_witness :
  exists fl f pl p src ast p' li,
    Some 0%nat = Some fl /\ files Demo.storeW !! fl = Some f /\ pkg f = Some pl
    /\ packages Demo.storeW !! pl = Some p
    /\ ReadFile Demo.fs (path f) = Ok src /\ src <> EmptyString
    /\ files Tour.loadedW
       = <[fl := {| pkg := Some pl; path := path f; code := src; syntax := Some ast;
                    memSet := [] |}]> (files Demo.storeW)
    /\ checkLog Tour.loadedW = (checkLog Demo.storeW ++ [(pkgPath p, [ast])])%list
    /\ packages Tour.loadedW !! pl = Some p' /\ sameIdentity p p'
    /\ srcFiles p' = srcFiles p
    /\ typePkg p' = chk_typePkg (Demo.goCheck (pkgPath p) [ast]) /\ is_Some (typePkg p')
    /\ loadInfo p' = Some li /\ LoadedFiles li = [path f] /\ FileErrors li = []
    /\ LoadTime li = clock Demo.storeW
    /\ Package_IsLoaded (Some pl) Tour.loadedW = Some (true, Tour.loadedW).
Proof.
  apply (single_pass_postcondition Demo.fs Demo.goParse Demo.goCheck (Some 0%nat)
           Demo.storeW Tour.loadedW).
  vm_compute. reflexivity.
Defined.

(** ** What the per-package pass leaves behind *)

Section PackageRun.
Variable fs : FileSystem.
Variable goCheck : string -> list AstFile -> CheckResult.

(** One turn of the reading loop: the package changes in its file
    registry at most, which grows; a tree is either turned into one file
    error or into one loaded, registered file. *)
Lemma readPackageFile_inv pl acc entry σ acc' σ' q :
  readPackageFile fs pl acc entry σ = Some (acc', σ') ->
  packages σ !! pl = Some q ->
  exists q',
    packages σ' !! pl = Some q' /\ q' = withSrcFiles q (srcFiles q')
    /\ programs σ' = programs σ /\ clock σ' = clock σ /\ checkLog σ' = checkLog σ
    /\ (forall path, is_Some (srcFiles q !! path) -> is_Some (srcFiles q' !! path))
    /\ match entry.2 with
       | None => acc' = acc
       | Some syn =>
           (exists e, acc' = (acc.1, addFileError acc.2 e))
           \/ (exists srcPath,
                 acc' = ((acc.1 ++ [syn])%list, addLoadedFile acc.2 srcPath)
                 /\ is_Some (srcFiles q' !! srcPath))
       end.
Proof.
  intros Hrun Hq. destruct acc as [astFiles li]. unfold readPackageFile in Hrun.
  assert (Hsame : q = withSrcFiles q (srcFiles q)) by by destruct q.
  destruct entry.2 as [syn|].
  2:{ apply ret_inv in Hrun as [<- <-]. by exists q. }
  apply bind_inv in Hrun as (p & σ1 & [Hp ->]%getPackage_inv & Hrun).
  apply bind_inv in Hrun as (pos & σ2 & Hpos & Hrun).
  assert (σ2 = σ) as ->.
  { unfold positionAt in Hpos. destruct (Pos_IsValid _); [|by apply ret_inv in Hpos as [_ <-]].
    destruct (fileSet p); [|done].
    by apply bind_inv in Hpos as (s & σ3 & [_ ->]%getFileSet_inv & [_ <-]%ret_inv). }
  destruct (ReadFile fs _) as [bytes|e].
  2:{ apply ret_inv in Hrun as [<- <-]. exists q. do 6 (split; [done|]). left. eauto. }
  destruct (String.length bytes =? 0)%nat.
  { apply ret_inv in Hrun as [<- <-]. exists q. do 6 (split; [done|]). left. eauto. }
  apply bind_inv in Hrun as (file & σ3 & Hnew & Hrun).
  rewrite (Package_newSrcFile_run _ _ _ _ Hq) in Hnew.
  apply bind_inv in Hrun as (o & σ4 & Hupd & Hrun).
  apply ret_inv in Hrun as [<- <-].
  destruct (srcFiles q !! _) as [fl|] eqn:Hreg; injection Hnew as <- <-;
    apply SrcFile_update_nil_inv in Hupd as (f0 & _ & _ & ->).
  - exists q. do 6 (split; [done|]). right. eexists. split; [done|]. by rewrite Hreg.
  - eexists. split; [apply lookup_insert_eq|]. split; [done|]. do 3 (split; [done|]).
    split.
    + intros path Hpath. cbn. destruct (decide (Abs fs (Filename pos) = path)) as [<-|Hne].
      * rewrite lookup_insert_eq. eauto.
      * by rewrite lookup_insert_ne.
    + right. eexists. split; [done|]. cbn. rewrite lookup_insert_eq. eauto.
Qed.

Lemma withSrcFiles_twice q a b : withSrcFiles (withSrcFiles q a) b = withSrcFiles q b.
Proof. done. Qed.

(** The reading loop as a whole. *)
Lemma read_loop_inv pl l : forall acc σ acc' σ' q,
  foldM l (readPackageFile fs pl) acc σ = Some (acc', σ') ->
  packages σ !! pl = Some q ->
  exists q',
    packages σ' !! pl = Some q' /\ q' = withSrcFiles q (srcFiles q')
    /\ programs σ' = programs σ /\ clock σ' = clock σ /\ checkLog σ' = checkLog σ
    /\ (length (LoadedFiles acc'.2) + length (FileErrors acc'.2)
        = length (LoadedFiles acc.2) + length (FileErrors acc.2) + length (omap snd l))%nat
    /\ (length acc'.1 + length (LoadedFiles acc.2)
        = length acc.1 + length (LoadedFiles acc'.2))%nat
    /\ (forall path, path ∈ LoadedFiles acc'.2 ->
          path ∈ LoadedFiles acc.2 \/ is_Some (srcFiles q' !! path))
    /\ (forall path, is_Some (srcFiles q !! path) -> is_Some (srcFiles q' !! path))
    /\ LoadTime acc'.2 = LoadTime acc.2 /\ IgnoredFiles acc'.2 = IgnoredFiles acc.2
    /\ DepsErrors acc'.2 = DepsErrors acc.2.
Proof.
  induction l as [|entry l IH]; intros acc σ acc' σ' q Hrun Hq.
  - apply ret_inv in Hrun as [<- <-]. exists q. split; [done|].
    split; [by destruct q|]. do 3 (split; [done|]). cbn.
    split; [lia|]. split; [lia|]. split; [by left|]. done.
  - cbn [foldM] in Hrun. apply bind_inv in Hrun as (acc1 & σ1 & Hstep & Hrun).
    destruct (readPackageFile_inv _ _ _ _ _ _ _ Hstep Hq)
      as (q1 & Hq1 & Hsame1 & Hg1 & Hc1 & Hl1 & Hmono1 & Hcase).
    destruct (IH _ _ _ _ _ Hrun Hq1)
      as (q' & Hq' & Hsame & Hg & Hc & Hl & Hcount & Hasts & Hreg & Hmono & Ht & Hi & Hd).
    exists q'. split; [done|]. split.
    { rewrite Hsame, Hsame1. apply withSrcFiles_twice. }
    split; [congruence|]. split; [congruence|]. split; [congruence|].
    destruct entry as [name [syn|]]; cbn [snd] in Hcase.
    + change (omap snd ((name, Some syn) :: l)) with (syn :: omap snd l).
      destruct Hcase as [[e ->]|(srcPath & -> & Hin)]; cbn in *.
      * rewrite !length_app in Hcount. cbn in Hcount.
        split; [lia|]. split; [lia|]. split; [done|]. split; [by eauto|]. done.
      * rewrite !length_app in Hcount. rewrite !length_app in Hasts.
        cbn in Hcount, Hasts.
        split; [lia|]. split; [lia|]. split; [|split; [by eauto|done]].
        intros path Hpath. destruct (Hreg path Hpath) as [Hold|?]; [|by right].
        apply elem_of_app in Hold as [?|Hone]; [by left|].
        apply list_elem_of_singleton in Hone as ->. right. by apply Hmono.
    + change (omap snd ((name, None) :: l)) with (omap (M:=list) snd l). subst acc1.
      split; [done|]. split; [done|]. split; [done|]. split; [by eauto|]. done.
Qed.

(** The outcome of a pass that reports no error. *)
Lemma package_pass_inv pl astPkg σ σ' :
  parseGoPackageByFree fs goCheck (Some pl) (Some astPkg) σ = Some (None, σ') ->
  exists p q astFiles li,
    packages σ !! pl = Some p
    /\ q = withSrcFiles p (srcFiles q)
    /\ (forall path, is_Some (srcFiles p !! path) -> is_Some (srcFiles q !! path))
    /\ checkLog σ' = (checkLog σ ++ [(pkgPath p, astFiles)])%list
    /\ packages σ' !! pl
       = Some (withImports
                 (withTypes (withLoadInfo q (Some
                               match chk_typeErr (goCheck (pkgPath p) astFiles),
                                     chk_typePkg (goCheck (pkgPath p) astFiles) with
                               | Some typeErr, _ => addTypeError li typeErr
                               | None, None =>
                                   addTypeError li (Errorf "no types.Package" EmptyString)
                               | None, Some _ => li
                               end))
                    (chk_typePkg (goCheck (pkgPath p) astFiles))
                    (Some (chk_typeInfo (goCheck (pkgPath p) astFiles)))
                    (Some defaultSizes))
                 (imports p ++ remove_dups (importsOf (map_to_list (ap_Files astPkg)))))
    /\ (length (LoadedFiles li) + length (FileErrors li)
        = length (omap snd (map_to_list (ap_Files astPkg))))%nat
    /\ length astFiles = length (LoadedFiles li)
    /\ (forall path, path ∈ LoadedFiles li -> is_Some (srcFiles q !! path))
    /\ LoadTime li = clock σ /\ IgnoredFiles li = [] /\ DepsErrors li = []
    /\ TypeErrors li = [] /\ IllTyped li = false.
Proof.
  unfold parseGoPackageByFree. intros H.
  destruct (size (ap_Files astPkg) =? 0)%nat; [by apply ret_inv in H as [? _]|].
  apply bind_inv in H as (now & σ1 & Hnow & H). injection Hnow as <- <-.
  apply bind_inv in H as (u1 & σ2 & Hmod & H).
  apply modifyPackage_inv in Hmod as (p & Hp & ->). cbn in Hp.
  apply bind_inv in H as ([astFiles li] & σ3 & Hfold & H).
  eassert (Hp2 : packages (withPackages _ _) !! pl = Some _) by apply lookup_insert_eq.
  pose proof (foldM_invariant
                (fun acc => IllTyped acc.2 = false /\ TypeErrors acc.2 = [])
                (readPackageFile fs pl) (map_to_list (ap_Files astPkg))
                (readPackageFile_untyped fs pl)
                ([], emptyLoadInfo (clock σ)) _ (astFiles, li) σ3 (conj eq_refl eq_refl) Hfold)
    as [Hill Herr].
  destruct (read_loop_inv _ _ _ _ _ _ _ Hfold Hp2)
    as (q & Hq & Hsame & Hg & Hc & Hl & Hcount & Hasts & Hreg & Hmono & Ht & Hi & Hd).
  cbn in Hcount, Hasts, Hreg, Ht, Hi, Hd, Hl, Hill, Herr.
  apply bind_inv in H as (pkgPath & σ4 & Hpp & H).
  apply Package_PkgPath_inv in Hpp as (q0 & Hq0 & -> & ->).
  rewrite Hq in Hq0. injection Hq0 as <-.
  apply bind_inv in H as (u2 & σ5 & Hlog & H). injection Hlog as _ <-.
  apply bind_inv in H as (u3 & σ6 & Hmod & H).
  apply modifyPackage_inv in Hmod as (q1 & Hq1 & ->). cbn in Hq1.
  rewrite Hq in Hq1. injection Hq1 as <-.
  apply bind_inv in H as (u4 & σ7 & Himp & H).
  apply modifyPackage_inv in Himp as (q2 & Hq2 & ->). cbn in Hq2.
  rewrite lookup_insert_eq in Hq2. injection Hq2 as <-.
  apply ret_inv in H as [_ <-].
  assert (Hpath : pkgPath q = pkgPath p) by (by rewrite Hsame).
  assert (Himports : imports q = imports p) by (by rewrite Hsame).
  exists p, (withLoadInfo q (loadInfo p)), astFiles, li.
  split; [done|]. split; [by rewrite Hsame at 1|]. split; [done|].
  split; [by cbn; rewrite Hl, Hpath|]. split.
  { cbn [packages withPackages]. rewrite lookup_insert_eq, Hpath. f_equal.
    unfold withImports, withTypes, withLoadInfo. cbn. by rewrite Himports. }
  split; [lia|]. split; [lia|]. split.
  { intros path Hpath'. by destruct (Hreg path Hpath') as [?%elem_of_nil|?]. }
  done.
Qed.

End PackageRun.

Lemma elem_of_concat {A} (ls : list (list A)) x :
  x ∈ concat ls <-> exists l, x ∈ l /\ l ∈ ls.
Proof.
  induction ls as [|l ls IH]; cbn.
  - split; [by intros ?%elem_of_nil|]. by intros (l & _ & ?%elem_of_nil).
  - rewrite elem_of_app, IH. split.
    + intros [?|(l' & ? & ?)]; [exists l|exists l']; (split; [done|]).
      * apply list_elem_of_here.
      * by apply list_elem_of_further.
    + intros (l' & Hx & [->|?]%elem_of_cons); [by left|]. right. by exists l'.
Qed.

Lemma elem_of_importsOf files path :
  path ∈ importsOf files <->
  path <> EmptyString
  /\ exists name ast value,
       (name, Some ast) ∈ files /\ Some value ∈ ast_Imports ast /\ path = Trim value quote.
Proof.
  unfold importsOf. rewrite list_elem_of_filter, nonEmpty_true, list_elem_of_fmap.
  split.
  - intros [Hne (value & -> & Hin)]. split; [done|].
    apply list_elem_of_omap in Hin as (o & Hin & Ho). destruct o as [v|]; [|done].
    cbn in Ho. injection Ho as ->.
    apply elem_of_concat in Hin as (specs & Hin & Hspecs).
    apply list_elem_of_fmap in Hspecs as (ast & -> & Hast).
    apply list_elem_of_omap in Hast as ([name o] & Hentry & Ho).
    cbn in Ho. subst o. by exists name, ast, value.
  - intros [Hne (name & ast & value & Hentry & Hin & ->)]. split; [done|].
    exists value. split; [done|].
    apply list_elem_of_omap. exists (Some value). split; [|done].
    apply elem_of_concat. exists (ast_Imports ast). split; [done|].
    apply list_elem_of_fmap. exists ast. split; [done|].
    apply list_elem_of_omap. by exists (name, Some ast).
Qed.

(** X18: a per-package pass that reports no error has accounted for every
    syntax tree that is not nil: each became either one loaded file or
    one file error. The loaded files are as many as the trees handed to
    the type checker in the one call made, and each of them is
    registered in the package; nothing is recorded as ignored or as a
    dependency error. *)
Theorem package_pass_accounts_for_every_file fs goCheck pl astPkg σ σ' :
  parseGoPackageByFree fs goCheck (Some pl) (Some astPkg) σ = Some (None, σ') ->
  exists p p' li astFiles,
    packages σ !! pl = Some p /\ packages σ' !! pl = Some p' /\ loadInfo p' = Some li
    /\ checkLog σ' = (checkLog σ ++ [(pkgPath p, astFiles)])%list
    /\ length astFiles = length (LoadedFiles li)
    /\ (length (LoadedFiles li) + length (FileErrors li)
        = length (omap snd (map_to_list (ap_Files astPkg))))%nat
    /\ (forall path, path ∈ LoadedFiles li -> is_Some (srcFiles p' !! path))
    /\ (forall path, is_Some (srcFiles p !! path) -> is_Some (srcFiles p' !! path))
    /\ LoadTime li = clock σ /\ IgnoredFiles li = [] /\ DepsErrors li = [].
Proof.
  intros (p & q & astFiles & li & Hp & Hsame & Hmono & Hlog & Hp' & Hcount & Hasts & Hreg
          & Ht & Hi & Hd & _)%package_pass_inv.
  eexists p, _, _, astFiles. split; [done|]. split; [exact Hp'|]. split; [reflexivity|].
  split; [done|].
  destruct (chk_typeErr (goCheck (pkgPath p) astFiles)) as [e|],
           (chk_typePkg (goCheck (pkgPath p) astFiles)) as [tp|]; cbn; done.
Qed.

(** X19: a per-package pass that reports no error appends to the imports
    of the package, once each, the import paths of its syntax trees that
    are not empty, quotes trimmed. What the package imported before stays
    in front, so loading a package again lists its imports again. *)
Theorem package_pass_appends_imports fs goCheck pl astPkg σ σ' :
  parseGoPackageByFree fs goCheck (Some pl) (Some astPkg) σ = Some (None, σ') ->
  exists p p' found,
    packages σ !! pl = Some p /\ packages σ' !! pl = Some p'
    /\ imports p' = (imports p ++ found)%list /\ NoDup found
    /\ forall path, path ∈ found <->
         path <> EmptyString
         /\ exists name ast value,
              ap_Files astPkg !! name = Some (Some ast) /\ Some value ∈ ast_Imports ast
              /\ path = Trim value quote.
Proof.
  intros (p & q & astFiles & li & Hp & _ & _ & _ & Hp' & _)%package_pass_inv.
  eexists p, _, _. split; [done|]. split; [exact Hp'|]. split; [reflexivity|].
  split; [apply NoDup_remove_dups|].
  intros path. rewrite elem_of_remove_dups, elem_of_importsOf.
  split; intros [Hne (name & ast & value & Hentry & Hrest)]; (split; [done|]);
    exists name, ast, value; (split; [|done]).
  - by apply elem_of_map_to_list in Hentry.
  - by apply elem_of_map_to_list.
Qed.

Lemma package_pass_accounts_for_every_file_witness :
  exists p p' li astFiles,
    packages Demo.storeW !! 0%nat = Some p /\ packages Tour.importedW !! 0%nat = Some p'
    /\ loadInfo p' = Some li
    /\ checkLog Tour.importedW = (checkLog Demo.storeW ++ [(pkgPath p, astFiles)])%list
    /\ length astFiles = length (LoadedFiles li)
    /\ (length (LoadedFiles li) + length (FileErrors li)
        = length (omap snd (map_to_list (ap_Files Tour.astImports))))%nat
    /\ (forall path, path ∈ LoadedFiles li -> is_Some (srcFiles p' !! path))
    /\ (forall path, is_Some (srcFiles p !! path) -> is_Some (srcFiles p' !! path))
    /\ LoadTime li = clock Demo.storeW /\ IgnoredFiles li = [] /\ DepsErrors li = [].
Proof.
  apply (package_pass_accounts_for_every_file Demo.fs Demo.goCheck 0%nat Tour.astImports
           Demo.storeW Tour.importedW).
  vm_compute. reflexivity.
Defined.

Lemma package_pass_appends_imports_witness :
  exists p p' found,
    packages Demo.storeW !! 0%nat = Some p /\ packages Tour.importedW !! 0%nat = Some p'
    /\ imports p' = (imports p ++ found)%list /\ NoDup found
    /\ forall path, path ∈ found <->
         path <> EmptyString
         /\ exists name ast value,
              ap_Files Tour.astImports !! name = Some (Some ast)
              /\ Some value ∈ ast_Imports ast /\ path = Trim value quote.
Proof.
  apply (package_pass_appends_imports Demo.fs Demo.goCheck 0%nat Tour.astImports
           Demo.storeW Tour.importedW).
  vm_compute. reflexivity.
Defined.

(** ** The exported loader of one file *)

Section BaseFile.
Variable fs : FileSystem.
Variable goParse : string -> string -> result ParsedFile.
Variable goCheckBase : string -> list AstFile -> CheckResult.

(** Every outcome of [LoadBaseFile]: an error that leaves programs,
    packages and files as they were, or a file in a package made for it,
    which holds no position table, no types and no load record. *)
Lemma LoadBaseFile_inv srcFile σ file err σ' :
  LoadBaseFile fs goParse goCheckBase srcFile σ = Some ((file, err), σ') ->
  programs σ' = programs σ
  /\ ((file = None /\ is_Some err /\ packages σ' = packages σ /\ files σ' = files σ)
      \/ (exists fl pl src ast,
            file = Some fl /\ err = None
            /\ ReadFile fs (Abs fs srcFile) = Ok src
            /\ packages σ !! pl = None /\ files σ !! fl = None
            /\ packages σ'
               = <[pl := {| program := None; pkgName := ast_Name ast;
                            pkgPath := Clean (Dir (Abs fs srcFile));
                            dirPath := Clean (Dir (Abs fs srcFile));
                            loadInfo := None; srcFiles := {[ Abs fs srcFile := fl ]};
                            fileSet := None; imports := []; typePkg := None;
                            typInfo := None; typSize := None |}]> (packages σ)
            /\ files σ'
               = <[fl := {| pkg := Some pl; path := Abs fs srcFile; code := src;
                            syntax := Some ast; memSet := [] |}]> (files σ))).
Proof.
  unfold LoadBaseFile. intros H.
  destruct (statNotExist fs srcFile).
  { apply ret_inv in H as [Heq <-]. injection Heq as <- <-. split; [done|]. left. eauto. }
  destruct (HasSuffix srcFile GoFileSuffix); cbn [negb] in H.
  2:{ apply ret_inv in H as [Heq <-]. injection Heq as <- <-. split; [done|]. left. eauto. }
  destruct (ReadFile fs (Abs fs srcFile)) as [src|readErr] eqn:Hread.
  2:{ apply ret_inv in H as [Heq <-]. injection Heq as <- <-. split; [done|]. left. eauto. }
  apply bind_inv in H as (fileSet & σ1 & Hset & H). injection Hset as _ <-.
  apply bind_inv in H as ([syn parseErr] & σ2 & Hparse & H).
  apply ParseFile_inv in Hparse as [(Hg & Hp & Hf & Hc & Hl) _]. cbn in Hg, Hp, Hf, Hc, Hl.
  destruct parseErr as [parseErr|].
  { apply ret_inv in H as [Heq <-]. injection Heq as <- <-. split; [done|]. left. eauto. }
  destruct syn as [ast|].
  2:{ apply ret_inv in H as [Heq <-]. injection Heq as <- <-. split; [done|]. left. eauto. }
  apply bind_inv in H as (u & σ3 & Hlog & H). injection Hlog as _ <-.
  assert (Hmade :
    (let* pkg := newPackage None (ast_Name ast) (Clean (Dir (Abs fs srcFile)))
                   (Clean (Dir (Abs fs srcFile))) in
     let* file := Package_newSrcFile (Some pkg) (Abs fs srcFile) in
     let* fileErr := SrcFile_update file src (Some ast) [] in
     match fileErr with
     | Some fileErr => ret (None, Some fileErr)
     | None => ret (file, None)
     end) (withCheckLog σ2 (checkLog σ2 ++ [(Clean (Dir (Abs fs srcFile)), [ast])]))
    = Some ((file, err), σ') ->
    programs σ' = programs σ
    /\ ((file = None /\ is_Some err /\ packages σ' = packages σ /\ files σ' = files σ)
        \/ (exists fl pl src0 ast0,
              file = Some fl /\ err = None /\ Ok src = Ok src0
              /\ packages σ !! pl = None /\ files σ !! fl = None
              /\ packages σ'
                 = <[pl := {| program := None; pkgName := ast_Name ast0;
                              pkgPath := Clean (Dir (Abs fs srcFile));
                              dirPath := Clean (Dir (Abs fs srcFile));
                              loadInfo := None; srcFiles := {[ Abs fs srcFile := fl ]};
                              fileSet := None; imports := []; typePkg := None;
                              typInfo := None; typSize := None |}]> (packages σ)
              /\ files σ'
                 = <[fl := {| pkg := Some pl; path := Abs fs srcFile; code := src0;
                              syntax := Some ast0; memSet := [] |}]> (files σ)))).
  { clear H. intros H.
    apply bind_inv in H as (pl & σ4 & Hnew & H). injection Hnew as <- <-.
    apply bind_inv in H as (made & σ5 & Hfile & H).
    eassert (Hpl : packages (withPackages _ _) !! fresh (dom (packages σ2)) = Some _)
      by apply lookup_insert_eq.
    rewrite (Package_newSrcFile_run _ _ _ _ Hpl) in Hfile. cbn [srcFiles] in Hfile.
    rewrite lookup_empty in Hfile. cbn zeta in Hfile. injection Hfile as <- <-.
    apply bind_inv in H as (fileErr & σ6 & Hupd & H).
    apply SrcFile_update_nil_inv in Hupd as (f0 & Hf0 & -> & ->).
    cbn in Hf0. rewrite lookup_insert_eq in Hf0. injection Hf0 as <-.
    apply ret_inv in H as [Heq <-]. injection Heq as <- <-. cbn.
    split; [done|]. right.
    exists (fresh (dom (files σ2))), (fresh (dom (packages σ2))), src, ast.
    split; [done|]. split; [done|]. split; [done|].
    rewrite Hp, Hf, !insert_insert_eq, insert_empty.
    split; [apply not_elem_of_dom, is_fresh|]. split; [apply not_elem_of_dom, is_fresh|].
    done. }
  destruct (chk_typeErr (goCheckBase (Clean (Dir (Abs fs srcFile))) [ast]));
    [by apply Hmade|].
  destruct (chk_typePkg (goCheckBase (Clean (Dir (Abs fs srcFile))) [ast]));
    [by apply Hmade|].
  apply ret_inv in H as [Heq <-]. injection Heq as <- <-. split; [done|]. left. eauto.
Qed.

(** X20: the file that [LoadBaseFile] returns holds the bytes read under
    its absolute path and the syntax tree, and is the one file of a package
    made for it, named by the tree and placed at the directory of the
    file. That package is in no program and is not loaded: it holds no
    load record, no position table and no types, whatever the type checker
    returned. *)
Theorem LoadBaseFile_returns_unloaded_package srcFile σ fl err σ' :
  LoadBaseFile fs goParse goCheckBase srcFile σ = Some ((Some fl, err), σ') ->
  err = None
  /\ exists pl f p ast,
       files σ' !! fl = Some f /\ pkg f = Some pl /\ path f = Abs fs srcFile
       /\ ReadFile fs (path f) = Ok (code f) /\ syntax f = Some ast /\ memSet f = []
       /\ packages σ' !! pl = Some p /\ packages σ !! pl = None
       /\ program p = None /\ pkgName p = ast_Name ast
       /\ pkgPath p = Clean (Dir (Abs fs srcFile)) /\ dirPath p = pkgPath p
       /\ Package_SrcFile (Some pl) (path f) σ' = Some (Some fl, σ')
       /\ Package_IsLoaded (Some pl) σ' = Some (false, σ')
       /\ Package_FileSet (Some pl) σ' = Some (None, σ')
       /\ Package_TypePkg (Some pl) σ' = Some (None, σ').
Proof.
  intros [_ [(Hnone & _)|(fl' & pl & src & ast & Hfl & -> & Hread & Hpl & Hfresh & Hp & Hf)]]
    %LoadBaseFile_inv; [done|].
  injection Hfl as <-. split; [done|].
  eexists pl, _, _, ast.
  split; [rewrite Hf; apply lookup_insert_eq|]. cbn.
  do 5 (split; [done|]).
  assert (Hp' : packages σ' !! pl = Some _) by (rewrite Hp; apply lookup_insert_eq).
  split; [exact Hp'|]. do 5 (split; [done|]).
  unfold Package_SrcFile, Package_IsLoaded, Package_FileSet, Package_TypePkg.
  rewrite !(bind_Some _ _ _ _ _ (getPackage_Some _ _ _ Hp')). unfold ret. cbn.
  by rewrite lookup_singleton_eq.
Qed.

(** X21: when [LoadBaseFile] returns no file it returns an error, and it
    has made nothing: the programs, packages and source files of the model
    are as they were. *)
Theorem LoadBaseFile_failure_creates_nothing srcFile σ err σ' :
  LoadBaseFile fs goParse goCheckBase srcFile σ = Some ((None, err), σ') ->
  is_Some err
  /\ programs σ' = programs σ /\ packages σ' = packages σ /\ files σ' = files σ.
Proof.
  intros [Hg [(_ & Herr & Hp & Hf)|(fl & pl & src & ast & Hfl & _)]]%LoadBaseFile_inv;
    done.
Qed.

(** X22: a file returned by [LoadBaseFile] cannot be asked whether it
    contains a valid position: its package has no position table, and
    [SrcFile.Contain] dereferences it. *)
Theorem Contain_after_LoadBaseFile_panics srcFile σ fl err σ' pos :
  LoadBaseFile fs goParse goCheckBase srcFile σ = Some ((Some fl, err), σ') ->
  Pos_IsValid pos = true ->
  SrcFile_Contain (Some fl) pos σ' = None.
Proof.
  intros [_ [(Hnone & _)|(fl' & pl & src & ast & Hfl & -> & Hread & Hpl & Hfresh & Hp & Hf)]]
    %LoadBaseFile_inv Hpos; [done|].
  injection Hfl as <-.
  assert (Hfile : files σ' !! fl = Some _) by (rewrite Hf; apply lookup_insert_eq).
  assert (Hpkg : packages σ' !! pl = Some _) by (rewrite Hp; apply lookup_insert_eq).
  unfold SrcFile_Contain. rewrite Hpos.
  run (getFile_Some _ _ _ Hfile). cbn [pkg].
  run (getPackage_Some _ _ _ Hpkg). cbn [fileSet].
  unfold positionAt. by rewrite Hpos.
Qed.

(** X23: [LoadBaseFile] succeeds on every existing file with the suffix
    [.go] that can be read and parsed, unless the type checker returns
    neither a package nor an error; a type error does not make it fail,
    and the package is named as the syntax tree says, wherever the
    package clause stands on its line. *)
Theorem LoadBaseFile_succeeds srcFile σ src parsed :
  statNotExist fs srcFile = None -> HasSuffix srcFile GoFileSuffix = true ->
  ReadFile fs (Abs fs srcFile) = Ok src ->
  goParse (Abs fs srcFile) src = Ok parsed ->
  (forall asts,
      is_Some (chk_typeErr (goCheckBase (Clean (Dir (Abs fs srcFile))) asts))
      \/ is_Some (chk_typePkg (goCheckBase (Clean (Dir (Abs fs srcFile))) asts))) ->
  exists fl pl p σ',
    LoadBaseFile fs goParse goCheckBase srcFile σ = Some ((Some fl, None), σ')
    /\ Package_SrcFile (Some pl) (Abs fs srcFile) σ' = Some (Some fl, σ')
    /\ packages σ' !! pl = Some p /\ pkgName p = pf_name parsed.
Proof.
  intros Hstat Hsuffix Hread Hparse Hcheck.
  unfold LoadBaseFile. rewrite Hstat, Hsuffix, Hread. cbn [negb].
  unfold bind at 1. cbn [allocFileSet].
  eassert (Hs : fileSets (withFileSets σ _) !! fresh (dom (fileSets σ)) = Some NewFileSet)
    by apply lookup_insert_eq.
  run (ParseFile_Ok fs goParse _ _ _ _ src parsed Hs Hread Hparse).
  unfold bind at 1. cbn [logCheck].
  set (ast := {| ast_Name := pf_name parsed |}).
  set (σ3 := withCheckLog _ _).
  assert (Hmade : exists fl pl p σ',
    (let* pkg := newPackage None (ast_Name ast) (Clean (Dir (Abs fs srcFile)))
                   (Clean (Dir (Abs fs srcFile))) in
     let* file := Package_newSrcFile (Some pkg) (Abs fs srcFile) in
     let* fileErr := SrcFile_update file src (Some ast) [] in
     match fileErr with
     | Some fileErr => ret (None, Some fileErr)
     | None => ret (file, None)
     end) σ3 = Some ((Some fl, None), σ')
    /\ Package_SrcFile (Some pl) (Abs fs srcFile) σ' = Some (Some fl, σ')
    /\ packages σ' !! pl = Some p /\ pkgName p = pf_name parsed).
  { unfold bind at 1. cbn [newPackage allocPackage].
    set (pl := fresh (dom (packages σ3))). set (σ4 := withPackages σ3 _).
    eassert (Hpl : packages σ4 !! pl = Some _) by apply lookup_insert_eq.
    run (Package_newSrcFile_run _ _ _ (Abs fs srcFile) Hpl). cbn [srcFiles].
    set (fl := fresh (dom (files σ4))). set (σ5 := withPackages _ _).
    eassert (Hfl : files σ5 !! fl = Some _) by apply lookup_insert_eq.
    run (SrcFile_update_nil _ _ _ src (Some ast) Hfl).
    set (σ6 := withFiles σ5 _).
    eassert (Hpl' : packages σ6 !! pl = Some _) by apply lookup_insert_eq.
    eexists fl, pl, _, σ6. split; [reflexivity|]. split.
    { unfold Package_SrcFile. run (getPackage_Some _ _ _ Hpl'). unfold ret. cbn.
      by rewrite lookup_insert_eq. }
    split; [exact Hpl'|]. done. }
  destruct (Hcheck [ast]) as [[e He]|[tp Htp]].
  - by rewrite He.
  - rewrite Htp. by destruct (chk_typeErr _).
Qed.

End BaseFile.

Lemma LoadBaseFile_returns_unloaded_package_witness :
  None = (None : option error)
  /\ exists pl f p ast,
       files Tour.baseLoaded !! 0%nat = Some f /\ pkg f = Some pl
       /\ path f = Abs Demo.fs "/w/c.go"
       /\ ReadFile Demo.fs (path f) = Ok (code f) /\ syntax f = Some ast /\ memSet f = []
       /\ packages Tour.baseLoaded !! pl = Some p /\ packages emptyStore !! pl = None
       /\ program p = None /\ pkgName p = ast_Name ast
       /\ pkgPath p = Clean (Dir (Abs Demo.fs "/w/c.go")) /\ dirPath p = pkgPath p
       /\ Package_SrcFile (Some pl) (path f) Tour.baseLoaded
          = Some (Some 0%nat, Tour.baseLoaded)
       /\ Package_IsLoaded (Some pl) Tour.baseLoaded = Some (false, Tour.baseLoaded)
       /\ Package_FileSet (Some pl) Tour.baseLoaded = Some (None, Tour.baseLoaded)
       /\ Package_TypePkg (Some pl) Tour.baseLoaded = Some (None, Tour.baseLoaded).
Proof.
  apply (LoadBaseFile_returns_unloaded_package Demo.fs Demo.goParse Demo.goCheck "/w/c.go"
           emptyStore 0%nat None Tour.baseLoaded).
  vm_compute. reflexivity.
Defined.

Lemma LoadBaseFile_failure_creates_nothing_witness :
  is_Some (Some (ParseError "/r/b.go:2:6: expected 'IDENT', found '{'"))
  /\ programs Tour.baseRefused = programs emptyStore
  /\ packages Tour.baseRefused = packages emptyStore
  /\ files Tour.baseRefused = files emptyStore.
Proof.
  apply (LoadBaseFile_failure_creates_nothing Demo.fs Demo.goParse Demo.goCheck "/r/b.go"
           emptyStore (Some (ParseError "/r/b.go:2:6: expected 'IDENT', found '{'"))
           Tour.baseRefused).
  vm_compute. reflexivity.
Defined.

Lemma Contain_after_LoadBaseFile_panics_witness :
  SrcFile_Contain (Some 0%nat) 5 Tour.baseLoaded = None.
Proof.
  apply (Contain_after_LoadBaseFile_panics Demo.fs Demo.goParse Demo.goCheck "/w/c.go"
           emptyStore 0%nat None Tour.baseLoaded 5).
  - vm_compute. reflexivity.
  - reflexivity.
Defined.

Lemma LoadBaseFile_succeeds_witness :
  exists fl pl p σ',
    LoadBaseFile Demo.fs Demo.goParse Demo.goCheck "/w/c.go" emptyStore
    = Some ((Some fl, None), σ')
    /\ Package_SrcFile (Some pl) (Abs Demo.fs "/w/c.go") σ' = Some (Some fl, σ')
    /\ packages σ' !! pl = Some p /\ pkgName p = "main".
Proof.
  apply (LoadBaseFile_succeeds Demo.fs Demo.goParse Demo.goCheck "/w/c.go" emptyStore
           Demo.commentedSource {| pf_name := "main"; pf_package := 11; pf_imports := [] |});
    try (vm_compute; reflexivity).
  intros asts. right. cbn. eauto.
Defined.

(** ** The loaders at the edges *)

Lemma walk_below_file elems : forall n data e rest,
  walk n elems = inr (Regular data) -> walk n (elems ++ e :: rest) = inl ENOTDIR.
Proof.
  induction elems as [|x elems IH]; intros n data e rest H.
  - cbn in H. by injection H as ->.
  - cbn in *. destruct n as [|entries]; [done|].
    destruct (entries !! x) as [child|]; [|done]. by eapply IH.
Qed.

Lemma ReadDir_sound fs path entries list name node :
  resolve fs path = inr (Directory entries) -> ReadDir fs path = Ok list ->
  (name, node) ∈ list -> entries !! name = Some node.
Proof.
  intros Hdir Hlist Hin. unfold ReadDir in Hlist. rewrite Hdir in Hlist.
  injection Hlist as <-. apply list_elem_of_omap in Hin as (n & _ & Hn).
  destruct (entries !! n) eqn:E; cbn in Hn; [|done]. by injection Hn as <- <-.
Qed.

Section Edges.
Variable fs : FileSystem.
Variable goParse : string -> string -> result ParsedFile.
Variable goCheck : string -> list AstFile -> CheckResult.

Lemma parseDir_skips fset path list : forall σ acc,
  Forall (fun d => goFileEntry d = false) list ->
  foldM list (parseDirEntry fs goParse fset path) acc σ = Some (acc, σ).
Proof.
  induction list as [|[name node] list IH]; intros σ [pkgs first] Hlist; [done|].
  apply Forall_cons in Hlist as [Hd Hlist]. cbn [foldM].
  assert (Hstep : parseDirEntry fs goParse fset path (pkgs, first) (name, node) σ
                  = Some ((pkgs, first), σ)).
  { unfold parseDirEntry, goFileEntry in *. cbn [fst snd] in *.
    destruct node; [|done]. by rewrite Hd. }
  run Hstep. by apply IH.
Qed.

(** X24: the three loaders examine what [os.Stat] returned also when it
    failed for another reason than a missing file. For a path below a
    regular file, where the failure is that a component is not a directory,
    each of them ends in a run-time panic and not in an error. *)
Theorem loaders_panic_below_a_file path e σ :
  Stat fs (Abs fs path) = Err e -> IsNotExist e = false ->
  loadSourceFileByFree fs goParse goCheck path σ = None
  /\ loadGoDirectoryByFree fs goParse goCheck path σ = None
  /\ loadAllDirectoriesByFree fs goParse goCheck path σ = None.
Proof.
  intros Hstat Hkind.
  unfold loadSourceFileByFree, loadGoDirectoryByFree, loadAllDirectoriesByFree.
  by rewrite Hstat, Hkind.
Qed.

(** X25: for a directory that holds no regular file with the suffix
    [.go], the directory loader returns the error "no go files in" with the
    absolute path of the directory, before any lookup of a manifest; the
    model is as it was. *)
Theorem directory_without_go_files goDir entries σ :
  resolve fs (Abs fs goDir) = inr (Directory entries) ->
  (forall name node, entries !! name = Some node -> goFileEntry (name, node) = false) ->
  exists σ',
    loadGoDirectoryByFree fs goParse goCheck goDir σ
    = Some (Err (Errorf "no go files in: %s" (Abs fs goDir)), σ')
    /\ sameModel σ σ'.
Proof.
  intros Hdir Hnone. unfold loadGoDirectoryByFree, Stat. rewrite Hdir. cbn [IsDir negb].
  unfold bind at 1. cbn [allocFileSet].
  destruct (ReadDir_entries fs _ _ Hdir) as (list & Hlist & _).
  assert (Hskip : Forall (fun d => goFileEntry d = false) list).
  { apply Forall_forall. intros [name node] Hin.
    apply Hnone. by eapply ReadDir_sound. }
  unfold ParseDir. rewrite Hlist.
  rewrite (bind_Some _ _ _ _ _ (bind_Some _ _ _ _ _ (parseDir_skips _ _ _ _ (∅, None) Hskip))).
  unfold ret at 1. cbn [default from_option id]. rewrite map_size_empty. cbn [Nat.eqb].
  eexists. split; [reflexivity|]. done.
Qed.

(** X26: the recursive loader returns no Package either: under an
    absolute working directory every outcome of
    [loadAllDirectoriesByFree] is an error, for the manifest lookup hands
    a directory to [newModule]. *)
Theorem recursive_loader_never_succeeds rootDir σ r σ' :
  IsAbs (cwd fs) = true ->
  loadAllDirectoriesByFree fs goParse goCheck rootDir σ = Some (r, σ') ->
  exists e, r = Err e.
Proof.
  intros Hcwd. unfold loadAllDirectoriesByFree.
  destruct (Stat fs (Abs fs rootDir)) as [info|err] eqn:Hstat.
  2:{ destruct (IsNotExist err); [|done]. intros H. apply ret_inv in H as [<- _]. eauto. }
  destruct (IsDir info) eqn:Hisdir; cbn [negb].
  2:{ intros H. apply ret_inv in H as [<- _]. eauto. }
  intros H. apply bind_inv in H as (fileSet & σ1 & _ & H).
  destruct (Stat_directory _ _ _ Hstat Hisdir) as [entries Hdir].
  assert (Hne : nonEmpty (Abs fs rootDir) = true).
  { destruct (Abs_canonical fs Hcwd rootDir) as (elems & _ & ->). apply render_nonEmpty. }
  destruct (initProgram_never_succeeds fs Hcwd (Abs fs rootDir) σ1 entries Hne Hdir)
    as [e Hinit].
  run Hinit in H. apply ret_inv in H as [<- _]. eauto.
Qed.

End Edges.

(** X27: [initProgram] yields a Program when it is handed the path of a
    manifest file in place of a directory: the lookup takes the file for a
    directory with a manifest, and [newModule] reads it. The module root is
    then the directory of that file. *)
Theorem initProgram_accepts_manifest_path fs cwd σ bytes :
  IsAbs (Os.cwd fs) = true -> nonEmpty cwd = true ->
  HasSuffix (Abs fs cwd) GoModFileName = true ->
  ReadFile fs (Abs fs cwd) = Ok bytes -> bytes <> EmptyString ->
  exists g m,
    initProgram fs cwd σ
    = Some ((Some g, None),
            withPrograms σ (<[g := {| pkgSet := ∅; module := Some m |}]> (programs σ)))
    /\ programs σ !! g = None
    /\ newModule fs (Abs fs cwd) = Ok m
    /\ GoModFile m = Abs fs cwd /\ RootPath m = Dir (Abs fs cwd).
Proof.
  intros Hcwd Hne Hsuffix Hread Hbytes.
  destruct (Abs_canonical fs Hcwd cwd) as (elems & Hgood & Habs).
  assert (Hfile : exists data, walk (Directory (root fs)) elems = inr (Regular data)).
  { unfold ReadFile in Hread. rewrite Habs, resolve_render in Hread by done.
    destruct (walk _ elems) as [code|[[data|]|entries]]; [done|by eauto|done|done]. }
  destruct Hfile as [data Hfile].
  assert (Hup : elems <> []) by (by intros ->).
  assert (Hmodule : exists m, newModule fs (Abs fs cwd) = Ok m
                              /\ GoModFile m = Abs fs cwd /\ RootPath m = Dir (Abs fs cwd)).
  { unfold newModule. rewrite (ReadFile_exists _ _ _ Hread), Hsuffix. cbn [negb].
    rewrite Habs, Abs_render, <- Habs, Hread by done.
    destruct bytes as [|c bytes]; [done|]. cbn [String.length Nat.eqb].
    eexists. split; [reflexivity|].
    by destruct (fold_goModLine_paths (Split (String c bytes) NewLine)
                   {| RootPath := Dir (Abs fs cwd); GoVersion := EmptyString;
                      GoModFile := Abs fs cwd; ModuleName := EmptyString;
                      DirectDeps := ∅; IndirectDeps := ∅ |}) as [-> ->]. }
  destruct Hmodule as (m & Hmodule & Hfields).
  exists (fresh (dom (programs σ))), m.
  split; [|split; [apply not_elem_of_dom, is_fresh|done]].
  unfold initProgram, goModFileOf. rewrite Hne, Habs, Abs_render by done.
  destruct (lookup_found fs (render elems) elems [] (String.length (render (elems ++ []))))
    as [Hrun _].
  - by rewrite app_nil_r.
  - apply render_length. by rewrite app_nil_r.
  - done.
  - unfold manifestSeen, statNotExist, Stat.
    rewrite resolve_render by (by apply good_snoc).
    by rewrite (walk_below_file _ _ _ _ [] Hfile).
  - intros mid rest' Heq Hmid. symmetry in Heq. by apply app_eq_nil in Heq as [-> _].
  - rewrite app_nil_r in Hrun. rewrite Hrun, <- Habs, Hmodule. done.
Qed.

Lemma loaders_panic_below_a_file_witness :
  loadSourceFileByFree Demo.fs Demo.goParse Demo.goCheck "/q/a.go/x" emptyStore = None
  /\ loadGoDirectoryByFree Demo.fs Demo.goParse Demo.goCheck "/q/a.go/x" emptyStore = None
  /\ loadAllDirectoriesByFree Demo.fs Demo.goParse Demo.goCheck "/q/a.go/x" emptyStore = None.
Proof.
  apply (loaders_panic_below_a_file Demo.fs Demo.goParse Demo.goCheck "/q/a.go/x"
           (PathError "stat" "/q/a.go/x" ENOTDIR) emptyStore); reflexivity.
Defined.

Lemma directory_without_go_files_witness :
  exists σ',
    loadGoDirectoryByFree Demo.fs Demo.goParse Demo.goCheck "/m" emptyStore
    = Some (Err (Errorf "no go files in: %s" (Abs Demo.fs "/m")), σ')
    /\ sameModel emptyStore σ'.
Proof.
  apply (directory_without_go_files Demo.fs Demo.goParse Demo.goCheck "/m"
           {[ "go.mod" := Regular (Some EmptyString) ]} emptyStore).
  - reflexivity.
  - intros name node [<- <-]%lookup_singleton_Some. reflexivity.
Defined.

Lemma recursive_loader_never_succeeds_witness :
  exists e, Err (Errorf "not go.mod: %s" "/q") = (Err e : result (list loc)).
Proof.
  apply (recursive_loader_never_succeeds Demo.fs Demo.goParse Demo.goCheck "/q" emptyStore
           (Err (Errorf "not go.mod: %s" "/q")) Tour.treeRefused).
  - reflexivity.
  - vm_compute. reflexivity.
Defined.

Lemma initProgram_accepts_manifest_path_witness :
  exists g m,
    initProgram Demo.fs "/q/go.mod" emptyStore
    = Some ((Some g, None),
            withPrograms emptyStore
              (<[g := {| pkgSet := ∅; module := Some m |}]> (programs emptyStore)))
    /\ programs emptyStore !! g = None
    /\ newModule Demo.fs (Abs Demo.fs "/q/go.mod") = Ok m
    /\ GoModFile m = Abs Demo.fs "/q/go.mod" /\ RootPath m = Dir (Abs Demo.fs "/q/go.mod").
Proof.
  apply (initProgram_accepts_manifest_path Demo.fs "/q/go.mod" emptyStore Demo.manifest);
    (reflexivity || discriminate).
Defined.

(** ** The walk and the grouping of [findPackagesAndGoFiles] *)






(** A file goes under the key of its directory, behind the files that are
    there. *)
Lemma group_lookup goFiles : forall pkgToFiles dir,
  fold_left addGoFile goFiles pkgToFiles !! dir
  = match filter (fun f => Dir f = dir) goFiles with
    | [] => pkgToFiles !! dir
    | found => Some (default [] (pkgToFiles !! dir) ++ found)%list
    end.
Proof.
  induction goFiles as [|f goFiles IH]; intros m dir; [done|].
  cbn [fold_left]. rewrite IH, filter_cons. unfold addGoFile.
  destruct (decide (Dir f = dir)) as [<-|Hne].
  - rewrite lookup_insert_eq. cbn [default from_option id].
    destruct (filter _ goFiles); by rewrite <- ?app_assoc.
  - by rewrite lookup_insert_ne.
Qed.

(** X28: in the map of [findPackagesAndGoFiles] every directory comes
    with a list that is not empty and holds exactly the visited files that
    are not directories, end in [.go] and have that directory as their
    [filepath.Dir]; no key is the empty string. So the recursive loader
    skips no entry of the map. *)
Theorem findPackagesAndGoFiles_groups fs rootDir dir files :
  findPackagesAndGoFiles fs rootDir !! dir = Some files ->
  files <> [] /\ dir <> EmptyString
  /\ forall f, f ∈ files <->
       Dir f = dir /\ HasSuffix f ".go" = true
       /\ (f, {| IsDir := false |}) ∈ Walk fs rootDir.
Proof.
  unfold findPackagesAndGoFiles. rewrite group_lookup, lookup_empty. cbn [default from_option id].
  set (goFiles := map fst _).
  assert (Hgo : forall f, f ∈ goFiles <->
            HasSuffix f ".go" = true /\ (f, {| IsDir := false |}) ∈ Walk fs rootDir).
  { intros f. subst goFiles. rewrite list_elem_of_fmap. split.
    - intros ([f' [isDir]] & -> & [Hkeep Hin]%list_elem_of_filter). cbn in *.
      apply andb_prop in Hkeep as [Hkind Hsuffix]. by destruct isDir.
    - intros [Hsuffix Hin]. exists (f, {| IsDir := false |}). split; [done|].
      apply list_elem_of_filter. by cbn; rewrite Hsuffix. }
  destruct (filter (fun f => Dir f = dir) goFiles) as [|f0 found] eqn:Hfound; [done|].
  intros [= <-]. split; [done|].
  assert (Hin : forall f, f ∈ f0 :: found <-> Dir f = dir /\ f ∈ goFiles).
  { intros f. by rewrite <- Hfound, list_elem_of_filter. }
  split.
  - destruct (proj1 (Hin f0) (list_elem_of_here _ _)) as [<- _].
    apply nonEmpty_true, Dir_nonEmpty.
  - intros f. rewrite Hin, Hgo. tauto.
Qed.


Lemma findPackagesAndGoFiles_groups_witness :
  ["/w/a.go"; "/w/c.go"] <> []
  /\ "/w" <> EmptyString
  /\ forall f, f ∈ ["/w/a.go"; "/w/c.go"] <->
       Dir f = "/w" /\ HasSuffix f ".go" = true
       /\ (f, {| IsDir := false |}) ∈ Walk Demo.fs "/w".
Proof.
  apply (findPackagesAndGoFiles_groups Demo.fs "/w" "/w" ["/w/a.go"; "/w/c.go"]).
  vm_compute. reflexivity.
Defined.

